(** * SoundJSON: a shallow embedding of [SoundJSON/sound_json.py]

    The converter normalises two sample formats (binary [sf2] containers and
    textual [sfz] zone definitions) into JSON patches.  This development
    embeds the converter as Rocq functions over an explicit world (file
    system plus the one piece of process-global state the module owns) and
    proves properties of the embedded functions.

    Conventions.
    - Python [str] is [string]; a character is a code point below 256.
    - A Python [dict] whose iteration order is observable is a [pydict]
      (insertion-ordered association list with in-place overwrite).
    - numpy float buffers are idealised as exact rationals ([Q]); rounding is
      not modelled.  Integer buffers are [Z] restricted to the int16 range.
    - The libraries the module calls (sfzparser, librosa, pydub, sf2utils,
      json, base64, eval) are fields of the record [Externals]. *)

From Stdlib Require Import ZArith QArith Qabs Ascii.
From stdpp Require Import gmap strings list fin_maps sorting pretty.

Local Open Scope string_scope.
Local Open Scope list_scope.

(** ** Python string primitives *)

Module PyStr.

Definition chr (n : nat) : ascii := Ascii.ascii_of_nat n.
Definition ord (c : ascii) : nat := Ascii.nat_of_ascii c.

Definition SP : ascii := chr 32.
Definition NL : ascii := chr 10.
Definition SLASH : ascii := chr 47.
Definition BACKSLASH : ascii := chr 92.
Definition DOT : ascii := chr 46.

Definition ascii_eqb (a b : ascii) : bool := Ascii.eqb a b.

(** [str.isspace] on one character (code points below 256). *)
Definition isspace (c : ascii) : bool :=
  let n := ord c in
  (((9 <=? n) && (n <=? 13)) || ((28 <=? n) && (n <=? 32))
   || (n =? 133) || (n =? 160))%nat.

(** [str.isalnum] on one character (code points below 256). *)
Definition isalnum (c : ascii) : bool :=
  let n := ord c in
  (((48 <=? n) && (n <=? 57)) || ((65 <=? n) && (n <=? 90))
   || ((97 <=? n) && (n <=? 122))
   || (n =? 170) || (n =? 178) || (n =? 179) || (n =? 181)
   || (n =? 185) || (n =? 186) || ((188 <=? n) && (n <=? 190))
   || ((192 <=? n) && (n <=? 214)) || ((216 <=? n) && (n <=? 246))
   || (248 <=? n))%nat.

Definition startswith (s p : string) : bool := String.prefix p s.

(** [sub in s] *)
Fixpoint contains (sub s : string) : bool :=
  String.prefix sub s ||
  match s with
  | EmptyString => false
  | String _ s' => contains sub s'
  end.

Fixpoint lstrip (s : string) : string :=
  match s with
  | String c s' => if isspace c then lstrip s' else s
  | EmptyString => EmptyString
  end.

Fixpoint rstrip_with (p : ascii -> bool) (s : string) : string :=
  match s with
  | EmptyString => EmptyString
  | String c s' =>
      match rstrip_with p s' with
      | EmptyString => if p c then EmptyString else String c EmptyString
      | r => String c r
      end
  end.

Definition rstrip (s : string) : string := rstrip_with isspace s.

(** [s.strip()] *)
Definition strip (s : string) : string := rstrip (lstrip s).

Definition endswith (s p : string) : bool :=
  String.eqb (String.substring (String.length s - String.length p)
                               (String.length p) s) p
  && (String.length p <=? String.length s)%nat.

(** [s.split(sep)] for a non-empty separator.  [skip] counts the
    characters of a separator occurrence still to be consumed; the head of
    the result is the token being read. *)
Fixpoint split_go (sep : string) (skip : nat) (s : string) : list string :=
  match s with
  | EmptyString => [EmptyString]
  | String c s' =>
      match skip with
      | S k => split_go sep k s'
      | O =>
          if String.prefix sep s
          then EmptyString :: split_go sep (String.length sep - 1) s'
          else match split_go sep 0 s' with
               | t :: ts => String c t :: ts
               | [] => [String c EmptyString]
               end
      end
  end.

Definition split (s sep : string) : list string := split_go sep 0 s.

(** [sep.join(l)] *)
Fixpoint join (sep : string) (l : list string) : string :=
  match l with
  | [] => EmptyString
  | [x] => x
  | x :: xs => x ++ sep ++ join sep xs
  end.

Fixpoint interleave (new s : string) : string :=
  match s with
  | EmptyString => new
  | String c s' => new ++ String c (interleave new s')
  end.

(** [s.replace(old, new)]; an empty [old] matches between all characters. *)
Definition replace (s old new : string) : string :=
  match old with
  | EmptyString => interleave new s
  | _ => join new (split s old)
  end.

(** [s[:-n]] *)
Definition drop_last (n : nat) (s : string) : string :=
  String.substring 0 (String.length s - n) s.

Fixpoint filter_chars (p : ascii -> bool) (s : string) : string :=
  match s with
  | EmptyString => EmptyString
  | String c s' => if p c then String c (filter_chars p s') else filter_chars p s'
  end.

Fixpoint map_chars (f : ascii -> ascii) (s : string) : string :=
  match s with
  | EmptyString => EmptyString
  | String c s' => String (f c) (map_chars f s')
  end.

(** [c in s] for one character *)
Fixpoint has_char (c : ascii) (s : string) : bool :=
  match s with
  | EmptyString => false
  | String c' s' => ascii_eqb c c' || has_char c s'
  end.

(** [str(n)] for a non-negative integer *)
Definition of_nat (n : nat) : string := pretty n.

Definition is_digit (c : ascii) : bool :=
  let n := ord c in ((48 <=? n) && (n <=? 57))%nat.

(** The white space [int] skips around a literal: the ASCII white space
    and, of the code points from 128 to 255, the two Unicode spaces.  The
    separators of code 28 to 31, which [str.strip] removes, are not among
    them. *)
Definition int_space (c : ascii) : bool :=
  let n := ord c in
  (((9 <=? n) && (n <=? 13)) || (n =? 32) || (n =? 133) || (n =? 160))%nat.

Fixpoint lstrip_with (p : ascii -> bool) (s : string) : string :=
  match s with
  | String c s' => if p c then lstrip_with p s' else s
  | EmptyString => EmptyString
  end.

(** What follows a digit of a literal: digits, two of which a single
    underscore may separate. *)
Fixpoint digits_go (acc : Z) (s : string) : option Z :=
  match s with
  | EmptyString => Some acc
  | String c s' =>
      if is_digit c
      then digits_go (10 * acc + Z.of_nat (ord c - 48))%Z s'
      else if ascii_eqb c (chr 95)
      then match s' with
           | String c' s'' =>
               if is_digit c'
               then digits_go (10 * acc + Z.of_nat (ord c' - 48))%Z s''
               else None
           | EmptyString => None
           end
      else None
  end.

(** [sys.int_info.default_max_str_digits]: the interpreter refuses a
    literal of more digits (CPython 3.11 and later). *)
Definition max_str_digits : N := 4300%N.

Definition digits (s : string) : option Z :=
  match s with
  | String c s' =>
      if is_digit c
         && (N.of_nat (String.length (filter_chars is_digit s)) <=? max_str_digits)%N
      then digits_go (Z.of_nat (ord c - 48)) s'
      else None
  | EmptyString => None
  end.

(** [int(s)] on a string: white space around the literal, an optional
    sign, and decimal digits with single underscores between them; [None]
    stands for [ValueError].  Digits outside ASCII are above code point 255
    and so outside the strings modelled. *)
Definition to_int (s : string) : option Z :=
  match rstrip_with int_space (lstrip_with int_space s) with
  | String c s' =>
      if ascii_eqb c (chr 45) then Z.opp <$> digits s'
      else if ascii_eqb c (chr 43) then digits s'
      else digits (String c s')
  | EmptyString => None
  end.

End PyStr.

(** ** Insertion-ordered dictionaries *)

Module PyDict.
Section Dict.
Context {V : Type}.

Definition t : Type := list (string * V).

(** [d.get(k)] / [d[k]] *)
Fixpoint get (k : string) (d : t) : option V :=
  match d with
  | [] => None
  | (k', v) :: d' => if bool_decide (k = k') then Some v else get k d'
  end.

(** [d[k] = v]: overwrite in place, or append a new key at the end. *)
Fixpoint set (k : string) (v : V) (d : t) : t :=
  match d with
  | [] => [(k, v)]
  | (k', v') :: d' =>
      if bool_decide (k = k') then (k, v) :: d' else (k', v') :: set k v d'
  end.

(** [k in d] *)
Definition mem (k : string) (d : t) : bool :=
  match get k d with Some _ => true | None => false end.

(** [for k, v in src.items(): d[k] = v] *)
Definition update (d src : t) : t :=
  fold_left (fun acc kv => set kv.1 kv.2 acc) src d.

Definition keys (d : t) : list string := d.*1.

(** [d.copy()]: a new object with the same items. *)
Definition copy (d : t) : t := d.
End Dict.
Arguments t : clear implicits.
End PyDict.

Abbreviation pydict := PyDict.t.

(** ** Python values and exceptions *)

(** A float: a finite value (idealised as a rational) or inf/nan. *)
Inductive pyfloat : Type :=
| Fin (q : Q)
| NonFinite.

#[warnings="-register-all"]
Inductive pyval : Type :=
| PNone
| PBool (b : bool)
| PInt (z : Z)
| PFloat (f : pyfloat)
| PStr (s : string)
| PList (l : list pyval)
| PDict (d : list (string * pyval)).

Inductive exn : Type :=
| KeyError (k : string)
| IndexError
| ValueError (msg : string)
| TypeError (msg : string)
| AttributeError (msg : string)
| FileNotFoundError (p : string)
| FileExistsError (p : string)
| IsADirectoryError (p : string)
| NotADirectoryError (p : string)
| RecursionError
| Exception (msg : string)
| ExternalError (msg : string).

Definition result (A : Type) : Type := exn + A.

#[global] Instance result_fmap : FMap result :=
  fun A B f r => match r with inl e => inl e | inr a => inr (f a) end.
#[global] Instance result_bind : MBind result :=
  fun A B f r => match r with inl e => inl e | inr a => f a end.

(** ** The world: the file system and the module's process-global state *)

(** [files] maps a path to the text of a regular file, [dirs] is the set of
    directories.  Paths are compared literally (no symbolic links, no
    [.]/[..] or doubled-slash aliases).  [replaceDict_default] is the object
    bound once to the default value of the parameter [replaceDict] of
    [sfz2soundJson]. *)
Record world : Type := World {
  files : gmap string string;
  dirs : gset string;
  replaceDict_default : pydict string;
}.

Definition set_files (f : gmap string string) (w : world) : world :=
  {| files := f; dirs := dirs w; replaceDict_default := replaceDict_default w |}.
Definition set_dirs (d : gset string) (w : world) : world :=
  {| files := files w; dirs := d; replaceDict_default := replaceDict_default w |}.
Definition set_replaceDict_default (r : pydict string) (w : world) : world :=
  {| files := files w; dirs := dirs w; replaceDict_default := r |}.

(** ** State and exception monad

    A computation maps a world to an outcome and a world; a raised exception
    keeps the effects performed before it. *)

Definition M (A : Type) : Type := world -> result A * world.

Definition ret {A} (a : A) : M A := fun w => (inr a, w).
Definition raise {A} (e : exn) : M A := fun w => (inl e, w).
Definition bind {A B} (m : M A) (f : A -> M B) : M B :=
  fun w => match m w with
           | (inl e, w') => (inl e, w')
           | (inr a, w') => f a w'
           end.
Definition lift {A} (r : result A) : M A := fun w => (r, w).
Definition gets {A} (f : world -> A) : M A := fun w => (inr (f w), w).
Definition modify (f : world -> world) : M unit := fun w => (inr tt, f w).

(** [try: m  except: h] with a bare [except]. *)
Definition try_except {A} (m : M A) (h : exn -> M A) : M A :=
  fun w => match m w with
           | (inl e, w') => h e w'
           | (inr a, w') => (inr a, w')
           end.

#[global] Instance M_ret : MRet M := @ret.
#[global] Instance M_bind : MBind M := fun A B f m => bind m f.
#[global] Instance M_fmap : FMap M := fun A B f m => bind m (fun a => ret (f a)).

(** [for x in l: st = body(st, x)] *)
Fixpoint for_each {A S} (body : S -> A -> M S) (l : list A) (st : S) : M S :=
  match l with
  | [] => ret st
  | x :: l' => bind (body st x) (for_each body l')
  end.

Definition from_option {A} (e : exn) (o : option A) : result A :=
  match o with Some a => inr a | None => inl e end.

(** ** [os.path] and file operations (POSIX) *)

Module OsPath.

Definition is_slash (c : ascii) : bool := PyStr.ascii_eqb c PyStr.SLASH.

(** Cut at the last ["/"]: [(p[:i], p[i:])] with [i = p.rfind("/") + 1]. *)
Fixpoint cut_last_slash (p : string) : option (string * string) :=
  match p with
  | EmptyString => None
  | String c p' =>
      match cut_last_slash p' with
      | Some (h, t) => Some (String c h, t)
      | None => if is_slash c then Some (String c EmptyString, p') else None
      end
  end.

Definition all_slashes (s : string) : bool :=
  String.eqb (PyStr.filter_chars (fun c => negb (is_slash c)) s) EmptyString.

(** [os.path.split] *)
Definition split (p : string) : string * string :=
  match cut_last_slash p with
  | None => (EmptyString, p)
  | Some (head, tail) =>
      if all_slashes head then (head, tail)
      else (PyStr.rstrip_with is_slash head, tail)
  end.

Definition dirname (p : string) : string := (split p).1.

(** [os.path.join(a, b)] *)
Definition join (a b : string) : string :=
  if PyStr.startswith b "/" then b
  else if String.eqb a EmptyString || PyStr.endswith a "/" then a ++ b
  else a ++ "/" ++ b.

Fixpoint lstrip_dots (s : string) : string :=
  match s with
  | String c s' => if PyStr.ascii_eqb c PyStr.DOT then lstrip_dots s' else s
  | EmptyString => EmptyString
  end.

(** Cut at the last ["."] of a file name: [(name[:i], name[i:])]. *)
Fixpoint cut_last_dot (s : string) : option (string * string) :=
  match s with
  | EmptyString => None
  | String c s' =>
      match cut_last_dot s' with
      | Some (r, e) => Some (String c r, e)
      | None => if PyStr.ascii_eqb c PyStr.DOT then Some (EmptyString, s) else None
      end
  end.

(** [os.path.splitext]: the extension starts at the last dot of the last
    component, unless only dots precede it there. *)
Definition splitext (p : string) : string * string :=
  let '(head, name) :=
    match cut_last_slash p with
    | Some (h, t) => (h, t)
    | None => (EmptyString, p)
    end in
  match cut_last_dot name with
  | None => (p, EmptyString)
  | Some (root, ext) =>
      if String.eqb (lstrip_dots root) EmptyString then (p, EmptyString)
      else ((head ++ root)%string, ext)
  end.

Definition isdir_in (w : world) (p : string) : bool :=
  bool_decide (p ∈ dirs w) || (all_slashes p && negb (String.eqb p EmptyString)).

Definition isfile_in (w : world) (p : string) : bool :=
  bool_decide (is_Some (files w !! p)).

Definition exists_in (w : world) (p : string) : bool :=
  isfile_in w p || isdir_in w p.

(** [os.path.exists], [os.path.isdir] *)
Definition exists_ (p : string) : M bool := gets (fun w => exists_in w p).
Definition isdir (p : string) : M bool := gets (fun w => isdir_in w p).

(** [os.mkdir] *)
Definition mkdir (name : string) : M unit :=
  fun w =>
    if String.eqb name EmptyString then (inl (FileNotFoundError name), w)
    else if exists_in w name then (inl (FileExistsError name), w)
    else
      let parent := dirname name in
      if String.eqb parent EmptyString || isdir_in w parent
      then (inr tt, set_dirs ({[name]} ∪ dirs w) w)
      else if isfile_in w parent then (inl (NotADirectoryError name), w)
      else (inl (FileNotFoundError name), w).

(** [os.makedirs(name, exist_ok=True)], following the library's
    recursion on the head of the path. *)
Fixpoint makedirs_go (fuel : nat) (name : string) : M unit :=
  match fuel with
  | O => raise RecursionError
  | S fuel' =>
      let '(head0, tail0) := split name in
      let '(head, tail) :=
        if String.eqb tail0 EmptyString then split head0 else (head0, tail0) in
      let final : M unit :=
        try_except (mkdir name)
          (fun e => bind (isdir name) (fun d => if d then ret tt else raise e)) in
      if negb (String.eqb head EmptyString) && negb (String.eqb tail EmptyString)
      then
        bind (exists_ head) (fun ex =>
          if ex then final
          else
            bind (try_except (makedirs_go fuel' head)
                    (fun e => match e with
                              | FileExistsError _ => ret tt
                              | _ => raise e
                              end))
                 (fun _ => if String.eqb tail "." then ret tt else final))
      else final
  end.

Definition makedirs (name : string) : M unit :=
  makedirs_go (S (String.length name)) name.

(** [open(p, "r").read()] *)
Definition read_file (p : string) : M string :=
  fun w =>
    match files w !! p with
    | Some text => (inr text, w)
    | None =>
        if isdir_in w p then (inl (IsADirectoryError p), w)
        else (inl (FileNotFoundError p), w)
    end.

(** [open(p, "w+").write(text)] *)
Definition write_file (p text : string) : M unit :=
  fun w =>
    if isdir_in w p then (inl (IsADirectoryError p), w)
    else
      let parent := dirname p in
      if String.eqb parent EmptyString || isdir_in w parent
      then (inr tt, set_files (<[p := text]> (files w)) w)
      else if isfile_in w parent then (inl (NotADirectoryError p), w)
      else (inl (FileNotFoundError p), w).

Definition with_slash (d : string) : string :=
  if PyStr.endswith d "/" then d else d ++ "/".

(** The name of [p] inside directory [d], when [p] is a direct entry. *)
Definition entry_name (d p : string) : option string :=
  let pre := with_slash d in
  if PyStr.startswith p pre
  then
    let n := String.substring (String.length pre)
               (String.length p - String.length pre) p in
    if String.eqb n EmptyString || PyStr.has_char PyStr.SLASH n
    then None else Some n
  else None.

(** The entries of a directory, in the order of the map. *)
Definition entries_in (w : world) (d : string) : list string :=
  omap (entry_name d) ((map_to_list (files w)).*1 ++ elements (dirs w)).

End OsPath.

(** ** numpy arrays (one-dimensional) *)

Module Np.

(** A buffer as the converter receives it: float32 samples (librosa) or
    int16 samples (sf2 containers). *)
Inductive ndarray : Type :=
| F32 (l : list Q)
| I16 (l : list Z).

Definition len (a : ndarray) : nat :=
  match a with F32 l => length l | I16 l => length l end.

Definition int16_wrap (z : Z) : Z := ((z + 32768) mod 65536 - 32768)%Z.

Definition qmax (a b : Q) : Q := if Qle_bool a b then b else a.

(** [np.max]: the signed maximum; an empty array raises. *)
Definition max_of {A} (mx : A -> A -> A) (l : list A) : result A :=
  match l with
  | [] => inl (ValueError "zero-size array to reduction operation maximum which has no identity")
  | x :: xs => inr (fold_left mx xs x)
  end.

Definition max (a : ndarray) : result Q :=
  match a with
  | F32 l => max_of qmax l
  | I16 l => inject_Z <$> max_of Z.max l
  end.

(** [np.abs]; on int16 the most negative value wraps to itself. *)
Definition abs (a : ndarray) : ndarray :=
  match a with
  | F32 l => F32 (Qabs <$> l)
  | I16 l => I16 ((fun z => int16_wrap (Z.abs z)) <$> l)
  end.

Definition values (a : ndarray) : list Q :=
  match a with F32 l => l | I16 l => inject_Z <$> l end.

(** Scalar float division: a zero divisor gives inf or nan, not an error. *)
Definition qdiv (x m : Q) : pyfloat :=
  if Qeq_bool m 0 then NonFinite else Fin (Qred (x / m)).

Definition fmul (x : pyfloat) (r : Q) : pyfloat :=
  match x with Fin q => Fin (Qred (q * r)) | NonFinite => NonFinite end.

(** [a / m] for a scalar [m] *)
Definition true_divide (a : ndarray) (m : Q) : list pyfloat :=
  (fun x => qdiv x m) <$> values a.

(** [np.arange(n) / n] *)
Definition ramp (n : nat) : list Q :=
  (fun i => Qred (inject_Z (Z.of_nat i) / inject_Z (Z.of_nat n))) <$> seq 0 n.

(** [np.arange(n)] *)
Definition arange (n : nat) : list Z := Z.of_nat <$> seq 0 n.

Definition shape_error : exn :=
  ValueError "operands could not be broadcast together".

(** [a *= b] on a view [a]: the result must have the shape of [a]. *)
Definition imul (a : list pyfloat) (b : list Q) : result (list pyfloat) :=
  if bool_decide (length b = length a) then inr (zip_with fmul a b)
  else match b with
       | [r] => inr ((fun x => fmul x r) <$> a)
       | _ => inl shape_error
       end.

(** [a * b] with broadcasting of a length-one operand *)
Definition mul (a b : list Z) : result (list Z) :=
  if bool_decide (length a = length b) then inr (zip_with Z.mul a b)
  else match a, b with
       | [x], _ => inr (Z.mul x <$> b)
       | _, [y] => inr ((fun x => Z.mul x y) <$> a)
       | _, _ => inl shape_error
       end.

(** [z[:n] = rhs] *)
Definition assign_prefix {A} (z : list A) (n : nat) (rhs : list A) : result (list A) :=
  let k := length (take n z) in
  if bool_decide (length rhs = k) then inr (rhs ++ drop n z)
  else match rhs with
       | [x] => inr (replicate k x ++ drop n z)
       | _ => inl shape_error
       end.

(** Truncation toward zero, as a float-to-integer cast does. *)
Definition qtrunc (q : Q) : Z := Z.quot (Qnum q) (Zpos (Qden q)).

(** [.astype(np.int16)] on floats; [nonfinite] is what the platform
    stores for inf and nan. *)
Definition astype_int16 (nonfinite : Z) (x : pyfloat) : Z :=
  match x with
  | Fin q => int16_wrap (qtrunc q)
  | NonFinite => nonfinite
  end.

(** [np.frombuffer(raw, dtype=np.int16)]: little-endian pairs of bytes. *)
Fixpoint frombuffer_int16 (raw : list Byte.byte) : result (list Z) :=
  match raw with
  | [] => inr []
  | [_] => inl (ValueError "buffer size must be a multiple of element size")
  | lo :: hi :: raw' =>
      (fun r => int16_wrap (Z.of_N (Byte.to_N lo) + 256 * Z.of_N (Byte.to_N hi)) :: r)
        <$> frombuffer_int16 raw'
  end.

End Np.

(** ** The container format as [sf2utils] exposes it *)

Module Sf2.

Record sample : Type := {
  raw_sample_data : list Byte.byte;
  sample_rate : Z;
  sample_name : string;
  original_pitch : option Z;      (* [None]: the attribute is absent *)
  start_loop : option Z;          (* [None]: the attribute is absent *)
  end_loop : Z;
  start : Z;
}.

Record bag : Type := {
  bag_sample : option sample;     (* absent attribute or [None] *)
  base_note : option Z;
}.

Record instrument : Type := {
  inst_name : string;
  bags : option (list bag);       (* [None]: the attribute is absent *)
}.

(** The patch dictionary built by [process_instrument]. *)
Record soundJsonDict : Type := {
  source : string;
  displayName : string;
  name : string;
  percussion : Z;
  percussiveSampleIndex : Z;
  loop : Z;
  success : bool;
  path : list string;
  samples : list (pydict pyval);
  outFilename : option string;
}.

Definition to_py (d : soundJsonDict) : pyval :=
  PDict ([("source", PStr (source d));
          ("displayName", PStr (displayName d));
          ("name", PStr (name d));
          ("percussion", PInt (percussion d));
          ("percussiveSampleIndex", PInt (percussiveSampleIndex d));
          ("loop", PInt (loop d));
          ("success", PBool (success d));
          ("path", PList (PStr <$> path d));
          ("samples", PList (PDict <$> samples d))]
         ++ match outFilename d with
            | Some f => [("outFilename", PStr f)]
            | None => []
            end).

(** What [sf22soundJson] returns: the merged JSON files found on disk, or
    the patches it has just built. *)
Inductive retval : Type :=
| Cached (patches : pydict pyval)
| Fresh (patches : pydict soundJsonDict).

End Sf2.

(** ** The text format's patch dictionary *)

Module Sfz.

Record soundJsonDict : Type := {
  globalDict : pydict pyval;
  masterDict : pydict pyval;
  groupDict : pydict pyval;
  displayName : string;
  path : string * string;
  success : bool;
  samples : list (pydict pyval);
  samplesLoadPoint : string;
}.

Definition to_py (d : soundJsonDict) : pyval :=
  PDict [("globalDict", PDict (globalDict d));
         ("masterDict", PDict (masterDict d));
         ("groupDict", PDict (groupDict d));
         ("displayName", PStr (displayName d));
         ("path", PList [PStr (path d).1; PStr (path d).2]);
         ("success", PBool (success d));
         ("samples", PList (PDict <$> samples d));
         ("samplesLoadPoint", PStr (samplesLoadPoint d))].

(** What [sfz2soundJson] returns: nothing, the text of an existing output
    file, or the one-entry dictionary [{filename: soundJsonDict}]. *)
Inductive retval : Type :=
| RNone
| RText (text : string)
| RDoc (filename : string) (d : soundJsonDict).

Definition retval_to_py (r : retval) : pyval :=
  match r with
  | RNone => PNone
  | RText t => PStr t
  | RDoc f d => PDict [(f, to_py d)]
  end.

Definition set_section (sectionName : string) (v : pydict pyval)
    (d : soundJsonDict) : soundJsonDict :=
  {| globalDict := if bool_decide (sectionName = "global") then v else globalDict d;
     masterDict := if bool_decide (sectionName = "master") then v else masterDict d;
     groupDict := if bool_decide (sectionName = "group") then v else groupDict d;
     displayName := displayName d; path := path d; success := success d;
     samples := samples d; samplesLoadPoint := samplesLoadPoint d |}.

Definition set_success (b : bool) (d : soundJsonDict) : soundJsonDict :=
  {| globalDict := globalDict d; masterDict := masterDict d;
     groupDict := groupDict d; displayName := displayName d; path := path d;
     success := b; samples := samples d;
     samplesLoadPoint := samplesLoadPoint d |}.

Definition set_samples (l : list (pydict pyval)) (d : soundJsonDict) : soundJsonDict :=
  {| globalDict := globalDict d; masterDict := masterDict d;
     groupDict := groupDict d; displayName := displayName d; path := path d;
     success := success d; samples := l;
     samplesLoadPoint := samplesLoadPoint d |}.

Definition set_samplesLoadPoint (p : string) (d : soundJsonDict) : soundJsonDict :=
  {| globalDict := globalDict d; masterDict := masterDict d;
     groupDict := groupDict d; displayName := displayName d; path := path d;
     success := success d; samples := samples d;
     samplesLoadPoint := p |}.

End Sfz.

(** ** The libraries the converter calls *)

Record Externals : Type := {
  (** [sfzparser.SFZParser(text).sections]; every section carries its own
      attribute dictionary. *)
  sfz_parse : string -> result (list (string * pydict pyval));
  (** [sfzparser.sfz_note_to_midi_key] *)
  sfz_note_to_midi_key : pyval -> result Z;
  (** [librosa.load(path, sr=None)] on the bytes of the file: a mono float
      buffer and its sample rate. *)
  librosa_load : string -> result (list Q * Z);
  (** [AudioSegment(frames, ...).export(format="mp3")], base64-encoded *)
  export_mp3_b64 : list Z -> Z -> result string;
  (** [AudioSegment(frames, ...).export(format="wav")], base64-encoded *)
  export_wav_b64 : list Z -> Z -> result string;
  (** [base64.b64encode(bytes).decode("utf-8")] *)
  b64encode : string -> string;
  (** [json.dumps(v, indent=..., sort_keys=...)] *)
  json_dumps : option nat -> bool -> pyval -> result string;
  (** [json.load] *)
  json_loads : string -> result pyval;
  (** [Sf2File(file).instruments] on the bytes of the file *)
  Sf2File : string -> result (list Sf2.instrument);
  (** [eval] of the token following an inclusion directive.  The token is
      taken to be an expression without effects, such as the quoted file
      name the format prescribes: what [eval] does to the files or to the
      module's state when the token is other code is not modelled. *)
  py_eval : string -> result pyval;
  (** The order in which [os.listdir] reports entries. *)
  listdir_order : list string -> list string;
  (** The order in which the pool's tasks complete, by submission index. *)
  completion_order : nat -> list nat;
  completion_order_perm : forall n, completion_order n ≡ₚ seq 0 n;
  (** The int16 stored for a non-finite float. *)
  cast_nonfinite : Z;
}.

(** ** The converter *)

Definition nl : string := String PyStr.NL EmptyString.

(** [for x in l: st = body(st, x)] without effects on the world *)
Fixpoint fold_result {A S} (body : S -> A -> result S) (l : list A) (st : S) : result S :=
  match l with
  | [] => inr st
  | x :: l' => match body st x with
               | inl e => inl e
               | inr st' => fold_result body l' st'
               end
  end.

Definition as_str (v : pyval) : result string :=
  match v with
  | PStr s => inr s
  | _ => inl (TypeError "expected str")
  end.

(** [int(v)] *)
Definition py_int (v : pyval) : result Z :=
  match v with
  | PInt z => inr z
  | PBool b => inr (if b then 1 else 0)%Z
  | PFloat (Fin q) => inr (Np.qtrunc q)
  | PFloat NonFinite => inl (ValueError "cannot convert float to integer")
  | PStr s => from_option (ValueError "invalid literal for int()") (PyStr.to_int s)
  | _ => inl (TypeError "int() argument must be a string or a number")
  end.

Definition safe_chars : string := "-_.() ".

Definition sanitize_filename (name : string) : string :=
  let sanitized :=
    PyStr.strip
      (PyStr.map_chars
         (fun c => if PyStr.isalnum c || PyStr.has_char c safe_chars
                   then c else PyStr.chr 95)
         name) in
  if String.eqb sanitized EmptyString then "instrument" else sanitized.

(** The macro substitutions of one line, in the table's iteration order. *)
Definition substitute (replaceDict : pydict string) (line : string) : string :=
  fold_left (fun l kv => PyStr.replace l kv.1 kv.2) replaceDict line.

(** Lines 168-169: the name and the replacement text of a definition line. *)
Definition parse_define (line : string) : result (string * string) :=
  let toks := PyStr.split line " " in
  k ← from_option IndexError (toks !! 1%nat);
  inr (k, PyStr.join EmptyString (drop 2 toks)).

(** Lines 185-187: the inherited dictionaries are written over the region's
    own dictionary, global first and group last. *)
Definition inherit (d : Sfz.soundJsonDict) (sampleDict : pydict pyval) : pydict pyval :=
  fold_left PyDict.update [Sfz.globalDict d; Sfz.masterDict d; Sfz.groupDict d] sampleDict.

(** Assignment of the file names of a container's instruments
    (lines 86-96). *)
Fixpoint unique_names (name_counts : gmap string nat) (l : list Sf2.instrument)
    : list (Sf2.instrument * string) :=
  match l with
  | [] => []
  | sf2inst :: l' =>
      if String.eqb (Sf2.inst_name sf2inst) "EOI" then unique_names name_counts l'
      else
        let sanitized := sanitize_filename (Sf2.inst_name sf2inst) in
        let count := default 0%nat (name_counts !! sanitized) in
        let unique_name :=
          if (count =? 0)%nat then sanitized
          else (sanitized ++ "_" ++ PyStr.of_nat count)%string in
        (sf2inst, unique_name)
          :: unique_names (<[sanitized := (count + 1)%nat]> name_counts) l'
  end.

(** An element of the iterable given to [dict.update], read as a key and a
    value: a sequence of length two (a list, a string of two characters, or
    a dictionary, which is iterated by its keys). *)
Definition as_pair (item : pyval) : result (pyval * pyval) :=
  match item with
  | PList [k; v] => inr (k, v)
  | PStr (String a (String b EmptyString)) =>
      inr (PStr (String a EmptyString), PStr (String b EmptyString))
  | PDict [(k1, _); (k2, _)] => inr (PStr k1, PStr k2)
  | PList _ | PStr _ | PDict _ =>
      inl (ValueError "dictionary update sequence element has length other than 2")
  | PNone | PBool _ | PInt _ | PFloat _ =>
      inl (TypeError "cannot convert dictionary update sequence element to a sequence")
  end.

(** The key of a pair.  A [pydict] has string keys: a key that is a
    number, a boolean or [None], which Python would accept, has no
    counterpart and stops the model with [ExternalError]. *)
Definition dict_key (k : pyval) : result string :=
  match k with
  | PStr s => inr s
  | PList _ | PDict _ => inl (TypeError "unhashable type")
  | PNone | PBool _ | PInt _ | PFloat _ =>
      inl (ExternalError "dictionary key that is not a string")
  end.

(** [patches.update(v)] for a loaded JSON value: a mapping is merged, any
    other iterable is read as a sequence of pairs. *)
Definition update_from_py (patches : pydict pyval) (v : pyval) : result (pydict pyval) :=
  match v with
  | PDict d => inr (PyDict.update patches d)
  | PList l =>
      fold_result
        (fun acc item =>
           kv ← as_pair item;
           k ← dict_key kv.1;
           inr (PyDict.set k kv.2 acc))
        l patches
  | PStr EmptyString => inr patches
  | PStr _ =>
      inl (ValueError "dictionary update sequence element has length other than 2")
  | PNone | PBool _ | PInt _ | PFloat _ => inl (TypeError "object is not iterable")
  end.

Definition str_le (a b : string) : Prop := Is_true (String.leb a b).

#[global] Instance str_le_dec a b : Decision (str_le a b) := _.

Inductive convresult : Type :=
| CEmpty
| CSf2 (r : Sf2.retval)
| CSfz (r : Sfz.retval).

Section Converter.

Context (E : Externals).

(** [os.listdir] *)
Definition listdir (d : string) : M (list string) :=
  fun w =>
    if OsPath.isdir_in w d
    then (inr (listdir_order E (OsPath.entries_in w d)), w)
    else if OsPath.isfile_in w d then (inl (NotADirectoryError d), w)
    else (inl (FileNotFoundError d), w).

Definition toFile (outFilename : string) (outjson : pyval) : M unit :=
  let directory := OsPath.dirname outFilename in
  text ← lift (json_dumps E (Some 2%nat) true outjson);
  _ ← OsPath.makedirs directory;
  OsPath.write_file outFilename text.

(** *** Audio normalizer *)

Definition buffer2mp3b64 (y : Np.ndarray) (samplerate : Z) : result string :=
  peak ← Np.max (Np.abs y);
  let y1 := Np.true_divide y peak in
  faded ← Np.imul (take 32 y1) (Np.ramp 32);
  let y2 := faded ++ drop 32 y1 in
  export_mp3_b64 E
    (Np.astype_int16 (cast_nonfinite E) <$> ((fun x => Np.fmul x 16384) <$> y2))
    samplerate.

Definition buffer2wavb64 (y : Np.ndarray) (samplerate : Z) : result string :=
  match y with
  | Np.F32 _ => inl (Exception "dtype must be np.int16")
  | Np.I16 l =>
      scaled ← Np.mul (take 32 l) (Np.arange 32);
      let rhs := (fun p => Np.int16_wrap (Z.quot p 32)) <$> scaled in
      z ← Np.assign_prefix l 32 rhs;
      export_wav_b64 E z samplerate
  end.

(** *** Container instrument extractor *)

Definition processSf2Sample (sample : Sf2.sample) (bag : Sf2.bag)
    (soundJsonDict : Sf2.soundJsonDict) (compress : bool)
    : result Sf2.soundJsonDict :=
  ys ← Np.frombuffer_int16 (Sf2.raw_sample_data sample);
  let y := Np.I16 ys in
  audio ← (if compress
           then (fun a => (a, "mp3")) <$> buffer2mp3b64 y (Sf2.sample_rate sample)
           else (fun a => (a, "wav")) <$> buffer2wavb64 y (Sf2.sample_rate sample));
  pitch_keycenter ←
    match Sf2.base_note bag with
    | Some n => inr n
    | None =>
        match Sf2.original_pitch sample with
        | Some p => inr p
        | None => from_option (ValueError "invalid literal for int()")
                    (PyStr.to_int (Sf2.sample_name sample))
        end
    end;
  peak ← Np.max y;
  let sampleDict : pydict pyval :=
    [("sampleNo", PInt (Z.of_nat (length (Sf2.samples soundJsonDict))));
     ("channels", PInt 1);
     ("sample_rate", PInt (Sf2.sample_rate sample));
     ("sample", PStr (Sf2.sample_name sample));
     ("lengthSamples", PInt (Z.of_nat (length ys)));
     ("audioFormat", PStr audio.2);
     ("audioData", PStr audio.1);
     ("pitch_keycenter", PInt pitch_keycenter);
     ("gain", PFloat (Np.qdiv 65536 peak))] in
  let percussive := negb (Sf2.percussion soundJsonDict =? 0)%Z in
  let sampleDict :=
    if percussive
    then PyDict.set "pitch_keycenter"
           (PInt (Sf2.percussiveSampleIndex soundJsonDict)) sampleDict
    else sampleDict in
  let index :=
    if percussive then (Sf2.percussiveSampleIndex soundJsonDict + 1)%Z
    else Sf2.percussiveSampleIndex soundJsonDict in
  let sampleDict :=
    match Sf2.start_loop sample with
    | Some start_loop =>
        if negb (Sf2.loop soundJsonDict =? 0)%Z
        then
          PyDict.update sampleDict
            [("loop_start",
               PInt (if (start_loop <? Sf2.start sample)%Z then start_loop
                     else (start_loop - Sf2.start sample)%Z));
             ("loop_end",
               PInt (if (Sf2.start sample <=? start_loop)%Z
                     then (Sf2.end_loop sample - Sf2.start sample)%Z
                     else Sf2.end_loop sample));
             ("loop", PInt 1);
             ("loop_mode", PStr "loop_continuous")]
        else sampleDict
    | None => sampleDict
    end in
  let sampleDict := PyDict.set "samplesLoadPoint" (PStr EmptyString) sampleDict in
  inr {| Sf2.source := Sf2.source soundJsonDict;
         Sf2.displayName := Sf2.displayName soundJsonDict;
         Sf2.name := Sf2.name soundJsonDict;
         Sf2.percussion := Sf2.percussion soundJsonDict;
         Sf2.percussiveSampleIndex := index;
         Sf2.loop := Sf2.loop soundJsonDict;
         Sf2.success := Sf2.success soundJsonDict;
         Sf2.path := Sf2.path soundJsonDict;
         Sf2.samples := Sf2.samples soundJsonDict ++ [sampleDict];
         Sf2.outFilename := Sf2.outFilename soundJsonDict |}.

Definition new_patch (filename_noext : string) (inst : Sf2.instrument)
    : Sf2.soundJsonDict :=
  {| Sf2.source := "sf2";
     Sf2.displayName := Sf2.inst_name inst;
     Sf2.name := Sf2.inst_name inst;
     Sf2.percussion := 0;
     Sf2.percussiveSampleIndex := 45;
     Sf2.loop := 0;
     Sf2.success := true;
     Sf2.path := [(OsPath.split filename_noext).1; (OsPath.split filename_noext).2;
                  Sf2.inst_name inst];
     Sf2.samples := [];
     Sf2.outFilename := None |}.

Definition process_bag (compress : bool) (soundJsonDict : Sf2.soundJsonDict)
    (bag : Sf2.bag) : result Sf2.soundJsonDict :=
  match Sf2.bag_sample bag with
  | Some sample => processSf2Sample sample bag soundJsonDict compress
  | None => inr soundJsonDict
  end.

Definition process_instrument (inFilename filename_noext : string) (compress : bool)
    (inst : Sf2.instrument) (unique_name : string)
    : M (string * Sf2.soundJsonDict) :=
  soundJsonDict ←
    lift (match Sf2.bags inst with
          | Some bags => fold_result (process_bag compress) bags
                           (new_patch filename_noext inst)
          | None => inr (new_patch filename_noext inst)
          end);
  let primaryKey := (inFilename ++ "_" ++ Sf2.inst_name inst)%string in
  let out_path := OsPath.join filename_noext (unique_name ++ ".json")%string in
  let soundJsonDict :=
    {| Sf2.source := Sf2.source soundJsonDict;
       Sf2.displayName := Sf2.displayName soundJsonDict;
       Sf2.name := Sf2.name soundJsonDict;
       Sf2.percussion := Sf2.percussion soundJsonDict;
       Sf2.percussiveSampleIndex := Sf2.percussiveSampleIndex soundJsonDict;
       Sf2.loop := Sf2.loop soundJsonDict;
       Sf2.success := Sf2.success soundJsonDict;
       Sf2.path := Sf2.path soundJsonDict;
       Sf2.samples := Sf2.samples soundJsonDict;
       Sf2.outFilename := Some out_path |} in
  _ ← toFile out_path (PDict [(primaryKey, Sf2.to_py soundJsonDict)]);
  mret (primaryKey, soundJsonDict).

(** A submitted task runs to completion; what it raises is kept in its
    future. *)
Definition run_task {A} (task : M A) : M (result A) :=
  fun w => let '(r, w') := task w in (inr r, w').

(** The pool: every task runs, in the order of completion. *)
Definition run_pool {A} (tasks : list (M A)) : M (list (result A)) :=
  for_each
    (fun done i =>
       match tasks !! i with
       | Some task => r ← run_task task; mret (done ++ [r])
       | None => mret done
       end)
    (completion_order E (length tasks)) [].

(** Lines 132-134: [future.result()] re-raises a task's exception. *)
Definition collect (results : list (result (string * Sf2.soundJsonDict)))
    : result (pydict Sf2.soundJsonDict) :=
  fold_result
    (fun patches r => match r with
                      | inl e => inl e
                      | inr (primaryKey, soundJsonDict) =>
                          inr (PyDict.set primaryKey soundJsonDict patches)
                      end)
    results [].

(** Lines 73-84: the JSON files already in the output directory. *)
Definition load_existing (filename_noext : string) : M (option (pydict pyval)) :=
  entries ← listdir filename_noext;
  let existing_files :=
    merge_sort str_le (filter (fun f => Is_true (PyStr.endswith f ".json")) entries) in
  match existing_files with
  | [] => mret None
  | _ =>
      patches ←
        for_each
          (fun patches json_file =>
             text ← OsPath.read_file (OsPath.join filename_noext json_file);
             v ← lift (json_loads E text);
             lift (update_from_py patches v))
          existing_files [];
      mret (Some patches)
  end.

Definition sf22soundJson (inFilename : string) (compress force : bool) : M Sf2.retval :=
  bytes ← OsPath.read_file inFilename;
  sf2 ← lift (Sf2File E bytes);
  let filename_noext := (OsPath.splitext inFilename).1 in
  _ ← OsPath.makedirs filename_noext;
  existing ← (if force then mret None else load_existing filename_noext);
  match existing with
  | Some patches => mret (Sf2.Cached patches)
  | None =>
      let instruments := unique_names ∅ sf2 in
      match instruments with
      | [] => mret (Sf2.Fresh [])
      | _ =>
          results ←
            run_pool ((fun iu => process_instrument inFilename filename_noext
                                   compress iu.1 iu.2) <$> instruments);
          Sf2.Fresh <$> lift (collect results)
      end
  end.

(** *** Zone-text preprocessor *)

(** The table the loop works on is the caller's; when the caller passed
    none it is the shared default object, and a definition recorded in it
    is recorded in the world. *)
Definition record_macro (shared : bool) (replaceDict : pydict string) : M unit :=
  if shared then modify (set_replaceDict_default replaceDict) else mret tt.

(** Lines 158-160: the line after comment removal and substitution. *)
Definition expand_line (replaceDict : pydict string) (ogline : string) : string :=
  substitute replaceDict (default EmptyString (head (PyStr.split ogline "//"))).

(** One iteration of the loop of lines 156-170.  The state is the text
    produced so far and the macro table. *)
Definition preprocess_line
    (recurse : string -> pydict string -> M Sfz.retval)
    (shared : bool) (filenameBasedir : string)
    (st : string * pydict string) (ogline0 : string)
    : M (string * pydict string) :=
  let '(preProcessText, replaceDict) := st in
  let ogline := PyStr.strip ogline0 in
  let line := expand_line replaceDict ogline in
  let preProcessText :=
    (preProcessText ++ (if PyStr.startswith ogline "//" then ogline else line))%string in
  if PyStr.contains "#include" line then
    tail ← lift (from_option IndexError (PyStr.split line "#include" !! 1%nat));
    let token := default EmptyString (head (PyStr.split (PyStr.strip tail) " ")) in
    v ← lift (py_eval E token);
    name ← lift (as_str v);
    let includeFilename := OsPath.join filenameBasedir name in
    child ← recurse includeFilename (PyDict.copy replaceDict);
    js ← lift (json_dumps E None false (Sfz.retval_to_py child));
    mret ((preProcessText ++ nl ++ js ++ nl ++ nl)%string, replaceDict)
  else if PyStr.startswith line "#define" then
    kv ← lift (parse_define line);
    let replaceDict := PyDict.set kv.1 kv.2 replaceDict in
    _ ← record_macro shared replaceDict;
    mret ((preProcessText ++ nl)%string, replaceDict)
  else
    mret ((preProcessText ++ nl)%string, replaceDict).

(** *** Zone attribute resolver *)

(** Lines 219-222 *)
Definition resolve_pitch (sampleDict : pydict pyval) : result (pydict pyval) :=
  match (v ← from_option (KeyError "pitch_keycenter")
               (PyDict.get "pitch_keycenter" sampleDict);
         py_int v) with
  | inr z => inr (PyDict.set "pitch_keycenter" (PInt z) sampleDict)
  | inl _ =>
      v ← from_option (KeyError "pitch_keycenter")
            (PyDict.get "pitch_keycenter" sampleDict);
      key ← sfz_note_to_midi_key E v;
      inr (PyDict.set "pitch_keycenter" (PInt key) sampleDict)
  end.

(** Line 197, over exact rationals: the rounding of the float quotient is
    not modelled. *)
Definition region_gain (y : list Q) : result pyfloat :=
  peak ← Np.max (Np.F32 y);
  inr (Np.qdiv (7 # 10) peak).

(** Lines 184-223: one region section. *)
Definition process_region (compress : bool) (soundJsonDict : Sfz.soundJsonDict)
    (sampleDict : pydict pyval) : M Sfz.soundJsonDict :=
  let sampleDict := inherit soundJsonDict sampleDict in
  sample ← lift (v ← from_option (KeyError "sample") (PyDict.get "sample" sampleDict);
                 as_str v);
  let sampleFilename := OsPath.join (Sfz.samplesLoadPoint soundJsonDict) sample in
  let sampleDict := PyDict.set "sampleFilename" (PStr sampleFilename) sampleDict in
  found ← OsPath.exists_ sampleFilename;
  if negb found then mret soundJsonDict
  else
    content ← OsPath.read_file sampleFilename;
    loaded ← lift (librosa_load E content);
    let y := loaded.1 in
    let samplerate := loaded.2 in
    gain ← lift (region_gain y);
    let sampleDict := PyDict.set "gain" (PFloat gain) sampleDict in
    audio ← (if compress
             then a ← lift (buffer2mp3b64 (Np.F32 y) samplerate); mret (a, "mp3")
             else file_content ← OsPath.read_file sampleFilename;
                  mret (b64encode E file_content, "wav"));
    let sampleDict :=
      PyDict.update sampleDict
        [("sampleNo", PInt (Z.of_nat (length (Sfz.samples soundJsonDict))));
         ("lengthSamples", PInt (Z.of_nat (length y)));
         ("sampleRate", PInt samplerate);
         ("audioFormat", PStr audio.2);
         ("audioData", PStr audio.1)] in
    sampleDict ← lift (resolve_pitch sampleDict);
    mret (Sfz.set_samples (Sfz.samples soundJsonDict ++ [sampleDict]) soundJsonDict).

(** Lines 227-231 *)
Definition process_control (filenameBasedir : string)
    (soundJsonDict : Sfz.soundJsonDict) (sampleDict : pydict pyval)
    : result Sfz.soundJsonDict :=
  if PyDict.mem "default_path" sampleDict || PyDict.mem "prefix_sfz_path" sampleDict
  then
    match default (PStr EmptyString) (PyDict.get "default_path" sampleDict) with
    | PStr p =>
        inr (Sfz.set_samplesLoadPoint
               (OsPath.join filenameBasedir
                  (PyStr.replace p (String PyStr.BACKSLASH EmptyString) "/"))
               soundJsonDict)
    | _ => inl (AttributeError "replace")
    end
  else inr soundJsonDict.

(** One iteration of the loop of lines 183-233. *)
Definition process_section (compress : bool) (filenameBasedir : string)
    (soundJsonDict : Sfz.soundJsonDict) (section : string * pydict pyval)
    : M Sfz.soundJsonDict :=
  let '(sectionName, sampleDict) := section in
  if String.eqb sectionName "region"
  then process_region compress soundJsonDict sampleDict
  else if bool_decide (sectionName ∈ ["global"; "master"; "group"])
  then mret (Sfz.set_section sectionName sampleDict soundJsonDict)
  else if String.eqb sectionName "control"
  then lift (process_control filenameBasedir soundJsonDict sampleDict)
  else if bool_decide (sectionName ∈ ["comment"; "curve"; EmptyString])
  then mret soundJsonDict
  else raise (Exception ("Unknown sfz header '" ++ sectionName ++ "'")).

Definition new_soundJsonDict (filename : string) : Sfz.soundJsonDict :=
  {| Sfz.globalDict := [];
     Sfz.masterDict := [];
     Sfz.groupDict := [];
     Sfz.displayName := PyStr.drop_last 4 (OsPath.split filename).2;
     Sfz.path := OsPath.split (PyStr.drop_last 4 filename);
     Sfz.success := true;
     Sfz.samples := [];
     Sfz.samplesLoadPoint := OsPath.dirname filename |}.

(** *** Assembler: lines 235-248 *)
Definition emit (filename outFilename : string) (soundJsonDict : Sfz.soundJsonDict)
    : M Sfz.retval :=
  let doc := Sfz.RDoc filename soundJsonDict in
  _ ← toFile outFilename (Sfz.retval_to_py doc);
  soundJSON ← lift (json_dumps E (Some 2%nat) false (Sfz.retval_to_py doc));
  let goldfilename := (outFilename ++ ".gold")%string in
  found ← OsPath.exists_ goldfilename;
  if found : bool then
    (goldtext ← OsPath.read_file goldfilename;
     if negb (String.eqb goldtext soundJSON)
     then mret (Sfz.RDoc filename (Sfz.set_success false soundJsonDict))
     else mret doc)
  else mret doc.

(** [replaceDict = None] stands for a call that omits the argument.
    [fuel] is the depth of recursion the interpreter still allows. *)
Fixpoint sfz2soundJson (fuel : nat) (filename : string) (compress : bool)
    (replaceDict : option (pydict string)) : M Sfz.retval :=
  match fuel with
  | O => raise RecursionError
  | S fuel' =>
      let outFilename := (PyStr.drop_last 4 filename ++ ".json")%string in
      cached ← OsPath.exists_ outFilename;
      if cached : bool then Sfz.RText <$> OsPath.read_file outFilename
      else
        found ← OsPath.exists_ filename;
        if negb found then mret Sfz.RNone
        else
          preprocFile ← OsPath.read_file filename;
          let filenameBasedir := OsPath.dirname filename in
          let shared := match replaceDict with None => true | Some _ => false end in
          table ← match replaceDict with
                  | Some d => mret d
                  | None => gets replaceDict_default
                  end;
          pre ← for_each
                  (preprocess_line
                     (fun f d => sfz2soundJson fuel' f compress (Some d))
                     shared filenameBasedir)
                  (PyStr.split preprocFile nl) (EmptyString, table);
          sections ← lift (sfz_parse E pre.1);
          soundJsonDict ← for_each (process_section compress filenameBasedir)
                            sections (new_soundJsonDict filename);
          emit filename outFilename soundJsonDict
  end.

(** *** Dispatcher *)

Fixpoint convertFile (fuel : nat) (infilename : string)
    (compress force stopOnFail : bool) : M convresult :=
  match fuel with
  | O => raise RecursionError
  | S fuel' =>
      isd ← OsPath.isdir infilename;
      _ ← (if isd : bool then
             entries ← listdir infilename;
             for_each
               (fun _ f =>
                  try_except
                    (_ ← convertFile fuel' (OsPath.join infilename f)
                           compress force true;
                     mret tt)
                    (fun _ => mret tt))
               entries tt
           else mret tt);
      let ext := default EmptyString (last (PyStr.split infilename ".")) in
      if String.eqb ext "sf2"
      then CSf2 <$> sf22soundJson infilename compress force
      else if String.eqb ext "sfz"
      then CSfz <$> sfz2soundJson fuel' infilename compress None
      else mret CEmpty
  end.

End Converter.

(** ** Small stand-ins for the libraries, used to run the converter *)

Module Demo.

Definition dq : string := String (PyStr.chr 34) EmptyString.

(** A tokenizer for the text format: a word [<name>] opens a section and a
    word [key=value] adds an attribute to the open section. *)
Definition section_name (tok : string) : option string :=
  if PyStr.startswith tok "<" && PyStr.endswith tok ">"
  then Some (String.substring 1 (String.length tok - 2) tok)
  else None.

Definition attribute (tok : string) : option (string * string) :=
  match PyStr.split tok "=" with
  | k :: v :: rest => Some (k, PyStr.join "=" (v :: rest))
  | _ => None
  end.

Fixpoint sections_of (cur : option (string * pydict pyval)) (toks : list string)
    : list (string * pydict pyval) :=
  match toks with
  | [] => option_list cur
  | tok :: toks' =>
      match section_name tok with
      | Some n => option_list cur ++ sections_of (Some (n, [])) toks'
      | None =>
          match cur, attribute tok with
          | Some (n, d), Some (k, v) =>
              sections_of (Some (n, PyDict.set k (PStr v) d)) toks'
          | _, _ => sections_of cur toks'
          end
      end
  end.

Definition parse (text : string) : result (list (string * pydict pyval)) :=
  inr (sections_of None (String.words text)).

(** A decoder: one sample per character, [(code - 64) / 64]. *)
Fixpoint decode (content : string) : list Q :=
  match content with
  | EmptyString => []
  | String c content' =>
      Qred ((inject_Z (Z.of_nat (PyStr.ord c)) - 64) / 64) :: decode content'
  end.

Fixpoint show (v : pyval) : string :=
  match v with
  | PNone => "null"
  | PBool b => if b then "true" else "false"
  | PInt z => pretty z
  | PFloat (Fin q) => (pretty (Qnum q) ++ "/" ++ pretty (Zpos (Qden q)))%string
  | PFloat NonFinite => "Infinity"
  | PStr s => (dq ++ s ++ dq)%string
  | PList l => ("[" ++ PyStr.join "," (map show l) ++ "]")%string
  | PDict d =>
      ("{" ++ PyStr.join ","
                (map (fun kv => let '(k, x) := kv in
                                (dq ++ k ++ dq ++ ":" ++ show x)%string) d)
           ++ "}")%string
  end.

Definition unquote (tok : string) : result pyval :=
  if PyStr.startswith tok dq && PyStr.endswith tok dq
     && (2 <=? String.length tok)%nat
  then inr (PStr (String.substring 1 (String.length tok - 2) tok))
  else inl (ExternalError "eval").

Definition frames : list Byte.byte :=
  concat ((fun k => [default Byte.x00 (Byte.of_nat k); Byte.x00]) <$> seq 0 32).

(** A container reader: the file lists instrument names separated by
    commas; every instrument has one bag with a looped 32-frame sample. *)
Definition container (content : string) : result (list Sf2.instrument) :=
  inr ((fun n =>
          {| Sf2.inst_name := n;
             Sf2.bags :=
               Some [{| Sf2.bag_sample :=
                          Some {| Sf2.raw_sample_data := frames;
                                  Sf2.sample_rate := 22050;
                                  Sf2.sample_name := n;
                                  Sf2.original_pitch := Some 60%Z;
                                  Sf2.start_loop := Some 8%Z;
                                  Sf2.end_loop := 24;
                                  Sf2.start := 0 |};
                        Sf2.base_note := None |}] |})
         <$> PyStr.split content ",").

Definition E : Externals :=
  {| sfz_parse := parse;
     sfz_note_to_midi_key := fun _ => inl (ValueError "note");
     librosa_load := fun content => inr (decode content, 44100%Z);
     export_mp3_b64 := fun fr _ => inr ("mp3:" ++ pretty (length fr))%string;
     export_wav_b64 := fun fr _ => inr ("wav:" ++ pretty (length fr))%string;
     b64encode := fun b => b;
     json_dumps := fun _ _ v => inr (show v);
     json_loads := fun text => inr (PDict [("loaded", PStr text)]);
     Sf2File := container;
     py_eval := unquote;
     listdir_order := fun l => l;
     completion_order := seq 0;
     completion_order_perm := fun n => reflexivity (seq 0 n);
     cast_nonfinite := 0 |}.

(** A serializer that obeys [sort_keys]: the items of a dictionary are
    written in the order of their keys when it is set, in insertion order
    otherwise. *)
Fixpoint show_with (sort_keys : bool) (v : pyval) : string :=
  match v with
  | PList l => ("[" ++ PyStr.join "," (map (show_with sort_keys) l) ++ "]")%string
  | PDict d =>
      let items :=
        map (fun kv => let '(k, x) := kv in (k, show_with sort_keys x)) d in
      let items :=
        if sort_keys
        then merge_sort (fun a b : string * string => str_le a.1 b.1) items
        else items in
      ("{" ++ PyStr.join ","
                (map (fun kx : string * string =>
                        (dq ++ kx.1 ++ dq ++ ":" ++ kx.2)%string) items)
           ++ "}")%string
  | _ => show v
  end.

(** The same stand-ins with that serializer. *)
Definition E_sorting : Externals :=
  {| sfz_parse := parse;
     sfz_note_to_midi_key := fun _ => inl (ValueError "note");
     librosa_load := fun content => inr (decode content, 44100%Z);
     export_mp3_b64 := fun fr _ => inr ("mp3:" ++ pretty (length fr))%string;
     export_wav_b64 := fun fr _ => inr ("wav:" ++ pretty (length fr))%string;
     b64encode := fun b => b;
     json_dumps := fun _ sort_keys v => inr (show_with sort_keys v);
     json_loads := fun text => inr (PDict [("loaded", PStr text)]);
     Sf2File := container;
     py_eval := unquote;
     listdir_order := fun l => l;
     completion_order := seq 0;
     completion_order_perm := fun n => reflexivity (seq 0 n);
     cast_nonfinite := 0 |}.

(** A buffer of 40 samples: [-1], [1/2], then silence. *)
Definition wav : string :=
  String (PyStr.chr 0) (String (PyStr.chr 96)
    (PyStr.map_chars (fun _ => PyStr.chr 64)
       "......................................")).

Definition world_of (fs : list (string * string)) (ds : list string) : world :=
  {| files := list_to_map fs; dirs := list_to_set ds; replaceDict_default := [] |}.

(** A definition file whose group and region both set [volume]. *)
Definition zones : world :=
  world_of [("d/a.sfz", ("<group> volume=1" ++ nl
                          ++ "<region> sample=a.wav volume=2 pitch_keycenter=60")%string);
            ("d/a.wav", wav)] ["d"].

(** The same with a second region and a gold file that does not match. *)
Definition zones_gold : world :=
  world_of [("d/a.sfz", ("<region> sample=a.wav pitch_keycenter=60" ++ nl
                          ++ "<region> sample=a.wav pitch_keycenter=61")%string);
            ("d/a.wav", wav);
            ("d/a.json.gold", "stale")] ["d"].

(** A region without [pitch_keycenter]. *)
Definition zones_nokey : world :=
  world_of [("d/a.sfz", "<region> sample=a.wav"); ("d/a.wav", wav)] ["d"].

(** A file that uses a macro before defining it. *)
Definition macros : world :=
  world_of [("d/m.sfz", ("<$H>" ++ nl ++ "#define $H group")%string)] ["d"].

(** A container with two instruments of the same name. *)
Definition pianos : world :=
  world_of [("d/x.sf2", "Piano,Piano")] ["d"].

End Demo.

(** ** The specification's wording, for comparison with the code *)

(** Specification, section 4.2: the gain is [0.7 / max(|buffer|)]. *)
Definition spec_region_gain (y : list Q) : result pyfloat :=
  peak ← Np.max (Np.abs (Np.F32 y));
  inr (Np.qdiv (7 # 10) peak).

(** The longest prefix without white space, and what follows it. *)
Fixpoint spec_take_word (s : string) : string * string :=
  match s with
  | EmptyString => (EmptyString, EmptyString)
  | String c s' =>
      if PyStr.isspace c then (EmptyString, s)
      else let '(word, rest) := spec_take_word s' in (String c word, rest)
  end.

(** Specification, section 4.1 step 4: the first whitespace-separated token
    after the directive keyword is the name, and the remainder of the line
    after the name is the replacement text. *)
Definition spec_parse_define (line : string) : option (string * string) :=
  let after_keyword :=
    PyStr.lstrip (String.substring 7 (String.length line - 7) line) in
  let '(name, rest) := spec_take_word after_keyword in
  if String.eqb name EmptyString then None else Some (name, PyStr.lstrip rest).

(** Removal of every space character. *)
Definition without_spaces (s : string) : string :=
  PyStr.filter_chars (fun c => negb (PyStr.ascii_eqb c PyStr.SP)) s.

(** ** Predicates and relations used in the statements *)

(** The zone at position [i] carries [sampleNo = i]. *)
Definition numbered (samples : list (pydict pyval)) : Prop :=
  forall i zone, samples !! i = Some zone ->
                 PyDict.get "sampleNo" zone = Some (PInt (Z.of_nat i)).

(** The zone carries none of the attributes that the loop branch of
    [processSf2Sample] sets. *)
Definition no_loop_keys (zone : pydict pyval) : Prop :=
  PyDict.get "loop_start" zone = None /\ PyDict.get "loop_end" zone = None
  /\ PyDict.get "loop" zone = None /\ PyDict.get "loop_mode" zone = None.

(** What holds of a patch of the container pipeline while it is built. *)
Record sf2_patch_ok (d : Sf2.soundJsonDict) : Prop := {
  ok_percussion : Sf2.percussion d = 0%Z;
  ok_loop : Sf2.loop d = 0%Z;
  ok_index : Sf2.percussiveSampleIndex d = 45%Z;
  ok_numbered : numbered (Sf2.samples d);
  ok_no_loop_keys : Forall no_loop_keys (Sf2.samples d);
}.

(** The zone sequences of the patches that the pipelines produce: of a
    document returned by [sfz2soundJson], and of a patch that
    [sf22soundJson] has just built. *)
Inductive produced_samples (E : Externals) : list (pydict pyval) -> Prop :=
| produced_by_sfz fuel filename compress replaceDict w w' key d :
    sfz2soundJson E fuel filename compress replaceDict w = (inr (Sfz.RDoc key d), w') ->
    produced_samples E (Sfz.samples d)
| produced_by_sf2 inFilename compress force w w' patches primaryKey d :
    sf22soundJson E inFilename compress force w = (inr (Sf2.Fresh patches), w') ->
    (primaryKey, d) ∈ patches ->
    produced_samples E (Sf2.samples d).

(** No line of the file, after substitution, holds an inclusion directive.
    The table follows the definition lines as the loop does. *)
Fixpoint no_inclusions (replaceDict : pydict string) (lines : list string) : bool :=
  match lines with
  | [] => true
  | ogline :: lines' =>
      let line := expand_line replaceDict (PyStr.strip ogline) in
      negb (PyStr.contains "#include" line)
      && no_inclusions
           (if PyStr.startswith line "#define"
            then match parse_define line with
                 | inr kv => PyDict.set kv.1 kv.2 replaceDict
                 | inl _ => replaceDict
                 end
            else replaceDict)
           lines'
  end.

(** The same files and directories. *)
Definition same_fs : relation world :=
  fun w w' => files w' = files w /\ dirs w' = dirs w.

(** [respects R m]: whatever the outcome, [m] takes a world to one related
    to it by [R]. *)
Definition respects {A} (R : relation world) (m : M A) : Prop :=
  forall w, R w (m w).2.

(** Relations between worlds. *)
Definition same_world : relation world := fun w w' => w' = w.
Definition same_files_table : relation world :=
  fun w w' => files w' = files w /\ replaceDict_default w' = replaceDict_default w.
Definition same_table : relation world :=
  fun w w' => replaceDict_default w' = replaceDict_default w.
Definition table_grows : relation world :=
  fun w w' => forall k, PyDict.mem k (replaceDict_default w) = true ->
                        PyDict.mem k (replaceDict_default w') = true.

#[global] Instance same_world_po : PreOrder same_world.
Proof. split; [done | intros ??? -> ->; done]. Qed.
#[global] Instance same_files_table_po : PreOrder same_files_table.
Proof.
  split; [done|]. intros w1 w2 w3 [? ?] [? ?]. split; congruence.
Qed.
#[global] Instance same_table_po : PreOrder same_table.
Proof. split; [done|]. intros w1 w2 w3 ??. unfold same_table in *. congruence. Qed.
#[global] Instance table_grows_po : PreOrder table_grows.
Proof. split; [by intros ??|]. intros w1 w2 w3 H1 H2 k Hk. auto. Qed.

(** ** Definitions for the further properties *)

(** *** File names of instruments *)

(** Every character of the string satisfies [p]. *)
Fixpoint string_forall (p : ascii -> bool) (s : string) : bool :=
  match s with
  | EmptyString => true
  | String c s' => p c && string_forall p s'
  end.

(** The characters [sanitize_filename] lets through. *)
Definition safe_char (c : ascii) : bool :=
  PyStr.isalnum c || PyStr.has_char c safe_chars.

(** The file name of an instrument whose sanitized name was met [count]
    times before (lines 92-93). *)
Definition numbered_name (sanitized : string) (count : nat) : string :=
  if (count =? 0)%nat then sanitized
  else (sanitized ++ "_" ++ PyStr.of_nat count)%string.

(** The instruments of [l] that are not the end marker and whose sanitized
    name is [sanitized]. *)
Definition same_sanitized (sanitized : string) (l : list Sf2.instrument)
    : list Sf2.instrument :=
  filter (fun x => Sf2.inst_name x ≠ "EOI"
                   /\ sanitize_filename (Sf2.inst_name x) = sanitized) l.

(** *** Audio buffers *)

(** The values an int16 holds. *)
Definition int16 (z : Z) : Prop := (-32768 <= z <= 32767)%Z.

(** A finite float of magnitude at most one. *)
Definition unit_float (x : pyfloat) : Prop :=
  match x with Fin q => (Qabs q <= 1)%Q | NonFinite => False end.

(** *** Zones and patches of the container pipeline *)

(** The samples of an instrument's bags, in order: the bags that
    [process_instrument] hands to [processSf2Sample]. *)
Definition sampled_bags (inst : Sf2.instrument) : list (Sf2.sample * Sf2.bag) :=
  omap (fun bag => (fun s => (s, bag)) <$> Sf2.bag_sample bag)
       (default [] (Sf2.bags inst)).

(** The keys of a zone of the container pipeline, in insertion order. *)
Definition sf2_zone_keys : list string :=
  ["sampleNo"; "channels"; "sample_rate"; "sample"; "lengthSamples";
   "audioFormat"; "audioData"; "pitch_keycenter"; "gain"; "samplesLoadPoint"].

(** The root key [processSf2Sample] computes before the percussion
    override: the bag's, else the sample header's, else the sample's name
    read as an integer. *)
Definition sf2_root_key (sample : Sf2.sample) (bag : Sf2.bag) : option Z :=
  match Sf2.base_note bag with
  | Some n => Some n
  | None =>
      match Sf2.original_pitch sample with
      | Some p => Some p
      | None => PyStr.to_int (Sf2.sample_name sample)
      end
  end.

(** What a zone of the container pipeline records of its sample. *)
Record sf2_zone_of (compress : bool) (sample : Sf2.sample) (bag : Sf2.bag)
    (zone : pydict pyval) : Prop := {
  zone_keys : PyDict.keys zone = sf2_zone_keys;
  zone_sample : PyDict.get "sample" zone = Some (PStr (Sf2.sample_name sample));
  zone_rate : PyDict.get "sample_rate" zone = Some (PInt (Sf2.sample_rate sample));
  zone_length :
    PyDict.get "lengthSamples" zone
    = Some (PInt (Z.of_nat (length (Sf2.raw_sample_data sample) / 2)));
  zone_format :
    PyDict.get "audioFormat" zone = Some (PStr (if compress then "mp3" else "wav"));
  zone_pitch :
    exists pitch, sf2_root_key sample bag = Some pitch
                  /\ PyDict.get "pitch_keycenter" zone = Some (PInt pitch);
}.

(** *** Zones of the text pipeline *)

(** What every zone of the text pipeline carries. *)
Record sfz_zone_ok (compress : bool) (zone : pydict pyval) : Prop := {
  sfz_zone_file :
    exists dir sample,
      PyDict.get "sample" zone = Some (PStr sample)
      /\ PyDict.get "sampleFilename" zone = Some (PStr (OsPath.join dir sample));
  sfz_zone_gain : exists g, PyDict.get "gain" zone = Some (PFloat g);
  sfz_zone_length :
    exists n : nat, PyDict.get "lengthSamples" zone = Some (PInt (Z.of_nat n));
  sfz_zone_rate : exists r, PyDict.get "sampleRate" zone = Some (PInt r);
  sfz_zone_format :
    PyDict.get "audioFormat" zone = Some (PStr (if compress then "mp3" else "wav"));
  sfz_zone_data : exists a, PyDict.get "audioData" zone = Some (PStr a);
  sfz_zone_pitch : exists z, PyDict.get "pitch_keycenter" zone = Some (PInt z);
}.

(** The section names [sfz2soundJson] accepts. *)
Definition known_headers : list string :=
  ["region"; "global"; "master"; "group"; "control"; "comment"; "curve"; EmptyString].

(** *** The file system across a conversion *)

(** How a conversion may change the file system: a file whose name does
    not end in [.json] keeps its content (or its absence), no file and no
    directory disappears, and the empty path does not become a directory. *)
Record fs_grows (w w' : world) : Prop := {
  grows_other_files :
    forall p, PyStr.endswith p ".json" = false -> files w' !! p = files w !! p;
  grows_files : forall p, is_Some (files w !! p) -> is_Some (files w' !! p);
  grows_dirs : dirs w ⊆ dirs w';
  grows_no_empty_dir : EmptyString ∈ dirs w' -> EmptyString ∈ dirs w;
}.

#[global] Instance fs_grows_po : PreOrder fs_grows.
Proof.
  split.
  - intros w. by split.
  - intros w1 w2 w3 [A1 B1 C1 D1] [A2 B2 C2 D2]. split.
    + intros p Hp. by rewrite A2, A1.
    + auto.
    + set_solver.
    + auto.
Qed.

(** *** The decoder and the dispatcher's extension *)

(** [b642buffer]: decode a base64 string of an uncompressed file into its
    int16 samples and frame rate.  The collaborators are parameters:
    [b64decode] is [base64.b64decode] and [from_file] stands for
    [AudioSegment.from_file(..., format="wav")], giving the raw data and
    the frame rate.  The decoded bytes are also left in [bs.wav]. *)
Definition b642buffer (b64decode : string -> result string)
    (from_file : string -> result (list Byte.byte * Z))
    (encoded_str : string) : M (list Z * Z) :=
  decoded_bytes ← lift (b64decode encoded_str);
  _ ← OsPath.write_file "bs.wav" decoded_bytes;
  audio_segment ← lift (from_file decoded_bytes);
  y ← lift (Np.frombuffer_int16 audio_segment.1);
  mret (y, audio_segment.2).

(** The extension the dispatcher looks at: what follows the last dot. *)
Definition extension (infilename : string) : string :=
  default EmptyString (last (PyStr.split infilename ".")).

Create HintDb respects.

(** * Properties *)

Example split_spaces : PyStr.split "#define $X a b" " " = ["#define"; "$X"; "a"; "b"].
Proof. reflexivity. Qed.

Example split_double_space : PyStr.split "a  b" " " = ["a"; ""; "b"].
Proof. reflexivity. Qed.

Example split_comment : PyStr.split "x=1 // c // d" "//" = ["x=1 "; " c "; " d"].
Proof. reflexivity. Qed.

Example split_overlap : PyStr.split "a///b" "//" = ["a"; "/b"].
Proof. reflexivity. Qed.

Example replace_all : PyStr.replace "$K+$K" "$K" "60" = "60+60".
Proof. reflexivity. Qed.

Example replace_empty : PyStr.replace "abc" "" "-" = "-a-b-c-".
Proof. reflexivity. Qed.

Example strip_both : PyStr.strip "  a b  " = "a b".
Proof. reflexivity. Qed.

Example drop_ext : PyStr.drop_last 4 "d/a.sfz" = "d/a".
Proof. reflexivity. Qed.

Example endswith_json : PyStr.endswith "Piano.json" ".json" = true /\ PyStr.endswith "son" ".json" = false.
Proof. split; reflexivity. Qed.

Example to_int_ok : PyStr.to_int " 60 " = Some 60%Z /\ PyStr.to_int "c4" = None /\ PyStr.of_nat 12 = "12".
Proof. repeat split; reflexivity. Qed.

(** [int] accepts single underscores between digits and does not skip the
    separators of code 28 to 31. *)
Example to_int_literals :
  PyStr.to_int "6_0" = Some 60%Z /\ PyStr.to_int "6__0" = None
  /\ PyStr.to_int "_60" = None /\ PyStr.to_int "60_" = None
  /\ PyStr.to_int (String (PyStr.chr 31) "60") = None
  /\ PyStr.to_int (String (PyStr.chr 160) "-060 ") = Some (-60)%Z
  /\ PyStr.to_int "+ 60" = None.
Proof. repeat split; reflexivity. Qed.

(** [dict.update] with a list of pairs, with a string of two characters and
    with a dictionary of two keys as elements. *)
Example update_from_pairs :
  update_from_py [("old", PInt 0)]
    (PList [PList [PStr "k"; PInt 1]; PStr "ab"; PDict [("x", PInt 1); ("y", PInt 2)]])
  = inr [("old", PInt 0); ("k", PInt 1); ("a", PStr "b"); ("x", PStr "y")]
  /\ update_from_py [] (PStr EmptyString) = inr []
  /\ update_from_py [] (PList [PList [PStr "k"]])
     = inl (ValueError "dictionary update sequence element has length other than 2").
Proof. repeat split; reflexivity. Qed.

Example path_split : OsPath.split "d/x/a.sfz" = ("d/x", "a.sfz") /\ OsPath.split "a.sfz" = ("", "a.sfz")
  /\ OsPath.split "/a" = ("/", "a").
Proof. repeat split; reflexivity. Qed.

Example path_splitext : OsPath.splitext "d.v/x.tar.sf2" = ("d.v/x.tar", ".sf2")
  /\ OsPath.splitext "d/.bashrc" = ("d/.bashrc", "") /\ OsPath.splitext "d.x/y" = ("d.x/y", "").
Proof. repeat split; reflexivity. Qed.

Example path_join : OsPath.join "d" "a.wav" = "d/a.wav" /\ OsPath.join "d/" "a" = "d/a"
  /\ OsPath.join "" "a" = "a" /\ OsPath.join "d" "/abs" = "/abs".
Proof. repeat split; reflexivity. Qed.

(** ** Dictionaries *)

Section DictFacts.
Context {V : Type}.
Implicit Types (d src : pydict V) (k : string) (v : V).

Lemma get_set_eq k v d : PyDict.get k (PyDict.set k v d) = Some v.
Proof.
  induction d as [|[k' v'] d IH]; simpl.
  - by rewrite bool_decide_eq_true_2.
  - case_bool_decide; simpl.
    + by rewrite bool_decide_eq_true_2.
    + by rewrite bool_decide_eq_false_2.
Qed.

Lemma get_set_ne k k' v d : k ≠ k' -> PyDict.get k' (PyDict.set k v d) = PyDict.get k' d.
Proof.
  intros Hne. induction d as [|[k0 v0] d IH]; simpl.
  - rewrite bool_decide_eq_false_2; [done | congruence].
  - case_bool_decide as Hk; simpl.
    + subst k0. by rewrite !bool_decide_eq_false_2 by congruence.
    + case_bool_decide; [done | apply IH].
Qed.

Lemma get_set k k' v d :
  PyDict.get k' (PyDict.set k v d) = if bool_decide (k = k') then Some v else PyDict.get k' d.
Proof.
  case_bool_decide; [subst; apply get_set_eq | by apply get_set_ne].
Qed.

(** [update] lets the last item of [src] for a key win; keys that [src]
    does not mention keep their value. *)
Lemma get_update k d src :
  PyDict.get k (PyDict.update d src) =
    match PyDict.get k (rev src) with
    | Some v => Some v
    | None => PyDict.get k d
    end.
Proof.
  unfold PyDict.update. revert d.
  induction src as [|[k' v'] src IH] using rev_ind; intros d; [done|].
  rewrite fold_left_app, rev_app_distr. simpl.
  rewrite get_set. case_bool_decide; subst.
  - by rewrite bool_decide_eq_true_2.
  - rewrite bool_decide_eq_false_2 by congruence. apply IH.
Qed.

Lemma get_update_absent k d src :
  PyDict.get k (rev src) = None -> PyDict.get k (PyDict.update d src) = PyDict.get k d.
Proof. intros H. by rewrite get_update, H. Qed.

Lemma get_None_not_key k d : PyDict.get k d = None <-> k ∉ PyDict.keys d.
Proof.
  unfold PyDict.keys. induction d as [|[k' v'] d IH]; simpl.
  - split; [intros _; apply not_elem_of_nil | done].
  - case_bool_decide; subst.
    + split; [done | intros []; left].
    + rewrite IH, not_elem_of_cons. tauto.
Qed.

End DictFacts.

(** Full description of the merge of lines 185-187. *)
Lemma inherit_get (d : Sfz.soundJsonDict) (sampleDict : pydict pyval) (k : string) :
  PyDict.get k (inherit d sampleDict) =
    match PyDict.get k (rev (Sfz.groupDict d)) with
    | Some v => Some v
    | None =>
        match PyDict.get k (rev (Sfz.masterDict d)) with
        | Some v => Some v
        | None =>
            match PyDict.get k (rev (Sfz.globalDict d)) with
            | Some v => Some v
            | None => PyDict.get k sampleDict
            end
        end
    end.
Proof.
  unfold inherit. simpl. rewrite !get_update. done.
Qed.

(** ** Strings *)

Lemma string_app_cons c s t : (String c s ++ t)%string = String c (s ++ t)%string.
Proof. reflexivity. Qed.

Lemma string_app_nil_l t : (EmptyString ++ t)%string = t.
Proof. reflexivity. Qed.

Lemma string_app_nil_r t : (t ++ EmptyString)%string = t.
Proof. induction t as [|c t IH]; [reflexivity|]. rewrite string_app_cons, IH. reflexivity. Qed.

Lemma split_go_nonempty sep k s : PyStr.split_go sep k s ≠ [].
Proof.
  revert k. induction s as [|c s IH]; intros k; cbn [PyStr.split_go]; [done|].
  destruct k; [|apply IH].
  destruct (String.prefix sep (String c s)); [done|].
  destruct (PyStr.split_go sep 0 s); done.
Qed.

Lemma prefix_space c s :
  String.prefix " " (String c s) = PyStr.ascii_eqb PyStr.SP c.
Proof.
  unfold PyStr.ascii_eqb.
  change (String.prefix " " (String c s))
    with (if ascii_dec " " c then String.prefix EmptyString s else false).
  destruct (ascii_dec " " c) as [<-|Hne].
  - by destruct s.
  - symmetry. apply Ascii.eqb_neq. exact Hne.
Qed.

Lemma split_space_cons c s :
  PyStr.split (String c s) " " =
    if PyStr.ascii_eqb PyStr.SP c then EmptyString :: PyStr.split s " "
    else match PyStr.split s " " with
         | t :: ts => String c t :: ts
         | [] => [String c EmptyString]
         end.
Proof.
  unfold PyStr.split. cbn [PyStr.split_go]. rewrite prefix_space.
  by destruct (PyStr.ascii_eqb PyStr.SP c).
Qed.

(** A word without spaces followed by a space is the first token. *)
Lemma split_space_word a b :
  PyStr.has_char PyStr.SP a = false ->
  PyStr.split (a ++ String PyStr.SP b) " " = a :: PyStr.split b " ".
Proof.
  induction a as [|c a IH]; intros Ha.
  - rewrite string_app_nil_l, split_space_cons. done.
  - cbn [PyStr.has_char] in Ha. apply orb_false_iff in Ha as [Hc Ha].
    rewrite string_app_cons, split_space_cons, Hc, IH by done. done.
Qed.

Lemma join_empty_cons x l :
  PyStr.join EmptyString (x :: l) = (x ++ PyStr.join EmptyString l)%string.
Proof.
  destruct l as [|y l]; simpl.
  - by rewrite string_app_nil_r.
  - done.
Qed.

(** Joining the space-separated tokens with nothing removes the spaces. *)
Lemma join_split_space s :
  PyStr.join EmptyString (PyStr.split s " ") = without_spaces s.
Proof.
  unfold without_spaces. induction s as [|c s IH]; [done|].
  rewrite split_space_cons. cbn [PyStr.filter_chars].
  unfold PyStr.ascii_eqb in *. rewrite (Ascii.eqb_sym c).
  destruct (Ascii.eqb PyStr.SP c); simpl negb; cbv iota.
  - rewrite join_empty_cons, string_app_nil_l. apply IH.
  - pose proof (split_go_nonempty " " 0 s) as Hne.
    unfold PyStr.split in *.
    destruct (PyStr.split_go " " 0 s) as [|t ts]; [done|].
    rewrite join_empty_cons in *. rewrite string_app_cons. by rewrite IH.
Qed.

Lemma without_spaces_id s :
  PyStr.has_char PyStr.SP s = false -> without_spaces s = s.
Proof.
  unfold without_spaces. induction s as [|c s IH]; [done|].
  cbn [PyStr.has_char PyStr.filter_chars].
  intros [Hc Hs]%orb_false_iff. unfold PyStr.ascii_eqb in *.
  rewrite Ascii.eqb_sym, Hc. cbn [negb]. by rewrite IH.
Qed.

Lemma length_filter_chars p s :
  (String.length (PyStr.filter_chars p s) <= String.length s)%nat.
Proof.
  induction s as [|c s IH]; [done|]. cbn [PyStr.filter_chars].
  destruct (p c); simpl; lia.
Qed.

Lemma without_spaces_fixed s :
  without_spaces s = s -> PyStr.has_char PyStr.SP s = false.
Proof.
  unfold without_spaces. induction s as [|c s IH]; [done|].
  cbn [PyStr.has_char PyStr.filter_chars]. unfold PyStr.ascii_eqb in *.
  rewrite (Ascii.eqb_sym PyStr.SP c).
  destruct (Ascii.eqb c PyStr.SP); cbn [negb orb].
  - intros H. apply (f_equal String.length) in H.
    pose proof (length_filter_chars
                  (fun c => negb (Ascii.eqb c PyStr.SP)) s) as Hle.
    simpl in H. lia.
  - intros [= H]. by apply IH.
Qed.

Lemma parse_define_shape name rest :
  PyStr.has_char PyStr.SP name = false ->
  parse_define ("#define " ++ name ++ " " ++ rest) = inr (name, without_spaces rest).
Proof.
  intros Hname. unfold parse_define.
  change ("#define " ++ name ++ " " ++ rest)%string
    with ("#define" ++ String PyStr.SP (name ++ String PyStr.SP rest))%string.
  rewrite split_space_word by done.
  rewrite split_space_word by done.
  rewrite <- join_split_space. reflexivity.
Qed.

(** The name is what stands between the first two space characters: after
    a doubled space it is empty, and a line without a space has none. *)
Example define_doubled_space :
  parse_define "#define  $X 5" = inr ("", "$X5")
  /\ parse_define "#define" = inl IndexError.
Proof. split; reflexivity. Qed.

(** ** Attribute inheritance *)

(** C1 (code defect).  The demonstration file sets [volume=1] on the group
    and [volume=2] on the region; the claim makes the region's own value
    win, but the resolved zone carries the group's value: lines 185-187
    write the inherited dictionaries over the region's dictionary. *)
Theorem C1_inherited_value_overwrites_region_value :
  PyDict.get "volume"
    (inherit (Sfz.set_section "group" [("volume", PStr "1")] (new_soundJsonDict "d/a.sfz"))
       [("sample", PStr "a.wav"); ("volume", PStr "2")])
  = Some (PStr "1")
  /\ exists d zone,
       (sfz2soundJson Demo.E 10 "d/a.sfz" true None Demo.zones).1
         = inr (Sfz.RDoc "d/a.sfz" d)
       /\ Sfz.samples d = [zone]
       /\ PyDict.get "volume" zone = Some (PStr "1").
Proof.
  split; [reflexivity|].
  eexists _, _. split; [vm_compute; reflexivity|].
  split; reflexivity.
Qed.

(** Among the inherited scopes the closer one wins, whatever the region
    says. *)
Lemma inherit_group_wins d sampleDict k v :
  PyDict.get k (rev (Sfz.groupDict d)) = Some v ->
  PyDict.get k (inherit d sampleDict) = Some v.
Proof. intros H. by rewrite inherit_get, H. Qed.

Lemma inherit_master_over_global d sampleDict k v :
  PyDict.get k (rev (Sfz.groupDict d)) = None ->
  PyDict.get k (rev (Sfz.masterDict d)) = Some v ->
  PyDict.get k (inherit d sampleDict) = Some v.
Proof. intros H1 H2. by rewrite inherit_get, H1, H2. Qed.

Lemma inherit_region_only_if_unset d sampleDict k :
  PyDict.get k (rev (Sfz.groupDict d)) = None ->
  PyDict.get k (rev (Sfz.masterDict d)) = None ->
  PyDict.get k (rev (Sfz.globalDict d)) = None ->
  PyDict.get k (inherit d sampleDict) = PyDict.get k sampleDict.
Proof. intros H1 H2 H3. by rewrite inherit_get, H1, H2, H3. Qed.

(** ** Macro definitions *)

Lemma split_no_space s :
  PyStr.has_char PyStr.SP s = false -> PyStr.split s " " = [s].
Proof.
  induction s as [|c s IH]; [done|].
  cbn [PyStr.has_char]. intros [Hc Hs]%orb_false_iff.
  rewrite split_space_cons, Hc, (IH Hs). reflexivity.
Qed.

Lemma parse_define_bare name :
  PyStr.has_char PyStr.SP name = false ->
  parse_define ("#define " ++ name) = inr (name, EmptyString).
Proof.
  intros Hname. unfold parse_define.
  change ("#define " ++ name)%string with ("#define" ++ String PyStr.SP name)%string.
  rewrite split_space_word by done. by rewrite split_no_space.
Qed.

(** A line that, after comment removal and substitution, reads
    [#define NAME REST] with single spaces around a space-free NAME and
    without an inclusion directive: the table receives NAME, bound to REST
    with every space removed, which is the text as written exactly when
    REST holds no space. *)
Lemma preprocess_line_define
    (E : Externals) (recurse : string -> pydict string -> M Sfz.retval)
    (shared : bool) (filenameBasedir text : string)
    (replaceDict : pydict string) (ogline name rest : string) (w : world) :
  expand_line replaceDict (PyStr.strip ogline)
    = ("#define " ++ name ++ " " ++ rest)%string ->
  PyStr.has_char PyStr.SP name = false ->
  PyStr.contains "#include" (expand_line replaceDict (PyStr.strip ogline)) = false ->
  let table := PyDict.set name (without_spaces rest) replaceDict in
  (exists text',
     preprocess_line E recurse shared filenameBasedir (text, replaceDict) ogline w
     = (inr (text', table),
        if shared then set_replaceDict_default table w else w))
  /\ PyDict.get name table = Some (without_spaces rest)
  /\ (PyStr.has_char PyStr.SP rest = false <-> PyDict.get name table = Some rest).
Proof.
  intros Hline Hname Hinc table. split; [|split; [|split]].
  - rewrite Hline in Hinc. unfold preprocess_line. cbv zeta.
    rewrite Hline, Hinc.
    replace (PyStr.startswith ("#define " ++ name ++ " " ++ rest) "#define")
      with true by reflexivity.
    cbv iota. eexists.
    unfold mbind, M_bind, bind, lift. rewrite parse_define_shape by done.
    unfold record_macro. destruct shared; reflexivity.
  - apply get_set_eq.
  - intros Hrest. unfold table. rewrite without_spaces_id by done. apply get_set_eq.
  - unfold table. rewrite get_set_eq. intros [= H]. by apply without_spaces_fixed.
Qed.

(** C3 (code defect).  On the line [#define $X a b] the code stores the
    replacement text [ab], where the specification's wording gives [a b]:
    the tokens after the name are joined with the empty string, so every
    space of the replacement text is lost (in general, third part).  The
    name is stored as the claim says, and so is an empty replacement text
    (fourth and fifth part). *)
Theorem C3_define_replacement_loses_its_spaces :
  (parse_define "#define $X a b" = inr ("$X", "ab")
   /\ spec_parse_define "#define $X a b" = Some ("$X", "a b"))
  /\ (exists text,
        preprocess_line Demo.E (fun _ _ => ret Sfz.RNone) true "d" (EmptyString, [])
          "#define $X a b" (Demo.world_of [] [])
        = (inr (text, [("$X", "ab")]),
           set_replaceDict_default [("$X", "ab")] (Demo.world_of [] [])))
  /\ (forall name rest,
        PyStr.has_char PyStr.SP name = false ->
        parse_define ("#define " ++ name ++ " " ++ rest)
        = inr (name, without_spaces rest))
  /\ (forall name,
        PyStr.has_char PyStr.SP name = false ->
        parse_define ("#define " ++ name) = inr (name, EmptyString))
  /\ spec_parse_define "#define $X" = Some ("$X", EmptyString).
Proof.
  split; [split; reflexivity|].
  split; [eexists; vm_compute; reflexivity|].
  split; [exact parse_define_shape|].
  split; [exact parse_define_bare | reflexivity].
Qed.

Lemma C3_witness :
  parse_define ("#define " ++ "$KEY" ++ " " ++ "6 0") = inr ("$KEY", without_spaces "6 0")
  /\ without_spaces "6 0" = "60".
Proof.
  split; [|reflexivity].
  apply (proj1 (proj2 (proj2 C3_define_replacement_loses_its_spaces))).
  reflexivity.
Defined.

(** ** Fade-in *)

Lemma imul_mismatch (a : list pyfloat) (b : list Q) :
  length b ≠ length a -> length b ≠ 1%nat -> Np.imul a b = inl Np.shape_error.
Proof.
  intros H1 H2. unfold Np.imul. rewrite bool_decide_eq_false_2 by done.
  by destruct b as [|r [|r' b]].
Qed.

Lemma assign_prefix_mismatch {A} (z rhs : list A) n :
  length rhs ≠ length (take n z) -> length rhs ≠ 1%nat ->
  Np.assign_prefix z n rhs = inl Np.shape_error.
Proof.
  intros H1 H2. unfold Np.assign_prefix. rewrite bool_decide_eq_false_2 by done.
  by destruct rhs as [|r [|r' b]].
Qed.

Lemma length_ramp n : length (Np.ramp n) = n.
Proof. unfold Np.ramp. by rewrite length_fmap, length_seq. Qed.

Lemma length_arange n : length (Np.arange n) = n.
Proof. unfold Np.arange. by rewrite length_fmap, length_seq. Qed.

Lemma length_values y : length (Np.values y) = Np.len y.
Proof. destruct y; simpl; [done | by rewrite length_fmap]. Qed.

Lemma max_abs_nonempty y : (0 < Np.len y)%nat -> exists peak, Np.max (Np.abs y) = inr peak.
Proof.
  destruct y as [[|x l]|[|x l]]; simpl; try lia; intros _; eexists; reflexivity.
Qed.

(** C4 (code defect).  For every buffer of 1 to 31 samples the fade-in
    raises: the 32-element ramp cannot be broadcast against the shorter
    slice, in the compressed path for either sample type and in the
    uncompressed path of the container pipeline. *)
Theorem C4_short_buffer_fade_in_raises
    (E : Externals) (y : Np.ndarray) (samplerate : Z) :
  (0 < Np.len y)%nat -> (Np.len y < 32)%nat ->
  buffer2mp3b64 E y samplerate = inl Np.shape_error
  /\ (forall l, y = Np.I16 l -> buffer2wavb64 E y samplerate = inl Np.shape_error).
Proof.
  intros Hpos Hlt. split.
  - unfold buffer2mp3b64.
    destruct (max_abs_nonempty y Hpos) as [peak ->].
    unfold mbind, result_bind.
    rewrite imul_mismatch; [done| |].
    + rewrite length_ramp, length_take. unfold Np.true_divide.
      rewrite length_fmap, length_values. lia.
    + rewrite length_ramp. lia.
  - intros l ->. simpl in Hpos, Hlt. unfold buffer2wavb64, mbind, result_bind.
    rewrite take_ge by lia.
    unfold Np.mul. rewrite bool_decide_eq_false_2 by (rewrite length_arange; lia).
    destruct l as [|x [|x' l]]; simpl in Hpos; [lia| |].
    + rewrite assign_prefix_mismatch; [done| |];
        rewrite !length_fmap, length_arange; simpl; lia.
    + assert (Hb : length (Np.arange 32) = 32%nat) by apply length_arange.
      destruct (Np.arange 32) as [|b0 [|b1 bs]]; simpl in Hb; [lia|lia|done].
Qed.

Lemma C4_witness :
  let y := Np.I16 [100; -200; 300; -400; 500]%Z in
  ((0 < Np.len y)%nat /\ (Np.len y < 32)%nat)
  /\ buffer2mp3b64 Demo.E y 44100 = inl Np.shape_error
  /\ buffer2wavb64 Demo.E y 44100 = inl Np.shape_error.
Proof.
  intros y. split; [vm_compute; lia|].
  pose proof (C4_short_buffer_fade_in_raises Demo.E y 44100) as H.
  destruct H as [H1 H2]; [vm_compute; lia | vm_compute; lia |].
  split; [exact H1 | exact (H2 _ eq_refl)].
Defined.

(** ** Gain *)

(** C7 (code defect).  On the buffer [-1, 1/2] line 197 divides by the
    signed maximum [1/2] and yields [7/5]; the peak of the absolute values
    is [1], for which the claim gives [7/10].  The same happens in a whole
    conversion of the demonstration file, whose sample starts with these two
    values. *)
Theorem C7_gain_divides_by_signed_maximum :
  region_gain [(-1)%Q; 1 # 2] = inr (Fin (7 # 5))
  /\ spec_region_gain [(-1)%Q; 1 # 2] = inr (Fin (7 # 10))
  /\ exists d zone,
       (sfz2soundJson Demo.E 10 "d/a.sfz" true None Demo.zones).1
         = inr (Sfz.RDoc "d/a.sfz" d)
       /\ Sfz.samples d = [zone]
       /\ PyDict.get "gain" zone = Some (PFloat (Fin (7 # 5)))
       /\ spec_region_gain (Demo.decode Demo.wav) = inr (Fin (7 # 10)).
Proof.
  split; [reflexivity|]. split; [reflexivity|].
  eexists _, _. split; [vm_compute; reflexivity|].
  repeat split; vm_compute; reflexivity.
Qed.

(** ** Reasoning about computations *)

Lemma bind_inr {A B} (m : M A) (f : A -> M B) w b w' :
  (m ≫= f) w = (inr b, w') ->
  exists a w1, m w = (inr a, w1) /\ f a w1 = (inr b, w').
Proof.
  unfold mbind, M_bind, bind. destruct (m w) as [[e|a] w1]; [done|]. eauto.
Qed.

Lemma bind_run {A B} (m : M A) (f : A -> M B) w a w1 :
  m w = (inr a, w1) -> (m ≫= f) w = f a w1.
Proof. unfold mbind, M_bind, bind. by intros ->. Qed.

Lemma bind_raise {A B} (m : M A) (f : A -> M B) w e w1 :
  m w = (inl e, w1) -> (m ≫= f) w = (inl e, w1).
Proof. unfold mbind, M_bind, bind. by intros ->. Qed.

Lemma fmap_inr {A B} (g : A -> B) (m : M A) w b w' :
  (g <$> m) w = (inr b, w') -> exists a, m w = (inr a, w') /\ b = g a.
Proof.
  unfold fmap, M_fmap, bind, ret. destruct (m w) as [[e|a] w1]; [done|].
  intros [= <- <-]. eauto.
Qed.

Lemma lift_inr {A} (r : result A) w a w' :
  lift r w = (inr a, w') -> r = inr a /\ w' = w.
Proof. unfold lift. by intros [= -> ->]. Qed.

Lemma result_bind_inr {A B} (r : result A) (f : A -> result B) b :
  (r ≫= f) = inr b -> exists a, r = inr a /\ f a = inr b.
Proof. destruct r as [e|a]; [done|]. simpl. eauto. Qed.

Lemma result_fmap_inr {A B} (g : A -> B) (r : result A) b :
  g <$> r = inr b -> exists a, r = inr a /\ b = g a.
Proof. destruct r as [e|a]; [done|]. intros [= <-]. eauto. Qed.

Lemma for_each_app {A S} (body : S -> A -> M S) l1 l2 st w :
  for_each body (l1 ++ l2) st w =
    (for_each body l1 st ≫= for_each body l2) w.
Proof.
  revert st w. induction l1 as [|x l1 IH]; intros st w; [done|].
  simpl. unfold mbind, M_bind, bind in *.
  destruct (body st x w) as [[e|st1] w1]; [done|]. apply IH.
Qed.

(** An invariant of the loop state that every successful iteration keeps
    holds when the loop ends normally. *)
Lemma for_each_invariant {A S} (P : S -> Prop) (body : S -> A -> M S) l st w st' w' :
  (forall s x w1 s' w2, P s -> body s x w1 = (inr s', w2) -> P s') ->
  P st -> for_each body l st w = (inr st', w') -> P st'.
Proof.
  intros Hstep. revert st w. induction l as [|x l IH]; intros st w HP; simpl.
  - by intros [= <- <-].
  - unfold bind. destruct (body st x w) as [[e|st1] w1] eqn:Hb; [done|].
    apply IH. eauto.
Qed.

Lemma fold_result_invariant {A S} (P : S -> Prop) (body : S -> A -> result S) l st st' :
  (forall s x s', P s -> body s x = inr s' -> P s') ->
  P st -> fold_result body l st = inr st' -> P st'.
Proof.
  intros Hstep. revert st. induction l as [|x l IH]; intros st HP; simpl.
  - by intros [= <-].
  - destruct (body st x) as [e|st1] eqn:Hb; [done|]. apply IH. eauto.
Qed.

Section Respects.
Context (R : relation world) `{!PreOrder R}.

Lemma respects_ret {A} (a : A) : respects R (ret a).
Proof. intros w. simpl. reflexivity. Qed.

Lemma respects_mret {A} (a : A) : respects R (mret a : M A).
Proof. apply respects_ret. Qed.

Lemma respects_raise {A} e : respects R (raise e : M A).
Proof. intros w. simpl. reflexivity. Qed.

Lemma respects_lift {A} (r : result A) : respects R (lift r).
Proof. intros w. simpl. reflexivity. Qed.

Lemma respects_gets {A} (g : world -> A) : respects R (gets g).
Proof. intros w. simpl. reflexivity. Qed.

Lemma respects_bind {A B} (m : M A) (f : A -> M B) :
  respects R m -> (forall a, respects R (f a)) -> respects R (m ≫= f).
Proof.
  intros Hm Hf w. unfold mbind, M_bind, bind.
  specialize (Hm w). destruct (m w) as [[e|a] w1]; simpl in *; [done|].
  etrans; [exact Hm | apply Hf].
Qed.

Lemma respects_fmap {A B} (g : A -> B) (m : M A) :
  respects R m -> respects R (g <$> m).
Proof.
  intros Hm. apply (respects_bind m (fun a => ret (g a))); [done|].
  intros a. apply respects_ret.
Qed.

Lemma respects_try {A} (m : M A) (h : exn -> M A) :
  respects R m -> (forall e, respects R (h e)) -> respects R (try_except m h).
Proof.
  intros Hm Hh w. unfold try_except.
  specialize (Hm w). destruct (m w) as [[e|a] w1]; simpl in *; [|done].
  etrans; [exact Hm | apply Hh].
Qed.

Lemma respects_for_each {A S} (body : S -> A -> M S) l st :
  (forall s x, respects R (body s x)) -> respects R (for_each body l st).
Proof.
  intros Hb. revert st. induction l as [|x l IH]; intros st; simpl.
  - apply respects_ret.
  - apply (respects_bind (body st x) (for_each body l)); auto.
Qed.

Lemma respects_run_task {A} (m : M A) : respects R m -> respects R (run_task m).
Proof.
  intros Hm w. unfold run_task. specialize (Hm w).
  by destruct (m w) as [r w1].
Qed.

Lemma respects_if {A} (b : bool) (m1 m2 : M A) :
  respects R m1 -> respects R m2 -> respects R (if b then m1 else m2).
Proof. by destruct b. Qed.
End Respects.

Lemma respects_weaken {A} (R1 R2 : relation world) (m : M A) :
  (forall w w', R1 w w' -> R2 w w') -> respects R1 m -> respects R2 m.
Proof. intros H Hm w. apply H, Hm. Qed.

(** File operations. *)
Lemma read_file_same p : respects same_world (OsPath.read_file p).
Proof.
  intros w. unfold OsPath.read_file.
  destruct (files w !! p); [done|]. by destruct (OsPath.isdir_in w p).
Qed.

Lemma exists_same p : respects same_world (OsPath.exists_ p).
Proof. done. Qed.

Lemma isdir_same p : respects same_world (OsPath.isdir p).
Proof. done. Qed.

Lemma listdir_same E d : respects same_world (listdir E d).
Proof.
  intros w. unfold listdir. destruct (OsPath.isdir_in w d); [done|].
  by destruct (OsPath.isfile_in w d).
Qed.

Lemma mkdir_files name : respects same_files_table (OsPath.mkdir name).
Proof.
  intros w. unfold OsPath.mkdir.
  repeat (match goal with |- context [if ?b then _ else _] => destruct b end);
    done.
Qed.

Lemma makedirs_go_files fuel name : respects same_files_table (OsPath.makedirs_go fuel name).
Proof.
  revert name. induction fuel as [|fuel IH]; intros name; simpl.
  - apply respects_raise, _.
  - destruct (OsPath.split name) as [head0 tail0].
    destruct (if String.eqb tail0 EmptyString then OsPath.split head0 else (head0, tail0))
      as [hd tl].
    assert (Hfinal : respects same_files_table
              (try_except (OsPath.mkdir name)
                 (fun e => bind (OsPath.isdir name)
                             (fun d => if d then ret tt else raise e)))).
    { apply respects_try; [apply _ | apply mkdir_files |]. intros e w.
      unfold bind, OsPath.isdir, gets. by destruct (OsPath.isdir_in w name). }
    destruct (negb (String.eqb hd EmptyString) && negb (String.eqb tl EmptyString));
      [|exact Hfinal].
    intros w. unfold bind, OsPath.exists_, gets.
    destruct (OsPath.exists_in w hd); [apply Hfinal|].
    unfold try_except.
    pose proof (IH hd w) as Hrec.
    destruct (OsPath.makedirs_go fuel hd w) as [[e|[]] w1]; simpl in *.
    + destruct e; simpl; try exact Hrec.
      destruct (String.eqb tl "."); simpl; [exact Hrec|].
      etrans; [exact Hrec | apply Hfinal].
    + destruct (String.eqb tl "."); simpl; [exact Hrec|].
      etrans; [exact Hrec | apply Hfinal].
Qed.

Lemma makedirs_files name : respects same_files_table (OsPath.makedirs name).
Proof. apply makedirs_go_files. Qed.

Lemma write_file_table p text : respects same_table (OsPath.write_file p text).
Proof.
  intros w. unfold OsPath.write_file.
  repeat (match goal with |- context [if ?b then _ else _] => destruct b end);
    done.
Qed.

Lemma same_world_table w w' : same_world w w' -> same_table w w'.
Proof. by intros ->. Qed.
Lemma same_files_table_table w w' : same_files_table w w' -> same_table w w'.
Proof. by intros [_ ?]. Qed.

Lemma toFile_table E p v : respects same_table (toFile E p v).
Proof.
  unfold toFile.
  apply respects_bind; [apply _ | apply respects_lift, _ |]. intros text.
  apply respects_bind; [apply _ | |].
  - eapply respects_weaken; [apply same_files_table_table | apply makedirs_files].
  - intros _. apply write_file_table.
Qed.

(** ** The text pipeline, step by step *)

Lemma resolve_pitch_inr E sampleDict zone :
  resolve_pitch E sampleDict = inr zone ->
  exists z, zone = PyDict.set "pitch_keycenter" (PInt z) sampleDict.
Proof.
  unfold resolve_pitch.
  destruct (from_option _ _ ≫= py_int) as [e|z]; [|intros [= <-]; eauto].
  intros (v & _ & (key & _ & [= <-])%result_bind_inr)%result_bind_inr. eauto.
Qed.

Lemma resolve_pitch_missing E sampleDict :
  PyDict.get "pitch_keycenter" sampleDict = None ->
  resolve_pitch E sampleDict = inl (KeyError "pitch_keycenter").
Proof. unfold resolve_pitch. by intros ->. Qed.

(** A region whose file is missing is skipped; any other region that is
    processed to the end has a [pitch_keycenter] after inheritance, and adds
    a zone whose [sampleNo] is the number of zones already in the patch. *)
Lemma process_region_inr E compress d sampleDict w d' w' :
  process_region E compress d sampleDict w = (inr d', w') ->
  exists sample,
    PyDict.get "sample" (inherit d sampleDict) = Some (PStr sample)
    /\ ((OsPath.exists_in w (OsPath.join (Sfz.samplesLoadPoint d) sample) = false
         /\ d' = d)
        \/ (OsPath.exists_in w (OsPath.join (Sfz.samplesLoadPoint d) sample) = true
            /\ is_Some (PyDict.get "pitch_keycenter" (inherit d sampleDict))
            /\ exists zone,
                 d' = Sfz.set_samples (Sfz.samples d ++ [zone]) d
                 /\ PyDict.get "sampleNo" zone
                    = Some (PInt (Z.of_nat (length (Sfz.samples d)))))).
Proof.
  unfold process_region.
  intros (sample & w1 & [Hsample ->]%lift_inr & H)%bind_inr.
  apply result_bind_inr in Hsample as (v & Hv & Hstr).
  destruct (PyDict.get "sample" (inherit d sampleDict)) as [v'|]; [|done].
  injection Hv as ->. destruct v; try done. injection Hstr as ->.
  exists sample. split; [done|].
  apply bind_inr in H as (found & w2 & Hfound & H). injection Hfound as <- <-.
  destruct (OsPath.exists_in w _); [right|left]; cbn [negb] in H.
  2:{ by injection H as <- _. }
  split; [done|].
  apply bind_inr in H as (content & w3 & _ & H).
  apply bind_inr in H as (loaded & w4 & _ & H).
  apply bind_inr in H as (gain & w5 & _ & H).
  apply bind_inr in H as (audio & w6 & _ & H).
  apply bind_inr in H as (zone & w7 & [Hz _]%lift_inr & H).
  injection H as <- _. split.
  - destruct (PyDict.get "pitch_keycenter" (inherit d sampleDict)) eqn:Hp; [eauto|].
    rewrite resolve_pitch_missing in Hz; [done|].
    rewrite get_update. cbn [rev app PyDict.get bool_decide].
    rewrite !get_set_ne by done. exact Hp.
  - exists zone. split; [done|].
    apply resolve_pitch_inr in Hz as [z ->].
    rewrite get_set_ne by done. by rewrite get_update.
Qed.

Lemma process_region_same E compress d sampleDict :
  respects same_world (process_region E compress d sampleDict).
Proof.
  unfold process_region.
  apply respects_bind; [apply _ | apply respects_lift, _ |]. intros sample.
  apply respects_bind; [apply _ | apply exists_same |]. intros found.
  apply respects_if; [apply respects_mret, _|].
  apply respects_bind; [apply _ | apply read_file_same |]. intros content.
  apply respects_bind; [apply _ | apply respects_lift, _ |]. intros loaded.
  apply respects_bind; [apply _ | apply respects_lift, _ |]. intros gain.
  apply respects_bind; [apply _ | |].
  - apply respects_if.
    + apply respects_bind; [apply _ | apply respects_lift, _ |]. intros a.
      apply respects_mret, _.
    + apply respects_bind; [apply _ | apply read_file_same |]. intros a.
      apply respects_mret, _.
  - intros audio.
    apply respects_bind; [apply _ | apply respects_lift, _ |]. intros zone.
    apply respects_mret, _.
Qed.

Lemma process_section_same E compress basedir d section :
  respects same_world (process_section E compress basedir d section).
Proof.
  destruct section as [sectionName sampleDict]. unfold process_section.
  repeat apply respects_if; try apply respects_mret; try apply respects_lift;
    try apply respects_raise; try apply _.
  apply process_region_same.
Qed.

Lemma process_sections_same E compress basedir sections d :
  respects same_world (for_each (process_section E compress basedir) sections d).
Proof. apply respects_for_each; [apply _|]. intros. apply process_section_same. Qed.

Lemma numbered_nil : numbered [].
Proof. intros i zone. by rewrite lookup_nil. Qed.

Lemma numbered_snoc samples zone :
  numbered samples ->
  PyDict.get "sampleNo" zone = Some (PInt (Z.of_nat (length samples))) ->
  numbered (samples ++ [zone]).
Proof.
  intros Hn Hz i z Hi.
  apply lookup_app_Some in Hi as [Hi|[Hge Hi]]; [by apply Hn|].
  apply list_lookup_singleton_Some in Hi as [Hi <-].
  replace i with (length samples) by lia. done.
Qed.

(** What every section keeps: the success flag, and the numbering of the
    zones. *)
Lemma process_section_keeps E compress basedir d section w d' w' :
  process_section E compress basedir d section w = (inr d', w') ->
  Sfz.success d' = Sfz.success d
  /\ (numbered (Sfz.samples d) -> numbered (Sfz.samples d')).
Proof.
  destruct section as [sectionName sampleDict]. unfold process_section.
  destruct (String.eqb sectionName "region").
  { intros (sample & _ & [[_ ->]|(_ & _ & zone & -> & Hz)])%process_region_inr;
      [done|].
    split; [done|]. intros Hn. by apply numbered_snoc. }
  case_bool_decide. { by intros [= <- _]. }
  destruct (String.eqb sectionName "control").
  { intros [Hc _]%lift_inr. unfold process_control in Hc.
    destruct (_ || _); [|by injection Hc as <-].
    destruct (default _ _); try done. by injection Hc as <-. }
  case_bool_decide; [by intros [= <- _] | done].
Qed.

Lemma process_sections_keep E compress basedir sections d w d' w' :
  for_each (process_section E compress basedir) sections d w = (inr d', w') ->
  Sfz.success d' = Sfz.success d
  /\ (numbered (Sfz.samples d) -> numbered (Sfz.samples d')).
Proof.
  intros H.
  apply (for_each_invariant
           (fun s => Sfz.success s = Sfz.success d
                     /\ (numbered (Sfz.samples d) -> numbered (Sfz.samples s)))
           _ _ _ _ _ _ ) in H; [done| |done].
  intros s x w1 s' w2 [Hs Hn] Hstep.
  apply process_section_keeps in Hstep as [Hs' Hn']. split; [congruence | auto].
Qed.

(** ** Writing the output and checking it against the gold file *)

Lemma toFile_inr E p v w w' :
  toFile E p v w = (inr tt, w') ->
  exists text, json_dumps E (Some 2%nat) true v = inr text
               /\ files w' = <[p := text]> (files w).
Proof.
  unfold toFile.
  intros (text & w1 & [Ht ->]%lift_inr & H)%bind_inr.
  apply bind_inr in H as ([] & w2 & Hmk & H).
  exists text. split; [done|].
  pose proof (makedirs_files (OsPath.dirname p) w) as [Hf _].
  rewrite Hmk in Hf. simpl in Hf.
  unfold OsPath.write_file in H.
  repeat (match type of H with context [if ?b then _ else _] => destruct b end);
    try done.
  all: injection H as <-; simpl; by rewrite Hf.
Qed.

Lemma string_length_app s t :
  String.length (s ++ t) = (String.length s + String.length t)%nat.
Proof.
  induction s as [|c s IH]; [reflexivity|].
  rewrite string_app_cons. simpl. by rewrite IH.
Qed.

Lemma gold_path_differs out : (out ++ ".gold")%string ≠ out.
Proof.
  intros H. apply (f_equal String.length) in H.
  rewrite string_length_app in H. simpl in H. lia.
Qed.

Lemma emit_inr E filename outFilename d0 w key d w' :
  emit E filename outFilename d0 w = (inr (Sfz.RDoc key d), w') ->
  let fresh := Sfz.retval_to_py (Sfz.RDoc filename d0) in
  key = filename
  /\ exists soundJSON written,
       json_dumps E (Some 2%nat) false fresh = inr soundJSON
       /\ json_dumps E (Some 2%nat) true fresh = inr written
       /\ files w' !! outFilename = Some written
       /\ match files w' !! (outFilename ++ ".gold")%string with
          | Some gold =>
              d = if bool_decide (gold = soundJSON) then d0
                  else Sfz.set_success false d0
          | None => d = d0
          end.
Proof.
  unfold emit. intros H.
  apply bind_inr in H as ([] & w1 & (written & Hw & Hfiles)%toFile_inr & H).
  apply bind_inr in H as (soundJSON & w2 & [Hs ->]%lift_inr & H).
  apply bind_inr in H as (found & w3 & Hfound & H).
  injection Hfound as <- <-.
  assert (Hout : files w1 !! outFilename = Some written).
  { rewrite Hfiles. apply lookup_insert_eq. }
  destruct (OsPath.exists_in w1 (outFilename ++ ".gold")) eqn:Hex.
  - apply bind_inr in H as (goldtext & w4 & Hread & H).
    unfold OsPath.read_file in Hread.
    destruct (files w1 !! (outFilename ++ ".gold")%string) as [gold|] eqn:Hg.
    + injection Hread as <- <-.
      destruct (String.eqb gold soundJSON) eqn:Heq; simpl in H;
        injection H as <- <- <-; (split; [done|]); exists soundJSON, written;
        rewrite Hg; repeat split; try done.
      * apply String.eqb_eq in Heq. by rewrite bool_decide_eq_true_2.
      * apply String.eqb_neq in Heq. by rewrite bool_decide_eq_false_2.
    + by destruct (OsPath.isdir_in w1 _).
  - injection H as <- <- <-. split; [done|]. exists soundJSON, written.
    repeat split; try done.
    unfold OsPath.exists_in, OsPath.isfile_in in Hex.
    apply orb_false_iff in Hex as [Hex _].
    apply bool_decide_eq_false in Hex.
    destruct (files w1 !! (outFilename ++ ".gold")%string) eqn:Hg; [|done].
    exfalso. apply Hex. eauto.
Qed.

(** With the gold file in place, [emit] returns once the output is written
    and serialized, flagged by the comparison. *)
Lemma emit_returns E filename outFilename d0 w w1 soundJSON gold :
  toFile E outFilename (Sfz.retval_to_py (Sfz.RDoc filename d0)) w = (inr tt, w1) ->
  json_dumps E (Some 2%nat) false (Sfz.retval_to_py (Sfz.RDoc filename d0))
    = inr soundJSON ->
  files w1 !! (outFilename ++ ".gold")%string = Some gold ->
  emit E filename outFilename d0 w
    = (inr (Sfz.RDoc filename
              (if bool_decide (gold = soundJSON) then d0
               else Sfz.set_success false d0)), w1).
Proof.
  intros Hfile Hs Hgold. unfold emit.
  rewrite (bind_run _ _ w tt w1) by exact Hfile.
  rewrite (bind_run _ _ w1 soundJSON w1) by (unfold lift; by rewrite Hs).
  assert (Hex : OsPath.exists_in w1 (outFilename ++ ".gold") = true).
  { unfold OsPath.exists_in, OsPath.isfile_in. rewrite Hgold.
    rewrite bool_decide_eq_true_2; [done | eauto]. }
  rewrite (bind_run _ _ w1 true w1) by (unfold OsPath.exists_, gets; by rewrite Hex).
  cbv iota.
  rewrite (bind_run _ _ w1 gold w1) by (unfold OsPath.read_file; by rewrite Hgold).
  destruct (String.eqb gold soundJSON) eqn:Heq; cbn [negb].
  - apply String.eqb_eq in Heq. by rewrite bool_decide_eq_true_2.
  - apply String.eqb_neq in Heq. by rewrite bool_decide_eq_false_2.
Qed.

(** A returned document comes from [emit], on the dictionary the section
    loop computed from a fresh one. *)
Lemma sfz2soundJson_doc E fuel filename compress replaceDict w key d w' :
  sfz2soundJson E fuel filename compress replaceDict w = (inr (Sfz.RDoc key d), w') ->
  exists sections d0 w0,
    for_each (process_section E compress (OsPath.dirname filename)) sections
      (new_soundJsonDict filename) w0 = (inr d0, w0)
    /\ emit E filename (PyStr.drop_last 4 filename ++ ".json") d0 w0
       = (inr (Sfz.RDoc key d), w').
Proof.
  destruct fuel as [|fuel]; [done|]. cbn [sfz2soundJson].
  intros (cached & w1 & _ & H)%bind_inr.
  destruct cached.
  { apply fmap_inr in H as (? & _ & ?). done. }
  apply bind_inr in H as (found & w2 & _ & H).
  destruct (negb found); [done|].
  apply bind_inr in H as (preprocFile & w3 & _ & H).
  apply bind_inr in H as (table & w4 & _ & H).
  apply bind_inr in H as (pre & w5 & _ & H).
  apply bind_inr in H as (sections & w6 & [_ ->]%lift_inr & H).
  apply bind_inr in H as (d0 & w7 & Hloop & H).
  pose proof (process_sections_same E compress (OsPath.dirname filename)
                sections (new_soundJsonDict filename) w5) as Hw.
  rewrite Hloop in Hw. simpl in Hw. red in Hw. subst w7. eauto.
Qed.

Lemma set_success_true d : Sfz.success d = true -> Sfz.set_success true d = d.
Proof. destruct d; simpl. by intros ->. Qed.

(** When a conversion returns a freshly computed document and a gold file
    exists, the output file holds the sorted serialization, and the
    returned [success] is true exactly when the gold text equals the
    serialization that is not sorted (the one [json.dumps(.., indent=2)]
    gives for the document before it is flagged). *)
Lemma sfz2soundJson_gold_comparison
    (E : Externals) (fuel : nat) (filename : string) (compress : bool)
    (replaceDict : option (pydict string)) (w w' : world)
    (key : string) (d : Sfz.soundJsonDict) (gold : string) :
  let outFilename := (PyStr.drop_last 4 filename ++ ".json")%string in
  let fresh := Sfz.retval_to_py (Sfz.RDoc filename (Sfz.set_success true d)) in
  sfz2soundJson E fuel filename compress replaceDict w = (inr (Sfz.RDoc key d), w') ->
  files w' !! (outFilename ++ ".gold")%string = Some gold ->
  exists soundJSON written,
    json_dumps E (Some 2%nat) false fresh = inr soundJSON
    /\ json_dumps E (Some 2%nat) true fresh = inr written
    /\ files w' !! outFilename = Some written
    /\ Sfz.success d = bool_decide (gold = soundJSON).
Proof.
  intros outFilename fresh (sections & d0 & w0 & Hloop & Hemit)%sfz2soundJson_doc Hgold.
  apply process_sections_keep in Hloop as [Hsucc _]. simpl in Hsucc.
  apply emit_inr in Hemit as (-> & soundJSON & written & Hs & Hw & Hout & Hd).
  fold outFilename in Hout, Hd. rewrite Hgold in Hd.
  assert (Hfresh : Sfz.set_success true d = d0).
  { subst d. case_bool_decide; [by apply set_success_true|].
    destruct d0; simpl in *. by subst. }
  unfold fresh. rewrite Hfresh.
  exists soundJSON, written. repeat split; try done.
  subst d. by case_bool_decide.
Qed.

(** So a gold file equal to the output file is flagged whenever sorting
    changes the serialization of the document. *)
Lemma sfz2soundJson_gold_equal_to_output
    (E : Externals) (fuel : nat) (filename : string) (compress : bool)
    (replaceDict : option (pydict string)) (w w' : world)
    (key : string) (d : Sfz.soundJsonDict) (gold : string) :
  let outFilename := (PyStr.drop_last 4 filename ++ ".json")%string in
  let fresh := Sfz.retval_to_py (Sfz.RDoc filename (Sfz.set_success true d)) in
  sfz2soundJson E fuel filename compress replaceDict w = (inr (Sfz.RDoc key d), w') ->
  files w' !! (outFilename ++ ".gold")%string = Some gold ->
  files w' !! outFilename = Some gold ->
  json_dumps E (Some 2%nat) false fresh ≠ json_dumps E (Some 2%nat) true fresh ->
  Sfz.success d = false.
Proof.
  intros outFilename fresh Hrun Hgold Hout Hsort.
  destruct (sfz2soundJson_gold_comparison E fuel filename compress replaceDict w w'
              key d gold Hrun Hgold) as (soundJSON & written & Hs & Hw & Hout' & ->).
  fold outFilename in Hout'. fold fresh in Hs, Hw.
  apply bool_decide_eq_false. intros ->.
  apply Hsort. rewrite Hs, Hw. congruence.
Qed.

(** C5 (code defect).  The output file is written with sorted keys (line
    28) and the gold text is compared with a second serialization that is
    not sorted (line 239).  With a serializer that obeys [sort_keys], a gold
    file that holds exactly the text the converter writes is reported as a
    mismatch: the two files are equal when the call returns and [success]
    is false.  An altered gold file is reported as the claim says, and the
    output is written in both cases. *)
Theorem C5_gold_copied_from_the_written_output_is_flagged :
  let first := sfz2soundJson Demo.E_sorting 10 "d/a.sfz" true None Demo.zones in
  let written := default EmptyString (files first.2 !! "d/a.json") in
  let w := set_files (<["d/a.json.gold" := written]> (files Demo.zones)) Demo.zones in
  let run := sfz2soundJson Demo.E_sorting 10 "d/a.sfz" true None w in
  let altered := sfz2soundJson Demo.E_sorting 10 "d/a.sfz" true None Demo.zones_gold in
  (files first.2 !! "d/a.json" = Some written
   /\ OsPath.exists_in w "d/a.json" = false)
  /\ (exists d,
        run.1 = inr (Sfz.RDoc "d/a.sfz" d)
        /\ files run.2 !! "d/a.json.gold" = Some written
        /\ files run.2 !! "d/a.json" = Some written
        /\ Sfz.success d = false)
  /\ (exists d,
        altered.1 = inr (Sfz.RDoc "d/a.sfz" d)
        /\ is_Some (files altered.2 !! "d/a.json")
        /\ files altered.2 !! "d/a.json" ≠ files altered.2 !! "d/a.json.gold"
        /\ Sfz.success d = false).
Proof.
  cbv zeta. split; [split; vm_compute; reflexivity|]. split.
  - eexists. split; [vm_compute; reflexivity|].
    split; [vm_compute; reflexivity|]. split; vm_compute; reflexivity.
  - eexists. split; [vm_compute; reflexivity|].
    split; [vm_compute; by eexists|]. split; [vm_compute; discriminate|].
    vm_compute; reflexivity.
Qed.

(** ** The container pipeline, step by step *)

Lemma fold_result_invariant_in {A S} (P : S -> Prop) (body : S -> A -> result S) l st st' :
  (forall s x s', x ∈ l -> P s -> body s x = inr s' -> P s') ->
  P st -> fold_result body l st = inr st' -> P st'.
Proof.
  revert st. induction l as [|x l IH]; intros st Hstep HP; simpl.
  - by intros [= <-].
  - destruct (body st x) as [e|st1] eqn:Hb; [done|].
    apply IH.
    + intros s y s' Hy. apply Hstep. by right.
    + eapply Hstep; [left | done | done].
Qed.

Lemma for_each_invariant_in {A S} (P : S -> Prop) (body : S -> A -> M S) l st w st' w' :
  (forall s x w1 s' w2, x ∈ l -> P s -> body s x w1 = (inr s', w2) -> P s') ->
  P st -> for_each body l st w = (inr st', w') -> P st'.
Proof.
  revert st w. induction l as [|x l IH]; intros st w Hstep HP; simpl.
  - by intros [= <- <-].
  - unfold bind. destruct (body st x w) as [[e|st1] w1] eqn:Hb; [done|].
    apply IH.
    + intros s y w2 s' w3 Hy. apply Hstep. by right.
    + eapply Hstep; [left | done | done].
Qed.

(** The zone a sample adds: it is numbered with the count of the zones
    before it; the flags are only read. *)
Lemma processSf2Sample_inr E sample bag d compress d' :
  processSf2Sample E sample bag d compress = inr d' ->
  exists zone,
    Sf2.samples d' = Sf2.samples d ++ [zone]
    /\ PyDict.get "sampleNo" zone = Some (PInt (Z.of_nat (length (Sf2.samples d))))
    /\ Sf2.percussion d' = Sf2.percussion d
    /\ Sf2.loop d' = Sf2.loop d
    /\ (Sf2.percussion d = 0%Z ->
        Sf2.percussiveSampleIndex d' = Sf2.percussiveSampleIndex d)
    /\ (Sf2.loop d = 0%Z -> no_loop_keys zone).
Proof.
  unfold processSf2Sample.
  intros (ys & _ & H)%result_bind_inr.
  apply result_bind_inr in H as (audio & _ & H).
  apply result_bind_inr in H as (pitch & _ & H).
  apply result_bind_inr in H as (peak & _ & H).
  injection H as <-. eexists. split; [reflexivity|]. simpl.
  apply conj; [|apply conj; [reflexivity|apply conj; [reflexivity|apply conj]]].
  - destruct (negb (Sf2.percussion d =? 0)%Z), (Sf2.start_loop sample);
      try destruct (negb (Sf2.loop d =? 0)%Z); reflexivity.
  - by intros ->.
  - intros ->. simpl.
    destruct (negb (Sf2.percussion d =? 0)%Z), (Sf2.start_loop sample);
      repeat split; reflexivity.
Qed.

Lemma new_patch_ok filename_noext inst : sf2_patch_ok (new_patch filename_noext inst).
Proof. split; simpl; first [done | apply numbered_nil | apply Forall_nil_2]. Qed.

Lemma processSf2Sample_ok E sample bag d compress d' :
  sf2_patch_ok d -> processSf2Sample E sample bag d compress = inr d' -> sf2_patch_ok d'.
Proof.
  intros [Hp Hl Hi Hn Hk] (zone & Hs & Hno & Hp' & Hl' & Hi' & Hk')%processSf2Sample_inr.
  split.
  - congruence.
  - congruence.
  - rewrite Hi'; done.
  - rewrite Hs. by apply numbered_snoc.
  - rewrite Hs. apply Forall_app. split; [done|]. apply Forall_singleton. auto.
Qed.

Lemma process_instrument_inr E inFilename filename_noext compress inst unique_name w k d w' :
  process_instrument E inFilename filename_noext compress inst unique_name w
    = (inr (k, d), w') ->
  k = (inFilename ++ "_" ++ Sf2.inst_name inst)%string /\ sf2_patch_ok d.
Proof.
  unfold process_instrument.
  intros (d0 & w1 & [Hd0 ->]%lift_inr & H)%bind_inr.
  apply bind_inr in H as ([] & w2 & _ & H). injection H as <- <- _.
  split; [done|].
  assert (Hok : sf2_patch_ok d0).
  { destruct (Sf2.bags inst) as [bags|].
    - eapply (fold_result_invariant sf2_patch_ok); [|apply new_patch_ok|exact Hd0].
      intros s bag s' Hs. unfold process_bag.
      destruct (Sf2.bag_sample bag); [by apply processSf2Sample_ok|].
      by intros [= <-].
    - injection Hd0 as <-. apply new_patch_ok. }
  destruct Hok. by split.
Qed.

Lemma run_pool_elem E {A} (tasks : list (M A)) w results w' r :
  run_pool E tasks w = (inr results, w') -> r ∈ results ->
  exists task w1 w2, task ∈ tasks /\ task w1 = (r, w2).
Proof.
  unfold run_pool. intros H. revert r.
  eapply (for_each_invariant
            (fun done => forall r, r ∈ done ->
               exists task w1 w2, task ∈ tasks /\ task w1 = (r, w2)));
    [| |exact H].
  - intros done i w1 done' w2 Hdone Hstep r0. cbv beta in Hstep.
    destruct (tasks !! i) as [task|] eqn:Hi.
    + apply bind_inr in Hstep as (r1 & w3 & Hrun & Hret).
      injection Hret as <- _. unfold run_task in Hrun.
      destruct (task w1) as [r2 w4] eqn:Ht. injection Hrun as <- <-.
      intros [Hr|Hr%list_elem_of_singleton]%elem_of_app; [auto|]. subst r0.
      exists task, w1, w4. split; [|done]. by eapply list_elem_of_lookup_2.
    + injection Hstep as <- _. auto.
  - intros r0 Hr. by apply elem_of_nil in Hr.
Qed.

Lemma elem_of_pydict_set {V} (k : string) (v : V) d kv :
  kv ∈ PyDict.set k v d -> kv = (k, v) \/ kv ∈ d.
Proof.
  induction d as [|[k' v'] d IH]; simpl.
  - intros ->%list_elem_of_singleton. by left.
  - case_bool_decide.
    + intros [->|?]%elem_of_cons; [by left | right; by right].
    + intros [->|[->|?]%IH]%elem_of_cons; [right; left | by left | right; by right].
Qed.

Lemma collect_elem results patches kd :
  collect results = inr patches -> kd ∈ patches -> inr kd ∈ results.
Proof.
  unfold collect. intros H. revert kd.
  eapply (fold_result_invariant_in
            (fun acc => forall kd, kd ∈ acc -> inr kd ∈ results)); [| |exact H].
  - intros acc r acc' Hr Hacc Hstep kd'. cbv beta in Hstep.
    destruct r as [e|[k d]]; [done|]. injection Hstep as <-.
    intros [->|?]%elem_of_pydict_set; auto.
  - intros kd' Hkd. by apply elem_of_nil in Hkd.
Qed.

(** Every patch the extractor has just built satisfies the invariant. *)
Lemma sf22soundJson_fresh_patch E inFilename compress force w patches w' k d :
  sf22soundJson E inFilename compress force w = (inr (Sf2.Fresh patches), w') ->
  (k, d) ∈ patches ->
  (exists inst, k = (inFilename ++ "_" ++ Sf2.inst_name inst)%string) /\ sf2_patch_ok d.
Proof.
  unfold sf22soundJson.
  intros (bytes & w1 & _ & H)%bind_inr Hin.
  apply bind_inr in H as (sf2 & w2 & _ & H).
  apply bind_inr in H as ([] & w3 & _ & H).
  apply bind_inr in H as (existing & w4 & _ & H).
  destruct existing as [cached|]; [done|].
  destruct (unique_names ∅ sf2) as [|iu instruments] eqn:Hnames.
  { injection H as <- _. by apply elem_of_nil in Hin. }
  apply bind_inr in H as (results & w5 & Hpool & H).
  apply fmap_inr in H as (patches' & [Hc _]%lift_inr & [= ->]).
  eapply collect_elem in Hin; [|done].
  eapply run_pool_elem in Hin as (task & wa & wb & Htask & Hrun); [|done].
  apply list_elem_of_fmap in Htask as ([inst unique_name] & -> & _).
  apply process_instrument_inr in Hrun as [-> Hok]. eauto.
Qed.

(** C6.  In a patch produced by either pipeline the zone at position [i]
    carries [sampleNo = i]: every zone is appended with the length of the
    sequence at that moment (lemmas [process_region_inr] and
    [processSf2Sample_inr]). *)
Theorem C6_sampleNo_is_array_position
    (E : Externals) (samples : list (pydict pyval)) (i : nat) (zone : pydict pyval) :
  produced_samples E samples ->
  samples !! i = Some zone ->
  PyDict.get "sampleNo" zone = Some (PInt (Z.of_nat i)).
Proof.
  intros Hprod. revert i zone. change (numbered samples).
  destruct Hprod as [fuel filename compress replaceDict w w' key d Hrun
                    |inFilename compress force w w' patches k d Hrun Hin].
  - apply sfz2soundJson_doc in Hrun as (sections & d0 & w0 & Hloop & Hemit).
    apply process_sections_keep in Hloop as [_ Hn].
    apply emit_inr in Hemit as (_ & soundJSON & written & _ & _ & _ & Hd).
    assert (Hs : Sfz.samples d = Sfz.samples d0).
    { destruct (files w' !! _) in Hd; subst d; [by case_bool_decide | done]. }
    rewrite Hs. apply Hn, numbered_nil.
  - by destruct (sf22soundJson_fresh_patch _ _ _ _ _ _ _ _ _ Hrun Hin) as [_ []].
Qed.

Lemma C6_witness :
  let run := sfz2soundJson Demo.E 10 "d/a.sfz" true None Demo.zones_gold in
  let d := match run.1 with
           | inr (Sfz.RDoc _ d) => d
           | _ => new_soundJsonDict EmptyString
           end in
  exists zone,
    Sfz.samples d !! 1%nat = Some zone
    /\ PyDict.get "sampleNo" zone = Some (PInt 1).
Proof.
  intros run d.
  assert (Hrun : run = (inr (Sfz.RDoc "d/a.sfz" d), run.2)) by (vm_compute; reflexivity).
  destruct (Sfz.samples d !! 1%nat) as [zone|] eqn:Hz;
    [|vm_compute in Hz; discriminate Hz].
  exists zone. split; [reflexivity|].
  exact (C6_sampleNo_is_array_position Demo.E (Sfz.samples d) 1 zone
           (produced_by_sfz Demo.E _ _ _ _ _ _ _ _ Hrun) Hz).
Defined.

(** C8.  A patch built by the container pipeline has both flags at zero;
    the percussion counter still holds its initial 45 and no zone carries a
    loop attribute, so neither conditional branch of sample processing has
    run. *)
Theorem C8_percussion_and_loop_branches_never_run
    (E : Externals) (inFilename : string) (compress force : bool) (w w' : world)
    (patches : pydict Sf2.soundJsonDict) (primaryKey : string)
    (d : Sf2.soundJsonDict) :
  sf22soundJson E inFilename compress force w = (inr (Sf2.Fresh patches), w') ->
  (primaryKey, d) ∈ patches ->
  Sf2.percussion d = 0%Z /\ Sf2.loop d = 0%Z
  /\ Sf2.percussiveSampleIndex d = 45%Z
  /\ forall zone, zone ∈ Sf2.samples d -> no_loop_keys zone.
Proof.
  intros Hrun Hin.
  destruct (sf22soundJson_fresh_patch _ _ _ _ _ _ _ _ _ Hrun Hin)
    as [_ [Hp Hl Hi _ Hk]].
  split; [exact Hp|]. split; [exact Hl|]. split; [exact Hi|].
  by apply Forall_forall.
Qed.

Lemma C8_witness :
  let run := sf22soundJson Demo.E "d/x.sf2" true false Demo.pianos in
  let patches := match run.1 with inr (Sf2.Fresh p) => p | _ => [] end in
  exists k d,
    patches !! 0%nat = Some (k, d)
    /\ Sf2.percussion d = 0%Z /\ Sf2.loop d = 0%Z
    /\ Sf2.percussiveSampleIndex d = 45%Z
    /\ length (Sf2.samples d) = 1%nat
    /\ forall zone, zone ∈ Sf2.samples d -> no_loop_keys zone.
Proof.
  intros run patches.
  assert (Hrun : run = (inr (Sf2.Fresh patches), run.2)) by (vm_compute; reflexivity).
  destruct (patches !! 0%nat) as [[k d]|] eqn:Hp;
    [|vm_compute in Hp; discriminate Hp].
  exists k, d. split; [reflexivity|].
  destruct (C8_percussion_and_loop_branches_never_run Demo.E "d/x.sf2" true false
              Demo.pianos run.2 patches k d Hrun
              (list_elem_of_lookup_2 _ _ _ Hp)) as (H1 & H2 & H3 & H4).
  split; [exact H1|]. split; [exact H2|]. split; [exact H3|].
  split; [|exact H4].
  vm_compute in Hp. injection Hp as _ <-. reflexivity.
Defined.

(** ** A region without a pitch key *)

Lemma preprocess_no_inclusions E recurse shared basedir lines text table w :
  no_inclusions table lines = true ->
  same_fs w (for_each (preprocess_line E recurse shared basedir) lines (text, table) w).2.
Proof.
  revert text table w. induction lines as [|ogline lines IH]; intros text table w.
  - done.
  - cbn [no_inclusions for_each]. intros [Hinc Hrest]%andb_true_iff.
    apply negb_true_iff in Hinc.
    unfold bind, preprocess_line at 1. rewrite Hinc.
    destruct (PyStr.startswith _ "#define").
    + unfold mbind, M_bind, bind, lift.
      destruct (parse_define _) as [e|kv]; [done|].
      unfold record_macro.
      destruct shared; simpl.
      * match goal with
        | |- same_fs _ (for_each _ _ (?t, ?tb) ?w0).2 =>
            destruct (IH t tb w0 Hrest) as [Hf Hd]
        end.
        split; [by rewrite Hf | by rewrite Hd].
      * by apply IH.
    + simpl. by apply IH.
Qed.

Lemma exists_in_same_fs w w' p :
  same_fs w w' -> OsPath.exists_in w' p = OsPath.exists_in w p.
Proof.
  intros [Hf Hd]. unfold OsPath.exists_in, OsPath.isfile_in, OsPath.isdir_in.
  by rewrite Hf, Hd.
Qed.

Lemma process_region_no_pitch E compress d sampleDict sample w :
  PyDict.get "pitch_keycenter" (inherit d sampleDict) = None ->
  PyDict.get "sample" (inherit d sampleDict) = Some (PStr sample) ->
  OsPath.exists_in w (OsPath.join (Sfz.samplesLoadPoint d) sample) = true ->
  exists e, process_region E compress d sampleDict w = (inl e, w).
Proof.
  intros Hpitch Hsample Hfile.
  pose proof (process_region_same E compress d sampleDict w) as Hw.
  destruct (process_region E compress d sampleDict w) as [[e|d'] w1] eqn:Hrun;
    simpl in Hw; red in Hw; subst w1; [eauto|].
  apply process_region_inr in Hrun
    as (sample' & Hs' & [[Hno _]|(_ & [v Hv] & _)]).
  - rewrite Hsample in Hs'. injection Hs' as <-. congruence.
  - congruence.
Qed.

(** C10.  While converting [filename] afresh, let the sections before a
    region be processed normally, and let the region, after inheritance,
    lack [pitch_keycenter] while its sample file exists.  Then the
    conversion ends with an exception, in the world the preprocessor left:
    nothing is written after preprocessing.  When the file has no inclusion,
    the file system is the initial one and the output file does not
    exist. *)
Theorem C10_region_without_pitch_keycenter_aborts_conversion
    (E : Externals) (fuel : nat) (filename : string) (compress : bool)
    (replaceDict : option (pydict string)) (w w1 : world)
    (text : string) (pre : string * pydict string)
    (before after : list (string * pydict pyval)) (sampleDict : pydict pyval)
    (st : Sfz.soundJsonDict) (sample : string) :
  let outFilename := (PyStr.drop_last 4 filename ++ ".json")%string in
  let table := match replaceDict with
               | Some t => t
               | None => replaceDict_default w
               end in
  let shared := match replaceDict with None => true | Some _ => false end in
  let basedir := OsPath.dirname filename in
  OsPath.exists_in w outFilename = false ->
  files w !! filename = Some text ->
  for_each (preprocess_line E (fun f t => sfz2soundJson E fuel f compress (Some t))
              shared basedir)
    (PyStr.split text nl) (EmptyString, table) w = (inr pre, w1) ->
  sfz_parse E pre.1 = inr (before ++ ("region", sampleDict) :: after) ->
  for_each (process_section E compress basedir) before (new_soundJsonDict filename) w1
    = (inr st, w1) ->
  PyDict.get "pitch_keycenter" (inherit st sampleDict) = None ->
  PyDict.get "sample" (inherit st sampleDict) = Some (PStr sample) ->
  OsPath.exists_in w1 (OsPath.join (Sfz.samplesLoadPoint st) sample) = true ->
  (exists e, sfz2soundJson E (S fuel) filename compress replaceDict w = (inl e, w1))
  /\ (no_inclusions table (PyStr.split text nl) = true ->
      files w1 = files w /\ dirs w1 = dirs w
      /\ OsPath.exists_in w1 outFilename = false).
Proof.
  intros outFilename table shared basedir.
  subst outFilename table shared basedir.
  intros Hout Hfile Hpre Hparse Hbefore Hpitch Hsample Hwav.
  split.
  - destruct (process_region_no_pitch E compress st sampleDict sample w1
                Hpitch Hsample Hwav) as [e He].
    exists e. cbn [sfz2soundJson].
    rewrite (bind_run _ _ w false w) by (unfold OsPath.exists_, gets; by rewrite Hout).
    cbv iota.
    assert (Hex : OsPath.exists_in w filename = true).
    { unfold OsPath.exists_in, OsPath.isfile_in. rewrite Hfile.
      rewrite bool_decide_eq_true_2; [done | eauto]. }
    rewrite (bind_run _ _ w true w) by (unfold OsPath.exists_, gets; by rewrite Hex).
    cbn [negb].
    rewrite (bind_run _ _ w text w) by (unfold OsPath.read_file; by rewrite Hfile).
    rewrite (bind_run _ _ w (match replaceDict with
                             | Some t => t
                             | None => replaceDict_default w
                             end) w) by (by destruct replaceDict).
    rewrite (bind_run _ _ w pre w1) by exact Hpre.
    rewrite (bind_run _ _ w1 (before ++ ("region", sampleDict) :: after) w1)
      by (unfold lift; by rewrite Hparse).
    apply bind_raise. rewrite for_each_app.
    rewrite (bind_run _ _ w1 st w1) by exact Hbefore.
    cbn [for_each]. apply bind_raise. exact He.
  - intros Hno.
    pose proof (preprocess_no_inclusions E
                  (fun f t => sfz2soundJson E fuel f compress (Some t))
                  (match replaceDict with None => true | Some _ => false end)
                  (OsPath.dirname filename) _ EmptyString _ w Hno) as Hfs.
    rewrite Hpre in Hfs. simpl in Hfs.
    destruct Hfs as [Hf Hd]. split; [done|]. split; [done|].
    etrans; [by apply (exists_in_same_fs w)|exact Hout].
Qed.

Lemma C10_witness :
  let w := Demo.zones_nokey in
  let region := [("sample", PStr "a.wav")] in
  let st := new_soundJsonDict "d/a.sfz" in
  (OsPath.exists_in w "d/a.json" = false
   /\ files w !! "d/a.sfz" = Some "<region> sample=a.wav"
   /\ sfz_parse Demo.E ("<region> sample=a.wav" ++ nl) = inr [("region", region)]
   /\ PyDict.get "pitch_keycenter" (inherit st region) = None
   /\ OsPath.exists_in w "d/a.wav" = true
   /\ no_inclusions [] (PyStr.split "<region> sample=a.wav" nl) = true)
  /\ (exists e, sfz2soundJson Demo.E 10 "d/a.sfz" true None w = (inl e, w))
  /\ OsPath.exists_in w "d/a.json" = false.
Proof.
  intros w region st.
  split; [repeat split; vm_compute; reflexivity|].
  destruct (C10_region_without_pitch_keycenter_aborts_conversion
              Demo.E 9 "d/a.sfz" true None w w "<region> sample=a.wav"
              ("<region> sample=a.wav" ++ nl, [])%string
              [] [] region st "a.wav") as [Hraise Hfs];
    try (vm_compute; reflexivity).
  split; [exact Hraise|].
  apply Hfs. vm_compute. reflexivity.
Defined.

(** ** The shared macro table *)

Lemma read_file_table p : respects same_table (OsPath.read_file p).
Proof. eapply respects_weaken; [apply same_world_table | apply read_file_same]. Qed.
Lemma exists_table p : respects same_table (OsPath.exists_ p).
Proof. eapply respects_weaken; [apply same_world_table | apply exists_same]. Qed.
Lemma isdir_table p : respects same_table (OsPath.isdir p).
Proof. eapply respects_weaken; [apply same_world_table | apply isdir_same]. Qed.
Lemma listdir_table E d : respects same_table (listdir E d).
Proof. eapply respects_weaken; [apply same_world_table | apply listdir_same]. Qed.
Lemma makedirs_table name : respects same_table (OsPath.makedirs name).
Proof. eapply respects_weaken; [apply same_files_table_table | apply makedirs_files]. Qed.
Lemma process_sections_table E compress basedir sections d :
  respects same_table (for_each (process_section E compress basedir) sections d).
Proof. eapply respects_weaken; [apply same_world_table | apply process_sections_same]. Qed.

#[local] Hint Resolve respects_mret respects_ret respects_raise respects_lift
  respects_gets respects_bind respects_fmap respects_try respects_for_each
  respects_run_task respects_if
  read_file_table exists_table isdir_table listdir_table makedirs_table
  toFile_table process_sections_table : respects.
#[local] Hint Extern 0 (PreOrder _) => apply _ : respects.

Lemma emit_table E filename outFilename d : respects same_table (emit E filename outFilename d).
Proof. unfold emit. eauto 30 with respects. Qed.

Lemma process_instrument_table E inFilename noext compress inst unique_name :
  respects same_table (process_instrument E inFilename noext compress inst unique_name).
Proof. unfold process_instrument. eauto 30 with respects. Qed.

Lemma load_existing_table E noext : respects same_table (load_existing E noext).
Proof.
  unfold load_existing.
  apply respects_bind; [apply _ | eauto 30 with respects | intros entries].
  cbv zeta. destruct (merge_sort _ _); eauto 30 with respects.
Qed.

Lemma run_pool_respects (R : relation world) `{!PreOrder R} E {A} (tasks : list (M A)) :
  (forall task, task ∈ tasks -> respects R task) -> respects R (run_pool E tasks).
Proof.
  intros Htasks. unfold run_pool. apply respects_for_each; [apply _|].
  intros done i. destruct (tasks !! i) as [task|] eqn:Hi.
  - apply respects_bind; [apply _ | | intros r; apply respects_mret, _].
    apply respects_run_task.
    apply Htasks. by eapply list_elem_of_lookup_2.
  - apply respects_mret, _.
Qed.

Lemma sf22soundJson_table E inFilename compress force :
  respects same_table (sf22soundJson E inFilename compress force).
Proof.
  unfold sf22soundJson.
  apply respects_bind; [apply _ | eauto 30 with respects | intros bytes].
  apply respects_bind; [apply _ | eauto 30 with respects | intros sf2].
  cbv zeta.
  apply respects_bind; [apply _ | eauto 30 with respects | intros _].
  apply respects_bind; [apply _ | | intros existing].
  { apply respects_if; [eauto 30 with respects | apply load_existing_table]. }
  destruct existing; [eauto 30 with respects|].
  destruct (unique_names ∅ sf2) as [|iu l]; [eauto 30 with respects|].
  apply respects_bind; [apply _ | | intros results; eauto 30 with respects].
  apply run_pool_respects; [apply _|]. intros task Ht.
  apply list_elem_of_fmap in Ht as (iu' & -> & _).
  apply process_instrument_table.
Qed.

(** A conversion that received its own table leaves the shared one alone. *)
Lemma preprocess_line_own_table E recurse basedir st ogline :
  (forall f t, respects same_table (recurse f t)) ->
  respects same_table (preprocess_line E recurse false basedir st ogline).
Proof.
  intros Hrec. destruct st as [text table]. unfold preprocess_line.
  assert (Hm : forall d, respects same_table (record_macro false d))
    by (intros d; apply respects_mret, _).
  eauto 30 with respects.
Qed.

Lemma sfz2soundJson_own_table E fuel filename compress table :
  respects same_table (sfz2soundJson E fuel filename compress (Some table)).
Proof.
  revert filename table. induction fuel as [|fuel IH]; intros filename table.
  - apply respects_raise, _.
  - cbn [sfz2soundJson].
    assert (Hline : forall basedir st ogline,
               respects same_table
                 (preprocess_line E
                    (fun f d => sfz2soundJson E fuel f compress (Some d))
                    false basedir st ogline)).
    { intros. apply preprocess_line_own_table. intros f t. apply IH. }
    pose proof (emit_table E) as Hemit.
    eauto 30 with respects.
Qed.








(** ** Counting the patches of a container *)

Lemma keys_set {V} (k : string) (v : V) (d : pydict V) :
  PyDict.keys (PyDict.set k v d) =
    if bool_decide (k ∈ PyDict.keys d) then PyDict.keys d else PyDict.keys d ++ [k].
Proof.
  unfold PyDict.keys. induction d as [|[k' v'] d IH].
  - cbn [PyDict.set fmap list_fmap fst].
    case_bool_decide as H; [by apply elem_of_nil in H | done].
  - cbn [PyDict.set]. destruct (decide (k = k')) as [<-|Hne].
    + rewrite (bool_decide_eq_true_2 (k = k)) by done.
      cbn [fmap list_fmap fst].
      rewrite bool_decide_eq_true_2; [done | left].
    + rewrite (bool_decide_eq_false_2 (k = k')) by done.
      cbn [fmap list_fmap fst] in *. rewrite IH.
      destruct (decide (k ∈ d.*1)) as [Hin|Hin].
      * rewrite !bool_decide_eq_true_2; [done | by right | done].
      * rewrite !bool_decide_eq_false_2; [done | | done].
        rewrite not_elem_of_cons. done.
Qed.

Lemma keys_update {V} (d src : pydict V) :
  NoDup (PyDict.keys d) ->
  NoDup (PyDict.keys (PyDict.update d src))
  /\ forall k, k ∈ PyDict.keys (PyDict.update d src) <-> k ∈ PyDict.keys d \/ k ∈ src.*1.
Proof.
  unfold PyDict.update. revert d.
  induction src as [|[k v] src IH]; intros d Hd.
  - split; [done|]. intros k. rewrite elem_of_nil. tauto.
  - cbn [fold_left]. destruct (IH (PyDict.set k v d)) as [Hnd Hel].
    + rewrite keys_set. case_bool_decide; [done|].
      apply NoDup_app. split; [done|]. split; [|apply NoDup_singleton].
      intros x Hx ->%list_elem_of_singleton. done.
    + split; [done|]. intros k'. rewrite Hel, keys_set.
      cbn [fmap list_fmap fst]. rewrite elem_of_cons.
      case_bool_decide as Hin.
      * split; [tauto|]. intros [?|[->|?]]; tauto.
      * rewrite elem_of_app, list_elem_of_singleton. tauto.
Qed.

Lemma collect_all_ok results patches :
  collect results = inr patches ->
  exists kds, results = inr <$> kds /\ patches = PyDict.update [] kds.
Proof.
  unfold collect. generalize (@nil (string * Sf2.soundJsonDict)) as acc.
  induction results as [|r results IH]; intros acc; cbn [fold_result].
  - intros [= <-]. by exists [].
  - destruct r as [e|[k d]]; [done|].
    intros (kds & -> & ->)%IH. by exists ((k, d) :: kds).
Qed.

Lemma unique_names_instruments name_counts l :
  (unique_names name_counts l).*1
    = filter (fun i => Sf2.inst_name i ≠ "EOI") l.
Proof.
  revert name_counts. induction l as [|i l IH]; intros name_counts; [done|].
  cbn [unique_names]. rewrite filter_cons.
  destruct (String.eqb (Sf2.inst_name i) "EOI") eqn:Heq.
  - apply String.eqb_eq in Heq. rewrite decide_False by (intros H; by apply H).
    apply IH.
  - apply String.eqb_neq in Heq. rewrite decide_True by done.
    cbn [fmap list_fmap fst]. f_equal. apply IH.
Qed.

Lemma run_pool_loop {A} (tasks : list (M A)) order done w results w' :
  (forall i, i ∈ order -> (i < length tasks)%nat) ->
  for_each
    (fun done i =>
       match tasks !! i with
       | Some task => r ← run_task task; mret (done ++ [r])
       | None => mret done
       end)
    order done w = (inr results, w') ->
  exists rs,
    results = done ++ rs
    /\ Forall2 (fun i r => exists task w1 w2, tasks !! i = Some task /\ task w1 = (r, w2))
         order rs.
Proof.
  revert done w. induction order as [|i order IH]; intros done w Hlt; cbn [for_each].
  - intros [= <- _]. exists []. by rewrite app_nil_r.
  - unfold bind at 1.
    destruct (lookup_lt_is_Some_2 tasks i) as [task Hi]; [apply Hlt; left|].
    rewrite Hi. unfold mbind, M_bind, bind at 1, run_task.
    destruct (task w) as [r w1] eqn:Ht. cbn [mret M_ret ret].
    intros (rs & -> & Hrs)%IH; [|intros j Hj; apply Hlt; by right].
    exists (r :: rs). split; [by rewrite <- app_assoc|].
    constructor; [|done]. eauto.
Qed.

(** The pool returns one result for every index of the completion order,
    each computed by the task of that index. *)
Lemma run_pool_order E {A} (tasks : list (M A)) w results w' :
  run_pool E tasks w = (inr results, w') ->
  Forall2 (fun i r => exists task w1 w2, tasks !! i = Some task /\ task w1 = (r, w2))
    (completion_order E (length tasks)) results.
Proof.
  unfold run_pool. intros (rs & -> & H)%run_pool_loop; [done|].
  intros i. rewrite (completion_order_perm E), elem_of_seq. lia.
Qed.

(** The returned mapping has one entry for every distinct name among the
    instruments that are not the end marker. *)
Lemma sf22soundJson_fresh_count E inFilename compress force w patches w' :
  sf22soundJson E inFilename compress force w = (inr (Sf2.Fresh patches), w') ->
  exists bytes instruments,
    files w !! inFilename = Some bytes
    /\ Sf2File E bytes = inr instruments
    /\ length patches
       = length (remove_dups
                   (Sf2.inst_name <$> filter (fun i => Sf2.inst_name i ≠ "EOI") instruments)).
Proof.
  unfold sf22soundJson.
  intros (bytes & w1 & Hread & H)%bind_inr.
  apply bind_inr in H as (sf2 & w2 & [Hsf2 ->]%lift_inr & H).
  exists bytes, sf2. split.
  { unfold OsPath.read_file in Hread. destruct (files w !! inFilename); [|by destruct (OsPath.isdir_in _ _)].
    by injection Hread as ->. }
  split; [done|].
  apply bind_inr in H as ([] & w3 & _ & H).
  apply bind_inr in H as (existing & w4 & _ & H).
  destruct existing as [cached|]; [done|].
  rewrite <- unique_names_instruments with (name_counts := ∅).
  destruct (unique_names ∅ sf2) as [|iu instruments] eqn:Hnames.
  { by injection H as <- _. }
  rewrite <- Hnames in *. clear Hnames iu instruments.
  set (instruments := unique_names ∅ sf2) in *.
  apply bind_inr in H as (results & w5 & Hpool & H).
  apply fmap_inr in H as (patches' & [Hc _]%lift_inr & [= ->]).
  apply collect_all_ok in Hc as (kds & -> & ->).
  apply run_pool_order in Hpool. rewrite length_fmap in Hpool.
  set (key := fun n : string => (inFilename ++ "_" ++ n)%string).
  destruct (keys_update [] kds (NoDup_nil_2)) as [Hnd Hel].
  assert (Hkeys : forall k, k ∈ kds.*1 <-> k ∈ key <$> (Sf2.inst_name <$> instruments.*1)).
  { intros k. split.
    - intros ([k' d] & -> & Hkd)%list_elem_of_fmap.
      apply (list_elem_of_fmap_2 (@inr exn _)) in Hkd.
      apply list_elem_of_lookup in Hkd as [j Hj].
      destruct (Forall2_lookup_r _ _ _ _ _ Hpool Hj)
        as (i & Hi & task & wa & wb & Htask & Hrun).
      apply list_lookup_fmap_Some in Htask as ([inst un] & -> & Hiu).
      apply process_instrument_inr in Hrun as [-> _].
      apply list_elem_of_fmap. exists (Sf2.inst_name inst). split; [done|].
      apply list_elem_of_fmap. exists inst. split; [done|].
      apply list_elem_of_fmap. exists (inst, un). split; [done|].
      by eapply list_elem_of_lookup_2.
    - intros (n & -> & (inst & -> & ([inst' un] & [= ->] & Hiu)%list_elem_of_fmap)
                          %list_elem_of_fmap)%list_elem_of_fmap.
      apply list_elem_of_lookup in Hiu as [i Hi].
      assert (Hin : i ∈ completion_order E (length instruments)).
      { rewrite (completion_order_perm E), elem_of_seq.
        apply lookup_lt_Some in Hi. lia. }
      apply list_elem_of_lookup in Hin as [j Hj].
      destruct (Forall2_lookup_l _ _ _ _ _ Hpool Hj)
        as (r & Hr & task & wa & wb & Htask & Hrun).
      rewrite list_lookup_fmap, Hi in Htask. injection Htask as <-.
      apply list_lookup_fmap_Some in Hr as ([k d] & -> & Hkd).
      apply process_instrument_inr in Hrun as [-> _].
      apply list_elem_of_fmap. exists (key (Sf2.inst_name inst'), d).
      split; [done|]. by eapply list_elem_of_lookup_2. }
  transitivity (length (PyDict.keys (PyDict.update [] kds))).
  { unfold PyDict.keys. by rewrite length_fmap. }
  transitivity (length (key <$> remove_dups (Sf2.inst_name <$> instruments.*1)));
    [|by rewrite length_fmap].
  apply Permutation_length, NoDup_Permutation; [done| |].
  - apply NoDup_fmap_2; [|apply NoDup_remove_dups].
    intros a b Hab. unfold key in Hab. by simplify_eq.
  - intros k. rewrite Hel, elem_of_nil, Hkeys, !list_elem_of_fmap.
    setoid_rewrite elem_of_remove_dups. setoid_rewrite list_elem_of_fmap.
    tauto.
Qed.

(** ** The number of patches of a container *)

(** C2 (code defect).  The demonstration container holds two instruments,
    both named [Piano], and no output directory exists.  Two files are
    written, [Piano.json] and [Piano_1.json], but the returned mapping has
    one entry: both patches are stored under the key built from the
    instrument's name (line 118), not from its unique file name. *)
Theorem C2_instruments_of_one_name_share_one_entry :
  let run := sf22soundJson Demo.E "d/x.sf2" true false Demo.pianos in
  OsPath.exists_in Demo.pianos "d/x" = false
  /\ Sf2.inst_name <$> (match Sf2File Demo.E "Piano,Piano" with
                        | inr instruments => instruments
                        | inl _ => []
                        end) = ["Piano"; "Piano"]
  /\ (exists d, run.1 = inr (Sf2.Fresh [("d/x.sf2_Piano", d)]))
  /\ is_Some (files run.2 !! "d/x/Piano.json")
  /\ is_Some (files run.2 !! "d/x/Piano_1.json").
Proof.
  cbv zeta. split; [vm_compute; reflexivity|]. split; [vm_compute; reflexivity|].
  split; [eexists; vm_compute; reflexivity|].
  split; vm_compute; eexists; reflexivity.
Qed.

(** * Further properties *)

(** ** File names of instruments *)

Lemma string_forall_lstrip p s :
  string_forall p s = true -> string_forall p (PyStr.lstrip s) = true.
Proof.
  induction s as [|c s IH]; [done|]. cbn [PyStr.lstrip string_forall].
  intros [Hc Hs]%andb_true_iff. destruct (PyStr.isspace c); [auto|].
  cbn [string_forall]. by rewrite Hc, Hs.
Qed.

Lemma string_forall_rstrip_with p q s :
  string_forall p s = true -> string_forall p (PyStr.rstrip_with q s) = true.
Proof.
  induction s as [|c s IH]; [done|]. cbn [PyStr.rstrip_with string_forall].
  intros [Hc Hs]%andb_true_iff. specialize (IH Hs).
  destruct (PyStr.rstrip_with q s) as [|c' r].
  - destruct (q c); [done|]. cbn [string_forall]. by rewrite Hc.
  - cbn [string_forall] in *. by rewrite Hc, IH.
Qed.

Lemma string_forall_has_char p c s :
  string_forall p s = true -> p c = false -> PyStr.has_char c s = false.
Proof.
  intros Hs Hc. induction s as [|c' s IH]; [done|].
  cbn [string_forall PyStr.has_char] in *.
  apply andb_true_iff in Hs as [Hc' Hs]. rewrite (IH Hs), orb_false_r.
  unfold PyStr.ascii_eqb. destruct (Ascii.eqb_spec c c'); [congruence | done].
Qed.

(** X1.  A sanitized instrument name is never empty and holds only
    alphanumeric characters and the characters of [safe_chars]; in
    particular it holds no path separator. *)
Theorem sanitize_filename_is_a_plain_name (name : string) :
  sanitize_filename name ≠ EmptyString
  /\ string_forall safe_char (sanitize_filename name) = true
  /\ PyStr.has_char PyStr.SLASH (sanitize_filename name) = false.
Proof.
  assert (Hsafe : string_forall safe_char (sanitize_filename name) = true).
  { unfold sanitize_filename.
    destruct (String.eqb _ EmptyString) eqn:He; [reflexivity|].
    unfold PyStr.strip, PyStr.rstrip.
    apply string_forall_rstrip_with, string_forall_lstrip. clear He.
    induction name as [|c name IH]; [done|].
    cbn [PyStr.map_chars string_forall]. rewrite IH, andb_true_r.
    destruct (PyStr.isalnum c || PyStr.has_char c safe_chars) eqn:Hc;
      [exact Hc | reflexivity]. }
  split; [|split; [exact Hsafe|]].
  - unfold sanitize_filename.
    destruct (String.eqb _ EmptyString) eqn:He; [done|].
    by apply String.eqb_neq in He.
  - by apply (string_forall_has_char safe_char).
Qed.

(** Line by line, the counter of a sanitized name is the number of
    instruments met so far that share it. *)
Lemma unique_names_split name_counts l1 i l2 :
  Sf2.inst_name i ≠ "EOI" ->
  let sanitized := sanitize_filename (Sf2.inst_name i) in
  exists name_counts',
    unique_names name_counts (l1 ++ i :: l2)
    = unique_names name_counts l1
      ++ (i, numbered_name sanitized
               (default 0%nat (name_counts !! sanitized)
                + length (same_sanitized sanitized l1)))
      :: unique_names name_counts' l2.
Proof.
  intros Hi sanitized. revert name_counts.
  induction l1 as [|x l1 IH]; intros name_counts.
  - cbn [app unique_names same_sanitized filter list_filter length].
    apply String.eqb_neq in Hi. rewrite Hi. rewrite Nat.add_0_r.
    eexists. reflexivity.
  - cbn [app unique_names]. unfold same_sanitized. rewrite filter_cons.
    destruct (String.eqb (Sf2.inst_name x) "EOI") eqn:Hx.
    + apply String.eqb_eq in Hx.
      rewrite decide_False by (intros [H _]; done). apply IH.
    + apply String.eqb_neq in Hx.
      destruct (IH (<[sanitize_filename (Sf2.inst_name x) :=
                        (default 0%nat (name_counts !! sanitize_filename (Sf2.inst_name x)) + 1)%nat]>
                      name_counts)) as [m' Hm'].
      exists m'. rewrite Hm'. cbn [app].
      match goal with
      | |- _ :: _ ++ (_, numbered_name _ ?a) :: _
           = _ :: _ ++ (_, numbered_name _ ?b) :: _ =>
          replace b with a; [done|]
      end.
      destruct (decide (sanitize_filename (Sf2.inst_name x) = sanitized)) as [Heq|Hne].
      * rewrite decide_True by done. rewrite Heq, lookup_insert_eq.
        unfold same_sanitized. simpl. lia.
      * rewrite decide_False by (intros [_ H]; done).
        rewrite lookup_insert_ne by done. done.
Qed.

Lemma unique_names_length name_counts l :
  length (unique_names name_counts l)
  = length (filter (fun x => Sf2.inst_name x ≠ "EOI") l).
Proof.
  rewrite <- (unique_names_instruments name_counts l). by rewrite length_fmap.
Qed.

(** X2.  The instrument met after [l1] (the end marker apart) receives its
    sanitized name when no earlier instrument shares it, and otherwise the
    name with the suffix [_n], [n] being the number of earlier instruments
    that share it. *)
Theorem unique_names_numbers_repeated_names
    (l1 l2 : list Sf2.instrument) (i : Sf2.instrument) :
  Sf2.inst_name i ≠ "EOI" ->
  let sanitized := sanitize_filename (Sf2.inst_name i) in
  unique_names ∅ (l1 ++ i :: l2)
    !! length (filter (fun x => Sf2.inst_name x ≠ "EOI") l1)
  = Some (i, numbered_name sanitized (length (same_sanitized sanitized l1))).
Proof.
  intros Hi sanitized.
  destruct (unique_names_split ∅ l1 i l2 Hi) as [m' ->].
  rewrite lookup_empty. cbn [default]. rewrite Nat.add_0_l.
  rewrite <- (unique_names_length ∅ l1).
  by rewrite list_lookup_middle.
Qed.

Lemma unique_names_numbers_witness :
  let piano := {| Sf2.inst_name := "Piano"; Sf2.bags := None |} in
  let eoi := {| Sf2.inst_name := "EOI"; Sf2.bags := None |} in
  unique_names ∅ ([piano; eoi; piano] ++ piano :: [eoi]) !! 2%nat
  = Some (piano, "Piano_2").
Proof.
  intros piano eoi.
  exact (unique_names_numbers_repeated_names [piano; eoi; piano] [eoi] piano
           ltac:(vm_compute; discriminate)).
Defined.

Lemma numbered_name_inj sanitized m n :
  numbered_name sanitized m = numbered_name sanitized n -> m = n.
Proof.
  unfold numbered_name.
  assert (Hlen : forall k, (sanitized ++ "_" ++ PyStr.of_nat k)%string ≠ sanitized).
  { intros k H. apply (f_equal String.length) in H.
    rewrite string_length_app in H. simpl in H. lia. }
  destruct (Nat.eqb_spec m 0), (Nat.eqb_spec n 0); subst; try done.
  - intros H. symmetry in H. by apply Hlen in H.
  - intros H. by apply Hlen in H.
  - intros H. apply (inj (String.app sanitized)) in H.
    apply (inj (String.app "_")) in H. unfold PyStr.of_nat in H.
    by apply (inj pretty) in H.
Qed.

Lemma unique_names_shared name_counts l sanitized :
  let names :=
    (filter (fun iu => sanitize_filename (Sf2.inst_name iu.1) = sanitized)
       (unique_names name_counts l)).*2 in
  NoDup names
  /\ Forall (fun u => exists c,
               (default 0%nat (name_counts !! sanitized) <= c)%nat
               /\ u = numbered_name sanitized c) names.
Proof.
  revert name_counts. induction l as [|x l IH]; intros name_counts.
  - split; [apply NoDup_nil_2 | apply Forall_nil_2].
  - cbn [unique_names].
    destruct (String.eqb (Sf2.inst_name x) "EOI"); [apply IH|].
    remember (sanitize_filename (Sf2.inst_name x)) as sx eqn:Hsx.
    remember (default 0%nat (name_counts !! sx)) as c0 eqn:Hc0.
    destruct (IH (<[sx := (c0 + 1)%nat]> name_counts)) as [Hnd Hall].
    rewrite filter_cons. cbn [fst]. rewrite <- Hsx.
    destruct (decide (sx = sanitized)) as [Heq|Hne].
    + subst sanitized. rewrite lookup_insert_eq in Hall.
      cbn [fmap list_fmap snd]. split.
      * apply NoDup_cons. split; [|exact Hnd].
        intros Hin. rewrite Forall_forall in Hall.
        destruct (Hall _ Hin) as (c & Hc & Hu).
        fold (numbered_name sx c0) in Hu.
        apply numbered_name_inj in Hu. simpl in Hc. lia.
      * apply Forall_cons. split.
        -- exists c0. split; [lia | reflexivity].
        -- eapply Forall_impl; [exact Hall|].
           intros u (c & Hc & ->). exists c. simpl in Hc. split; [lia | done].
    + rewrite lookup_insert_ne in Hall by done. by split.
Qed.

(** X3.  Instruments that share a sanitized name receive pairwise distinct
    file names. *)
Theorem unique_names_separates_shared_names
    (l : list Sf2.instrument) (sanitized : string) :
  NoDup (filter (fun iu => sanitize_filename (Sf2.inst_name iu.1) = sanitized)
           (unique_names ∅ l)).*2.
Proof. apply (unique_names_shared ∅ l sanitized). Qed.

(** X4.  The numbering does not make file names unique across different
    sanitized names: three instruments with three different names, none the
    end marker, of which two receive the same file name. *)
Theorem unique_names_can_collide :
  exists l : list Sf2.instrument,
    NoDup (Sf2.inst_name <$> l)
    /\ Forall (fun i => Sf2.inst_name i ≠ "EOI") l
    /\ ~ NoDup (unique_names ∅ l).*2.
Proof.
  exists [ {| Sf2.inst_name := "a/b"; Sf2.bags := None |};
           {| Sf2.inst_name := "a_b"; Sf2.bags := None |};
           {| Sf2.inst_name := "a_b_1"; Sf2.bags := None |} ].
  split; [|split].
  - cbn [fmap list_fmap Sf2.inst_name].
    repeat (apply NoDup_cons; split;
            [intros Hin;
             repeat (apply elem_of_cons in Hin as [Hin|Hin]; [discriminate Hin|]);
             by apply elem_of_nil in Hin|]).
    apply NoDup_nil_2.
  - repeat (apply Forall_cons; split; [done|]). apply Forall_nil_2.
  - assert (Hn : (unique_names ∅
                    [ {| Sf2.inst_name := "a/b"; Sf2.bags := None |};
                      {| Sf2.inst_name := "a_b"; Sf2.bags := None |};
                      {| Sf2.inst_name := "a_b_1"; Sf2.bags := None |} ]).*2
                 = ["a_b"; "a_b_1"; "a_b_1"]) by (vm_compute; reflexivity).
    rewrite Hn. intros Hnd. apply NoDup_cons in Hnd as [_ Hnd].
    apply NoDup_cons in Hnd as [Hnot _]. apply Hnot. by left.
Qed.

(** ** The audio normalizers *)

Lemma int16_wrap_id z : int16 z -> Np.int16_wrap z = z.
Proof.
  unfold int16, Np.int16_wrap. intros H.
  rewrite Z.mod_small by lia. lia.
Qed.

(** Truncating division by a positive number never leaves the interval
    [[-m, m]] its dividend's quotient bound allows. *)
Lemma quot_abs_bound a b m : (0 < b)%Z -> (Z.abs a <= b * m)%Z -> (Z.abs (Z.quot a b) <= m)%Z.
Proof.
  intros Hb Ha.
  rewrite <- Z.quot_abs by lia. rewrite (Z.abs_eq b) by lia.
  apply Z.quot_le_upper_bound; lia.
Qed.

Lemma quot_ramp y i : (0 <= i < 32)%Z -> (Z.abs (Z.quot (y * i) 32) <= Z.abs y)%Z.
Proof.
  intros Hi. apply quot_abs_bound; [lia|].
  rewrite Z.abs_mul, (Z.abs_eq i) by lia. nia.
Qed.

Lemma quot_ramp_int16 y i : (0 <= i < 32)%Z -> int16 y -> int16 (Z.quot (y * i) 32).
Proof.
  unfold int16. intros Hi Hy. destruct (Z.le_gt_cases 0 y) as [H0|H0].
  - split.
    + pose proof (Z.quot_pos (y * i) 32 ltac:(nia) ltac:(lia)). lia.
    + pose proof (Z.quot_le_upper_bound (y * i) 32 y ltac:(lia) ltac:(nia)). lia.
  - replace (y * i)%Z with (- ((- y) * i))%Z by lia. rewrite Z.quot_opp_l by lia.
    pose proof (Z.quot_pos ((- y) * i) 32 ltac:(nia) ltac:(lia)).
    pose proof (Z.quot_le_upper_bound ((- y) * i) 32 (- y) ltac:(lia) ltac:(nia)).
    lia.
Qed.

(** X5.  On an int16 buffer of at least 32 samples the uncompressed encoder
    keeps the length, scales sample [i < 32] to [y * i / 32] rounded toward
    zero (so the first frame is silent and no frame grows), and passes the
    samples from position 32 on unchanged. *)
Theorem buffer2wavb64_fades_first_32_frames
    (E : Externals) (l : list Z) (samplerate : Z) :
  (32 <= length l)%nat -> Forall int16 l ->
  exists z,
    buffer2wavb64 E (Np.I16 l) samplerate = export_wav_b64 E z samplerate
    /\ length z = length l
    /\ (forall i y, (i < 32)%nat -> l !! i = Some y ->
          z !! i = Some (Z.quot (y * Z.of_nat i) 32)
          /\ (Z.abs (Z.quot (y * Z.of_nat i) 32) <= Z.abs y)%Z)
    /\ (forall i, (32 <= i)%nat -> z !! i = l !! i).
Proof.
  intros Hlen Hrange.
  set (rhs := (fun p => Np.int16_wrap (Z.quot p 32))
                <$> zip_with Z.mul (take 32 l) (Np.arange 32)).
  assert (Htake : length (take 32 l) = 32%nat) by (rewrite length_take; lia).
  assert (Hrhs : length rhs = 32%nat).
  { unfold rhs. rewrite length_fmap, length_zip_with, Htake, length_arange. lia. }
  exists (rhs ++ drop 32 l). split; [|split; [|split]].
  - unfold buffer2wavb64, Np.mul.
    rewrite bool_decide_true by (by rewrite Htake, length_arange).
    cbn [mbind result_bind]. fold rhs. unfold Np.assign_prefix.
    rewrite bool_decide_true by (by rewrite Hrhs, Htake). reflexivity.
  - rewrite length_app, Hrhs, length_drop. lia.
  - intros i y Hi Hy.
    assert (Hq : (Z.abs (Z.quot (y * Z.of_nat i) 32) <= Z.abs y)%Z)
      by (apply quot_ramp; lia).
    split; [|exact Hq].
    rewrite lookup_app_l by lia. unfold rhs.
    rewrite list_lookup_fmap, lookup_zip_with, lookup_take_lt, Hy by lia.
    unfold Np.arange. rewrite list_lookup_fmap, lookup_seq_lt by lia.
    cbn [fmap option_fmap option_map mbind option_bind Nat.add].
    f_equal. apply int16_wrap_id, quot_ramp_int16; [lia|].
    rewrite Forall_forall in Hrange. apply Hrange. by eapply list_elem_of_lookup_2.
  - intros i Hi. rewrite lookup_app_r by lia. rewrite Hrhs, lookup_drop.
    f_equal. lia.
Qed.

Lemma buffer2wavb64_fades_witness :
  let l := Z.of_nat <$> seq 100 40 in
  exists z,
    buffer2wavb64 Demo.E (Np.I16 l) 44100 = export_wav_b64 Demo.E z 44100
    /\ length z = 40%nat
    /\ z !! 16%nat = Some 58%Z
    /\ z !! 35%nat = Some 135%Z.
Proof.
  intros l.
  destruct (buffer2wavb64_fades_first_32_frames Demo.E l 44100)
    as (z & Hz & Hlen & Hlow & Hhigh).
  - vm_compute. lia.
  - unfold l. apply Forall_fmap, Forall_forall. intros n Hn%elem_of_seq.
    unfold int16. cbn. lia.
  - exists z. split; [exact Hz|]. split; [exact Hlen|]. split.
    + exact (proj1 (Hlow 16%nat 116%Z ltac:(lia) eq_refl)).
    + exact (Hhigh 35%nat ltac:(lia)).
Defined.

Section AudioFacts.
Local Open Scope Q_scope.

Lemma qmax_ge_l a b : a <= Np.qmax a b.
Proof.
  unfold Np.qmax. destruct (Qle_bool a b) eqn:H.
  - by apply Qle_bool_iff.
  - apply Qle_refl.
Qed.

Lemma qmax_ge_r a b : b <= Np.qmax a b.
Proof.
  unfold Np.qmax. destruct (Qle_bool a b) eqn:H.
  - apply Qle_refl.
  - apply Qlt_le_weak, Qnot_le_lt. intros Hle. apply Qle_bool_iff in Hle. congruence.
Qed.

Lemma fold_qmax_ge (xs : list Q) x0 x : x ∈ x0 :: xs -> x <= fold_left Np.qmax xs x0.
Proof.
  revert x0 x. induction xs as [|y xs IH]; intros x0 x Hin.
  - apply list_elem_of_singleton in Hin as ->. apply Qle_refl.
  - cbn [fold_left]. apply elem_of_cons in Hin as [->|Hin].
    + eapply Qle_trans; [apply qmax_ge_l|]. apply IH, list_elem_of_here.
    + apply elem_of_cons in Hin as [->|Hin].
      * eapply Qle_trans; [apply qmax_ge_r|]. apply IH, list_elem_of_here.
      * apply IH. by apply list_elem_of_further.
Qed.

Lemma max_abs_ge l peak x :
  Np.max (Np.abs (Np.F32 l)) = inr peak -> x ∈ l -> Qabs x <= peak.
Proof.
  cbn [Np.abs Np.max]. unfold Np.max_of.
  destruct (Qabs <$> l) as [|a xs] eqn:Hl; [done|]. intros [= <-] Hin.
  apply fold_qmax_ge. rewrite <- Hl. by apply list_elem_of_fmap_2.
Qed.

Lemma qdiv_unit x peak :
  Qabs x <= peak -> ~ peak == 0 -> unit_float (Np.qdiv x peak).
Proof.
  intros Hx Hp. unfold Np.qdiv.
  destruct (Qeq_bool peak 0) eqn:He; [by apply Qeq_bool_iff in He|].
  cbn [unit_float]. rewrite Qred_correct.
  assert (H0 : 0 < peak).
  { apply Qnot_le_lt. intros Hle. apply Hp, Qle_antisym; [done|].
    eapply Qle_trans; [apply Qabs_nonneg | exact Hx]. }
  unfold Qdiv. rewrite Qabs_Qmult, (Qabs_pos (/ peak)).
  - apply Qle_shift_div_r; [done|]. by rewrite Qmult_1_l.
  - apply Qlt_le_weak, Qinv_lt_0_compat, H0.
Qed.

Lemma fmul_unit x r :
  unit_float x -> 0 <= r -> r <= 1 -> unit_float (Np.fmul x r).
Proof.
  destruct x as [q|]; [|done]. cbn [unit_float Np.fmul]. intros Hq H0 H1.
  rewrite Qred_correct, Qabs_Qmult, (Qabs_pos r) by done.
  apply (Qle_trans _ (1 * 1)); [|by compute].
  apply Qmult_le_compat_nonneg; split; first [apply Qabs_nonneg | done].
Qed.

Lemma ramp_unit n r : r ∈ Np.ramp n -> 0 <= r /\ r <= 1.
Proof.
  unfold Np.ramp. intros (i & -> & Hi%elem_of_seq)%list_elem_of_fmap.
  rewrite Qred_correct.
  assert (Hn : 0 < inject_Z (Z.of_nat n)).
  { rewrite <- (Zlt_Qlt 0). lia. }
  split.
  - apply Qle_shift_div_l; [done|]. rewrite Qmult_0_l.
    rewrite <- (Zle_Qle 0). lia.
  - apply Qle_shift_div_r; [done|]. rewrite Qmult_1_l.
    rewrite <- Zle_Qle. lia.
Qed.

Lemma Forall_zip_with_both {A B C} (f : A -> B -> C) (P : A -> Prop) (R : B -> Prop)
    (T : C -> Prop) a b :
  (forall x y, P x -> R y -> T (f x y)) ->
  Forall P a -> Forall R b -> Forall T (zip_with f a b).
Proof.
  intros Hf Ha. revert b. induction Ha as [|x a Hx Ha IH]; intros b Hb; [constructor|].
  destruct Hb as [|y b Hy Hb]; [constructor|].
  cbn [zip_with]. constructor; auto.
Qed.

Lemma qtrunc_bound q m : Qabs q <= inject_Z m -> (Z.abs (Np.qtrunc q) <= m)%Z.
Proof.
  destruct q as [n d]. unfold Np.qtrunc, Qabs, Qle, inject_Z. cbn [Qnum Qden].
  intros H. apply quot_abs_bound; lia.
Qed.

Lemma frame_in_range nonfinite x :
  unit_float x ->
  let f := Np.astype_int16 nonfinite (Np.fmul x 16384) in
  (-16384 <= f <= 16384)%Z.
Proof.
  destruct x as [q|]; [|done]. cbn [unit_float Np.fmul Np.astype_int16]. intros Hq.
  assert (Hb : (Z.abs (Np.qtrunc (Qred (q * 16384))) <= 16384)%Z).
  { apply qtrunc_bound. rewrite Qred_correct, Qabs_Qmult.
    change (Qabs 16384) with (inject_Z 16384).
    apply (Qle_trans _ (1 * inject_Z 16384)); [|by compute].
    apply Qmult_le_compat_r; [done | by compute]. }
  rewrite int16_wrap_id by (unfold int16; lia). lia.
Qed.

(** X6.  On a float buffer of at least 32 samples whose peak is not zero,
    the compressed encoder hands the codec as many frames as the buffer
    has samples, every frame within [-16384, 16384], the first one zero. *)
Theorem buffer2mp3b64_frames_stay_in_range
    (E : Externals) (l : list Q) (samplerate : Z) (peak : Q) :
  (32 <= length l)%nat ->
  Np.max (Np.abs (Np.F32 l)) = inr peak ->
  ~ peak == 0 ->
  exists frames,
    buffer2mp3b64 E (Np.F32 l) samplerate = export_mp3_b64 E frames samplerate
    /\ length frames = length l
    /\ frames !! 0%nat = Some 0%Z
    /\ Forall (fun f => (-16384 <= f <= 16384)%Z) frames.
Proof.
  intros Hlen Hpeak Hnz.
  set (y1 := Np.true_divide (Np.F32 l) peak).
  assert (Hy1 : Forall unit_float y1).
  { unfold y1, Np.true_divide. cbn [Np.values]. apply Forall_fmap, Forall_forall.
    intros x Hx. apply qdiv_unit; [|done]. by eapply max_abs_ge. }
  assert (Hy1len : length y1 = length l).
  { unfold y1, Np.true_divide. cbn [Np.values]. by rewrite length_fmap. }
  assert (Htake : length (take 32 y1) = 32%nat) by (rewrite length_take; lia).
  set (faded := zip_with Np.fmul (take 32 y1) (Np.ramp 32)).
  assert (Hfaded : Forall unit_float faded).
  { unfold faded.
    eapply (Forall_zip_with_both _ unit_float (fun r => 0 <= r /\ r <= 1));
      [| by apply Forall_take |].
    - intros x r Hx [? ?]. by apply fmul_unit.
    - apply Forall_forall. intros r. apply ramp_unit. }
  assert (Hfl : length faded = 32%nat).
  { unfold faded. rewrite length_zip_with, Htake, length_ramp. lia. }
  exists (Np.astype_int16 (cast_nonfinite E)
            <$> ((fun x => Np.fmul x 16384) <$> (faded ++ drop 32 y1))).
  split; [|split; [|split]].
  - unfold buffer2mp3b64. rewrite Hpeak. cbn [mbind result_bind]. fold y1.
    unfold Np.imul. rewrite bool_decide_true by (by rewrite Htake, length_ramp).
    reflexivity.
  - rewrite !length_fmap, length_app, Hfl, length_drop. lia.
  - rewrite !list_lookup_fmap, lookup_app_l by lia. unfold faded.
    rewrite lookup_zip_with, lookup_take_lt by lia.
    destruct (y1 !! 0%nat) as [x|] eqn:Hx.
    2:{ apply lookup_ge_None in Hx. lia. }
    assert (Hu : unit_float x).
    { rewrite Forall_forall in Hy1. apply Hy1. by eapply list_elem_of_lookup_2. }
    destruct x as [q|]; [|done].
    change (Np.ramp 32 !! 0%nat) with (Some 0).
    cbn [mbind option_bind fmap option_fmap option_map Np.fmul Np.astype_int16].
    assert (Hz : Qred (q * 0) = 0).
    { change 0 with (Qred 0) at 2. apply Qred_complete. ring. }
    rewrite Hz. reflexivity.
  - rewrite <- list_fmap_compose. apply Forall_fmap.
    eapply Forall_impl; [apply Forall_app_2; [exact Hfaded | by apply Forall_drop]|].
    intros x Hx. apply (frame_in_range _ _ Hx).
Qed.

Lemma buffer2mp3b64_frames_witness :
  let l := Demo.decode Demo.wav in
  exists frames,
    buffer2mp3b64 Demo.E (Np.F32 l) 44100 = export_mp3_b64 Demo.E frames 44100
    /\ length frames = length l
    /\ frames !! 0%nat = Some 0%Z
    /\ Forall (fun f => (-16384 <= f <= 16384)%Z) frames.
Proof.
  intros l.
  apply (buffer2mp3b64_frames_stay_in_range Demo.E l 44100 1).
  - vm_compute. lia.
  - vm_compute. reflexivity.
  - vm_compute. discriminate.
Defined.

Lemma fmap_constant {A B} (f : A -> B) (c : B) (l : list A) :
  (forall x, f x = c) -> f <$> l = replicate (length l) c.
Proof.
  intros Hf. induction l as [|x l IH]; [done|]. cbn [fmap list_fmap length replicate].
  rewrite Hf. f_equal. exact IH.
Qed.

(** X7.  A buffer whose peak is zero is not rejected: the division by the
    peak yields non-finite floats, and every frame handed to the codec is
    what the platform stores for a non-finite float. *)
Theorem buffer2mp3b64_silent_buffer
    (E : Externals) (y : Np.ndarray) (samplerate : Z) (peak : Q) :
  (32 <= Np.len y)%nat ->
  Np.max (Np.abs y) = inr peak ->
  peak == 0 ->
  buffer2mp3b64 E y samplerate
  = export_mp3_b64 E (replicate (Np.len y) (cast_nonfinite E)) samplerate.
Proof.
  intros Hlen Hpeak Hz. unfold buffer2mp3b64. rewrite Hpeak. cbn [mbind result_bind].
  assert (Hy1 : Np.true_divide y peak = replicate (Np.len y) NonFinite).
  { unfold Np.true_divide. rewrite <- length_values. apply fmap_constant.
    intros x. unfold Np.qdiv. by rewrite (proj2 (Qeq_bool_iff peak 0) Hz). }
  rewrite Hy1, take_replicate, drop_replicate, Nat.min_l by lia.
  unfold Np.imul. rewrite bool_decide_true by (by rewrite length_ramp, length_replicate).
  rewrite zip_with_replicate_l by (rewrite length_ramp; lia).
  rewrite (fmap_constant _ NonFinite) by done. rewrite length_ramp.
  cbn [mbind result_bind]. rewrite <- replicate_add, !fmap_replicate.
  replace (32 + (Np.len y - 32))%nat with (Np.len y) by lia.
  reflexivity.
Qed.

Lemma buffer2mp3b64_silent_witness :
  let y := Np.I16 (replicate 40 0%Z) in
  buffer2mp3b64 Demo.E y 44100
  = export_mp3_b64 Demo.E (replicate 40 (cast_nonfinite Demo.E)) 44100.
Proof.
  intros y.
  apply (buffer2mp3b64_silent_buffer Demo.E y 44100 0).
  - vm_compute. lia.
  - vm_compute. reflexivity.
  - reflexivity.
Defined.

(** X8.  The gain of a region has the sign of the largest sample: it is a
    positive number when the largest sample is positive and a negative
    number when every sample is negative; when the largest sample is zero
    the division does not raise and the gain is not finite.  (Floats are
    exact rationals here: only the sign is stated, not the value.) *)
Theorem region_gain_has_the_sign_of_the_largest_sample (y : list Q) (peak : Q) :
  Np.max (Np.F32 y) = inr peak ->
  (0 < peak -> exists g, region_gain y = inr (Fin g) /\ 0 < g)
  /\ (peak < 0 -> exists g, region_gain y = inr (Fin g) /\ g < 0)
  /\ (peak == 0 -> region_gain y = inr NonFinite).
Proof.
  intros Hpeak. unfold region_gain. rewrite Hpeak. cbn [mbind result_bind].
  unfold Np.qdiv. split; [|split].
  - intros Hpos.
    assert (Hnz : ~ peak == 0)
      by (intros Hz; rewrite Hz in Hpos; by apply Qlt_irrefl in Hpos).
    destruct (Qeq_bool peak 0) eqn:He; [by apply Qeq_bool_iff in He|].
    eexists. split; [reflexivity|]. rewrite Qred_correct.
    apply Qlt_shift_div_l; [done|]. rewrite Qmult_0_l. reflexivity.
  - intros Hneg.
    assert (Hnz : ~ peak == 0)
      by (intros Hz; rewrite Hz in Hneg; by apply Qlt_irrefl in Hneg).
    destruct (Qeq_bool peak 0) eqn:He; [by apply Qeq_bool_iff in He|].
    eexists. split; [reflexivity|]. rewrite Qred_correct.
    assert (Hop : 0 < - peak).
    { apply (Qplus_lt_l _ _ peak). ring_simplify. exact Hneg. }
    assert (Hq : 0 < (7 # 10) / - peak).
    { apply Qlt_shift_div_l; [done|]. rewrite Qmult_0_l. reflexivity. }
    assert (Heq : (7 # 10) / peak == - ((7 # 10) / - peak)) by (field; exact Hnz).
    rewrite Heq. apply (Qplus_lt_l _ _ ((7 # 10) / - peak)). ring_simplify. exact Hq.
  - intros Hz. by rewrite (proj2 (Qeq_bool_iff peak 0) Hz).
Qed.

Lemma region_gain_sign_witness :
  Np.max (Np.F32 [-(1 # 2); -(1 # 4)]) = inr (-(1 # 4))
  /\ exists g, region_gain [-(1 # 2); -(1 # 4)] = inr (Fin g) /\ g < 0.
Proof.
  split; [vm_compute; reflexivity|].
  apply (proj1 (proj2 (region_gain_has_the_sign_of_the_largest_sample
                         [-(1 # 2); -(1 # 4)] (-(1 # 4))
                         ltac:(vm_compute; reflexivity)))).
  vm_compute. reflexivity.
Defined.

End AudioFacts.

Lemma frombuffer_int16_length raw ys :
  Np.frombuffer_int16 raw = inr ys -> length raw = (2 * length ys)%nat.
Proof.
  revert ys. induction raw as [raw IH] using (induction_ltof1 _ (@length _)).
  unfold ltof in IH. intros ys.
  destruct raw as [|lo [|hi raw]]; cbn [Np.frombuffer_int16].
  - by intros [= <-].
  - done.
  - intros (r & Hr & ->)%result_fmap_inr. cbn [length].
    rewrite (IH raw ltac:(cbn [length]; lia) r Hr). lia.
Qed.

(** X9.  A container sample of fewer than 32 frames (64 bytes) makes
    [processSf2Sample] raise, compressed or not. *)
Theorem processSf2Sample_short_sample_raises
    (E : Externals) (sample : Sf2.sample) (bag : Sf2.bag)
    (soundJsonDict : Sf2.soundJsonDict) (compress : bool) :
  (length (Sf2.raw_sample_data sample) < 64)%nat ->
  exists e, processSf2Sample E sample bag soundJsonDict compress = inl e.
Proof.
  intros Hlen. unfold processSf2Sample.
  destruct (Np.frombuffer_int16 (Sf2.raw_sample_data sample)) as [e|ys] eqn:Hys;
    [by eexists|].
  apply frombuffer_int16_length in Hys. cbn [mbind result_bind].
  assert (Hshort : (length ys < 32)%nat) by lia.
  assert (Hmp3 : exists e, buffer2mp3b64 E (Np.I16 ys) (Sf2.sample_rate sample) = inl e).
  { unfold buffer2mp3b64.
    destruct (Np.max (Np.abs (Np.I16 ys))) as [e|peak]; [by eexists|].
    cbn [mbind result_bind]. rewrite imul_mismatch; [by eexists| |].
    - rewrite length_ramp, length_take. unfold Np.true_divide.
      rewrite length_fmap, length_values. cbn [Np.len]. lia.
    - by rewrite length_ramp. }
  assert (Hwav : exists e, buffer2wavb64 E (Np.I16 ys) (Sf2.sample_rate sample) = inl e).
  { unfold buffer2wavb64, Np.mul.
    rewrite bool_decide_false by (rewrite length_take, length_arange; lia).
    destruct (take 32 ys) as [|x [|x' t]] eqn:Ht; [by eexists| |by eexists].
    cbn [mbind result_bind]. rewrite assign_prefix_mismatch; [by eexists| |].
    - rewrite !length_fmap, length_arange, length_take. lia.
    - by rewrite !length_fmap, length_arange. }
  destruct compress.
  - destruct Hmp3 as [e ->]. by eexists.
  - destruct Hwav as [e ->]. by eexists.
Qed.

Lemma processSf2Sample_short_sample_witness :
  let sample := {| Sf2.raw_sample_data := [Byte.x01; Byte.x00; Byte.x02; Byte.x00];
                   Sf2.sample_rate := 22050; Sf2.sample_name := "60";
                   Sf2.original_pitch := None; Sf2.start_loop := None;
                   Sf2.end_loop := 0; Sf2.start := 0 |} in
  let bag := {| Sf2.bag_sample := Some sample; Sf2.base_note := None |} in
  exists e, processSf2Sample Demo.E sample bag
              (new_patch "d/x" {| Sf2.inst_name := "Piano"; Sf2.bags := Some [bag] |})
              false = inl e.
Proof.
  intros sample bag.
  apply (processSf2Sample_short_sample_raises Demo.E sample bag).
  vm_compute. lia.
Defined.

(** ** What a conversion may do to the file system *)

Lemma substring_all s : String.substring 0 (String.length s) s = s.
Proof. induction s as [|c s IH]; [done|]. cbn. by rewrite IH. Qed.

Lemma substring_app_skip x p :
  String.substring (String.length x) (String.length p) (x ++ p) = p.
Proof.
  induction x as [|c x IH]; [apply substring_all|].
  rewrite string_app_cons. cbn [String.length String.substring]. exact IH.
Qed.

Lemma endswith_app x p : PyStr.endswith (x ++ p) p = true.
Proof.
  unfold PyStr.endswith. rewrite string_length_app.
  replace (String.length x + String.length p - String.length p)%nat
    with (String.length x) by lia.
  rewrite substring_app_skip, String.eqb_refl. cbn [andb].
  apply Nat.leb_le. lia.
Qed.

Lemma string_app_assoc (a b c : string) : ((a ++ b) ++ c)%string = (a ++ (b ++ c))%string.
Proof.
  induction a as [|x a IH]; [done|]. rewrite !string_app_cons. by rewrite IH.
Qed.

Lemma endswith_join a b p :
  PyStr.endswith (OsPath.join a (b ++ p)) p = true.
Proof.
  unfold OsPath.join.
  destruct (PyStr.startswith _ _); [apply endswith_app|].
  destruct (_ || _).
  - rewrite <- string_app_assoc. apply endswith_app.
  - rewrite <- !string_app_assoc. apply endswith_app.
Qed.

(** *** Steps of the converter under a relation between worlds *)

Section ConverterRespects.
Context (E : Externals) (R : relation world) `{!PreOrder R}.
Hypothesis R_mkdir : forall name, respects R (OsPath.mkdir name).
Hypothesis R_write :
  forall p text, PyStr.endswith p ".json" = true -> respects R (OsPath.write_file p text).
Hypothesis R_macro : forall r, respects R (modify (set_replaceDict_default r)).

Lemma same_world_respects {A} (m : M A) : respects same_world m -> respects R m.
Proof. apply respects_weaken. intros w w' ->. reflexivity. Qed.

Lemma makedirs_go_respects fuel name : respects R (OsPath.makedirs_go fuel name).
Proof.
  revert name. induction fuel as [|fuel IH]; intros name; simpl.
  - apply respects_raise, _.
  - destruct (OsPath.split name) as [head0 tail0].
    destruct (if String.eqb tail0 EmptyString then OsPath.split head0 else (head0, tail0))
      as [hd tl].
    assert (Hfinal : respects R
              (try_except (OsPath.mkdir name)
                 (fun e => bind (OsPath.isdir name)
                             (fun d => if d then ret tt else raise e)))).
    { apply respects_try; [apply _ | apply R_mkdir |]. intros e w.
      unfold bind, OsPath.isdir, gets. destruct (OsPath.isdir_in w name); reflexivity. }
    destruct (negb (String.eqb hd EmptyString) && negb (String.eqb tl EmptyString));
      [|exact Hfinal].
    intros w. unfold bind, OsPath.exists_, gets.
    destruct (OsPath.exists_in w hd); [apply Hfinal|].
    unfold try_except.
    pose proof (IH hd w) as Hrec.
    destruct (OsPath.makedirs_go fuel hd w) as [[e|[]] w1]; simpl in *.
    + destruct e; simpl; try exact Hrec.
      destruct (String.eqb tl "."); simpl; [exact Hrec|].
      etrans; [exact Hrec | apply Hfinal].
    + destruct (String.eqb tl "."); simpl; [exact Hrec|].
      etrans; [exact Hrec | apply Hfinal].
Qed.

Lemma toFile_respects p v :
  PyStr.endswith p ".json" = true -> respects R (toFile E p v).
Proof.
  intros Hp. unfold toFile.
  apply respects_bind; [apply _ | apply respects_lift, _ |]. intros text.
  apply respects_bind; [apply _ | apply makedirs_go_respects |].
  intros _. by apply R_write.
Qed.

Lemma emit_respects filename outFilename d :
  PyStr.endswith outFilename ".json" = true ->
  respects R (emit E filename outFilename d).
Proof.
  intros Hout. unfold emit.
  apply respects_bind; [apply _ | by apply toFile_respects | intros _].
  apply respects_bind; [apply _ | apply respects_lift, _ | intros soundJSON].
  apply respects_bind; [apply _ | apply same_world_respects, exists_same | intros found].
  destruct found; [|apply respects_mret, _].
  apply respects_bind; [apply _ | apply same_world_respects, read_file_same | intros gold].
  destruct (negb _); apply respects_mret, _.
Qed.

Lemma process_sections_respects compress basedir sections d :
  respects R (for_each (process_section E compress basedir) sections d).
Proof. apply same_world_respects, process_sections_same. Qed.

Lemma preprocess_line_respects recurse shared basedir st ogline :
  (forall f t, respects R (recurse f t)) ->
  respects R (preprocess_line E recurse shared basedir st ogline).
Proof.
  intros Hrec. destruct st as [text table]. unfold preprocess_line.
  assert (Hm : forall d, respects R (record_macro shared d)).
  { intros d. unfold record_macro. destruct shared; [apply R_macro|apply respects_mret, _]. }
  eauto 30 with respects.
Qed.

Lemma sfz2soundJson_respects fuel filename compress replaceDict :
  respects R (sfz2soundJson E fuel filename compress replaceDict).
Proof.
  revert filename replaceDict. induction fuel as [|fuel IH]; intros filename replaceDict.
  - apply respects_raise, _.
  - cbn [sfz2soundJson].
    assert (Hline : forall shared basedir st ogline,
               respects R
                 (preprocess_line E
                    (fun f d => sfz2soundJson E fuel f compress (Some d))
                    shared basedir st ogline)).
    { intros. apply preprocess_line_respects. intros f t. apply IH. }
    pose proof (fun d => emit_respects filename _ d
                  (endswith_app (PyStr.drop_last 4 filename) ".json")) as Hemit.
    pose proof (fun p => same_world_respects _ (exists_same p)) as Hex.
    pose proof (fun p => same_world_respects _ (read_file_same p)) as Hread.
    pose proof process_sections_respects as Hsec.
    apply respects_bind; [apply _ | apply Hex | intros cached].
    destruct cached; [apply respects_fmap; [apply _ | apply Hread]|].
    apply respects_bind; [apply _ | apply Hex | intros found].
    destruct (negb found); [apply respects_mret, _|].
    apply respects_bind; [apply _ | apply Hread | intros preprocFile].
    apply respects_bind; [apply _ | | intros table].
    { destruct replaceDict; [apply respects_mret, _ | apply respects_gets, _]. }
    apply respects_bind; [apply _ | apply respects_for_each; [apply _|]; intros; apply Hline
                         | intros pre].
    apply respects_bind; [apply _ | apply respects_lift, _ | intros sections].
    apply respects_bind; [apply _ | apply Hsec | intros d].
    apply Hemit.
Qed.

Lemma process_instrument_respects inFilename noext compress inst unique_name :
  respects R (process_instrument E inFilename noext compress inst unique_name).
Proof.
  unfold process_instrument.
  apply respects_bind; [apply _ | apply respects_lift, _ | intros d].
  apply respects_bind; [apply _ | apply toFile_respects, endswith_join | intros _].
  apply respects_mret, _.
Qed.

Lemma load_existing_same noext : respects same_world (load_existing E noext).
Proof.
  unfold load_existing. apply respects_bind; [apply _|apply listdir_same|].
  intros entries. destruct (merge_sort _ _); [apply respects_mret; apply _|].
  apply respects_bind; [apply _| |intros; apply respects_mret; apply _].
  apply respects_for_each; [apply _|]. intros patches json_file.
  apply respects_bind; [apply _|apply read_file_same|].
  intros text. apply respects_bind; [apply _|apply respects_lift; apply _|].
  intros v. apply respects_lift. apply _.
Qed.

Lemma sf22soundJson_respects inFilename compress force :
  respects R (sf22soundJson E inFilename compress force).
Proof.
  unfold sf22soundJson.
  apply respects_bind; [apply _ | apply same_world_respects, read_file_same | intros bytes].
  apply respects_bind; [apply _ | apply respects_lift, _ | intros sf2].
  cbv zeta.
  apply respects_bind; [apply _ | apply makedirs_go_respects | intros _].
  apply respects_bind; [apply _ | | intros existing].
  { destruct force; [apply respects_mret, _ | apply same_world_respects, load_existing_same]. }
  destruct existing; [apply respects_mret, _|].
  destruct (unique_names ∅ sf2) as [|iu l]; [apply respects_mret, _|].
  apply respects_bind; [apply _ | | intros results].
  - apply run_pool_respects; [apply _|]. intros task Ht.
    apply list_elem_of_fmap in Ht as (iu' & -> & _).
    apply process_instrument_respects.
  - apply respects_fmap; [apply _ | apply respects_lift, _].
Qed.

Lemma convertFile_respects fuel infilename compress force stopOnFail :
  respects R (convertFile E fuel infilename compress force stopOnFail).
Proof.
  revert infilename stopOnFail.
  induction fuel as [|fuel IH]; intros infilename stopOnFail.
  - apply respects_raise, _.
  - cbn [convertFile].
    apply respects_bind; [apply _ | apply same_world_respects, isdir_same | intros isd].
    apply respects_bind; [apply _ | | intros _].
    + apply respects_if; [|apply respects_mret, _].
      apply respects_bind; [apply _ | apply same_world_respects, listdir_same
                           | intros entries].
      apply respects_for_each; [apply _|]. intros [] f.
      apply respects_try; [apply _ | | intros e; apply respects_mret, _].
      apply respects_bind; [apply _ | apply IH | intros r; apply respects_mret, _].
    + repeat apply respects_if.
      * apply respects_fmap; [apply _|]. apply sf22soundJson_respects.
      * apply respects_fmap; [apply _|]. apply sfz2soundJson_respects.
      * apply respects_mret, _.
Qed.

End ConverterRespects.

Lemma mkdir_grows name : respects fs_grows (OsPath.mkdir name).
Proof.
  intros w. unfold OsPath.mkdir.
  destruct (String.eqb name EmptyString) eqn:Hname; [reflexivity|].
  destruct (OsPath.exists_in w name); [reflexivity|].
  destruct (_ || _); [|destruct (OsPath.isfile_in _ _); reflexivity].
  apply String.eqb_neq in Hname. cbn. split; cbn; try done.
  - set_solver.
  - intros [?%elem_of_singleton|?]%elem_of_union; [congruence | done].
Qed.

Lemma write_file_grows p text :
  PyStr.endswith p ".json" = true -> respects fs_grows (OsPath.write_file p text).
Proof.
  intros Hp w. unfold OsPath.write_file.
  destruct (OsPath.isdir_in w p); [reflexivity|].
  destruct (_ || _); [|destruct (OsPath.isfile_in _ _); reflexivity].
  cbn. split; cbn; try done.
  - intros q Hq. apply lookup_insert_ne. congruence.
  - intros q Hq. by apply lookup_insert_is_Some', or_intror.
Qed.

Lemma macro_grows r : respects fs_grows (modify (set_replaceDict_default r)).
Proof. intros w. by split. Qed.

Lemma sfz2soundJson_grows E fuel filename compress replaceDict :
  respects fs_grows (sfz2soundJson E fuel filename compress replaceDict).
Proof.
  apply sfz2soundJson_respects;
    [apply _ | apply mkdir_grows | apply write_file_grows | apply macro_grows].
Qed.

Lemma process_instrument_grows E inFilename noext compress inst unique_name :
  respects fs_grows (process_instrument E inFilename noext compress inst unique_name).
Proof.
  apply process_instrument_respects;
    [apply _ | apply mkdir_grows | apply write_file_grows].
Qed.

Lemma mbind_unfold {A B} (m : M A) (f : A -> M B) w :
  (m ≫= f) w = match m w with
               | (inl e, w') => (inl e, w')
               | (inr a, w') => f a w'
               end.
Proof. reflexivity. Qed.

Lemma same_fs_grows w w' : same_fs w w' -> fs_grows w w'.
Proof.
  intros [Hf Hd]. split.
  - intros p _. by rewrite Hf.
  - intros p. by rewrite Hf.
  - by rewrite Hd.
  - by rewrite Hd.
Qed.

Lemma fs_grows_exists w w' p :
  fs_grows w w' -> OsPath.exists_in w p = true -> OsPath.exists_in w' p = true.
Proof.
  intros [_ Hfiles Hdirs _].
  unfold OsPath.exists_in, OsPath.isfile_in, OsPath.isdir_in.
  intros [Hf|[Hd|Hs]%orb_true_iff]%orb_true_iff; apply orb_true_iff.
  - left. apply bool_decide_eq_true. apply Hfiles. by apply bool_decide_eq_true in Hf.
  - right. apply orb_true_iff. left. apply bool_decide_eq_true.
    apply Hdirs. by apply bool_decide_eq_true in Hd.
  - right. apply orb_true_iff. by right.
Qed.

Lemma sf22soundJson_grows E inFilename compress force :
  respects fs_grows (sf22soundJson E inFilename compress force).
Proof.
  apply sf22soundJson_respects;
    [apply _ | apply mkdir_grows | apply write_file_grows].
Qed.

(** X10.  The container pipeline, however a call ends, leaves every file
    whose name does not end in [.json] as it was (neither created, nor
    overwritten, nor removed), and removes nothing: what existed before the
    call exists after it. *)
Theorem sf22soundJson_only_adds_json_files
    (E : Externals) (inFilename : string) (compress force : bool)
    (w : world) (p : string) :
  let w' := (sf22soundJson E inFilename compress force w).2 in
  (PyStr.endswith p ".json" = false -> files w' !! p = files w !! p)
  /\ (OsPath.exists_in w p = true -> OsPath.exists_in w' p = true).
Proof.
  intros w'. pose proof (sf22soundJson_grows E inFilename compress force w) as Hg.
  fold w' in Hg. split.
  - apply (grows_other_files _ _ Hg).
  - by apply fs_grows_exists.
Qed.

Lemma sf22soundJson_only_adds_json_witness :
  let run := sf22soundJson Demo.E "d/x.sf2" true false Demo.pianos in
  files run.2 !! "d/x.sf2" = files Demo.pianos !! "d/x.sf2"
  /\ is_Some (files run.2 !! "d/x/Piano.json").
Proof.
  intros run. split.
  - apply (proj1 (sf22soundJson_only_adds_json_files Demo.E "d/x.sf2" true false
                    Demo.pianos "d/x.sf2")).
    vm_compute. reflexivity.
  - vm_compute. eexists. reflexivity.
Defined.

(** Without an inclusion the text pipeline reaches no code of the input
    file; the file system changes as [fs_grows] says. *)
Lemma sfz2soundJson_no_inclusions_grows E fuel filename compress replaceDict w :
  (forall text,
     files w !! filename = Some text ->
     no_inclusions (match replaceDict with
                    | Some t => t
                    | None => replaceDict_default w
                    end) (PyStr.split text nl) = true) ->
  fs_grows w (sfz2soundJson E fuel filename compress replaceDict w).2.
Proof.
  intros Hno. destruct fuel as [|fuel]; [reflexivity|]. cbn [sfz2soundJson].
  rewrite mbind_unfold. unfold OsPath.exists_ at 1, gets.
  destruct (OsPath.exists_in w (PyStr.drop_last 4 filename ++ ".json")).
  { apply respects_fmap; [apply _|]. apply same_world_respects; [apply _|].
    apply read_file_same. }
  rewrite mbind_unfold. unfold OsPath.exists_ at 1, gets.
  destruct (OsPath.exists_in w filename); cbn [negb]; [|reflexivity].
  rewrite mbind_unfold. unfold OsPath.read_file at 1.
  destruct (files w !! filename) as [text|] eqn:Hfile;
    [|destruct (OsPath.isdir_in w filename); reflexivity].
  specialize (Hno text eq_refl).
  rewrite mbind_unfold.
  replace ((match replaceDict with
            | Some d => mret d
            | None => gets replaceDict_default
            end) w)
    with (inr (A:=exn) (match replaceDict with
                        | Some t => t
                        | None => replaceDict_default w
                        end), w) by (by destruct replaceDict).
  rewrite mbind_unfold.
  pose proof (preprocess_no_inclusions E
                (fun f d => sfz2soundJson E fuel f compress (Some d))
                (match replaceDict with None => true | Some _ => false end)
                (OsPath.dirname filename) _ EmptyString _ w Hno) as Hfs.
  destruct (for_each _ _ _ w) as [[e|pre] w1]; cbn [snd] in Hfs.
  { by apply same_fs_grows. }
  etrans; [by apply same_fs_grows|].
  match goal with |- fs_grows w1 (?m w1).2 => assert (Hm : respects fs_grows m) end.
  { apply respects_bind; [apply _ | apply respects_lift, _ | intros sections].
    apply respects_bind; [apply _ | | intros d].
    - apply process_sections_respects. apply _.
    - apply emit_respects;
        [apply _ | apply mkdir_grows | apply write_file_grows | apply endswith_app]. }
  apply Hm.
Qed.

(** X11.  The text pipeline, on a file without inclusion directives and
    however the call ends, leaves every file whose name does not end in
    [.json] as it was and removes nothing.  (An inclusion hands a token of
    the input file to [eval]; what that may do is outside this statement.) *)
Theorem sfz2soundJson_without_inclusions_only_adds_json_files
    (E : Externals) (fuel : nat) (filename : string) (compress : bool)
    (replaceDict : option (pydict string)) (w : world) (p : string) :
  let table := match replaceDict with
               | Some t => t
               | None => replaceDict_default w
               end in
  let w' := (sfz2soundJson E fuel filename compress replaceDict w).2 in
  (forall text, files w !! filename = Some text ->
                no_inclusions table (PyStr.split text nl) = true) ->
  (PyStr.endswith p ".json" = false -> files w' !! p = files w !! p)
  /\ (OsPath.exists_in w p = true -> OsPath.exists_in w' p = true).
Proof.
  intros table w' Hno.
  pose proof (sfz2soundJson_no_inclusions_grows E fuel filename compress replaceDict w Hno)
    as Hg. fold w' in Hg. split.
  - apply (grows_other_files _ _ Hg).
  - by apply fs_grows_exists.
Qed.

Lemma sfz2soundJson_without_inclusions_witness :
  let run := sfz2soundJson Demo.E 10 "d/a.sfz" true None Demo.zones in
  (files run.2 !! "d/a.wav" = files Demo.zones !! "d/a.wav"
   /\ OsPath.exists_in run.2 "d/a.sfz" = true)
  /\ is_Some (files run.2 !! "d/a.json").
Proof.
  intros run.
  assert (Hno : forall text,
             files Demo.zones !! "d/a.sfz" = Some text ->
             no_inclusions (replaceDict_default Demo.zones) (PyStr.split text nl) = true).
  { intros text Htext. vm_compute in Htext. injection Htext as <-.
    vm_compute. reflexivity. }
  split; [split|].
  - apply (proj1 (sfz2soundJson_without_inclusions_only_adds_json_files
                    Demo.E 10 "d/a.sfz" true None Demo.zones "d/a.wav" Hno)).
    vm_compute. reflexivity.
  - apply (proj2 (sfz2soundJson_without_inclusions_only_adds_json_files
                    Demo.E 10 "d/a.sfz" true None Demo.zones "d/a.sfz" Hno)).
    vm_compute. reflexivity.
  - vm_compute. eexists. reflexivity.
Defined.

(** ** The container pipeline *)

(** What [processSf2Sample] leaves as it found it. *)
Lemma processSf2Sample_frame E sample bag d compress d' :
  processSf2Sample E sample bag d compress = inr d' ->
  Sf2.source d' = Sf2.source d /\ Sf2.displayName d' = Sf2.displayName d
  /\ Sf2.name d' = Sf2.name d /\ Sf2.success d' = Sf2.success d
  /\ Sf2.path d' = Sf2.path d /\ Sf2.outFilename d' = Sf2.outFilename d.
Proof.
  unfold processSf2Sample.
  intros (ys & _ & H)%result_bind_inr.
  apply result_bind_inr in H as (audio & _ & H).
  apply result_bind_inr in H as (pitch & _ & H).
  apply result_bind_inr in H as (peak & _ & H).
  injection H as <-. cbn. repeat split.
Qed.

Lemma processSf2Sample_zone E sample bag d compress d' :
  Sf2.percussion d = 0%Z -> Sf2.loop d = 0%Z ->
  processSf2Sample E sample bag d compress = inr d' ->
  exists zone, Sf2.samples d' = Sf2.samples d ++ [zone]
               /\ sf2_zone_of compress sample bag zone.
Proof.
  intros Hp Hl. unfold processSf2Sample.
  intros (ys & Hys & H)%result_bind_inr.
  apply result_bind_inr in H as (audio & Haudio & H).
  apply result_bind_inr in H as (pitch & Hpitch & H).
  apply result_bind_inr in H as (peak & _ & H).
  injection H as <-. rewrite Hp, Hl. cbn [Sf2.samples Z.eqb negb].
  eexists. split; [reflexivity|].
  assert (Hfmt : audio.2 = if compress then "mp3" else "wav").
  { destruct compress; apply result_fmap_inr in Haudio as (a & _ & ->); done. }
  apply frombuffer_int16_length in Hys.
  assert (Hroot : sf2_root_key sample bag = Some pitch).
  { unfold sf2_root_key.
    destruct (Sf2.base_note bag); [by injection Hpitch as ->|].
    destruct (Sf2.original_pitch sample); [by injection Hpitch as ->|].
    by destruct (PyStr.to_int (Sf2.sample_name sample)); [injection Hpitch as ->|]. }
  destruct (Sf2.start_loop sample); split; try reflexivity.
  all: try (rewrite Hys, Nat.mul_comm, Nat.div_mul by done; reflexivity).
  all: try (cbn; rewrite Hfmt; reflexivity).
  all: exists pitch; split; [exact Hroot | reflexivity].
Qed.

Lemma process_bags_zones E compress bags d0 d :
  Sf2.percussion d0 = 0%Z -> Sf2.loop d0 = 0%Z ->
  fold_result (process_bag E compress) bags d0 = inr d ->
  (Sf2.source d = Sf2.source d0 /\ Sf2.displayName d = Sf2.displayName d0
   /\ Sf2.name d = Sf2.name d0 /\ Sf2.success d = Sf2.success d0
   /\ Sf2.path d = Sf2.path d0 /\ Sf2.outFilename d = Sf2.outFilename d0)
  /\ exists zones,
       Sf2.samples d = Sf2.samples d0 ++ zones
       /\ Forall2 (fun sb zone => sf2_zone_of compress sb.1 sb.2 zone)
            (omap (fun bag => (fun s => (s, bag)) <$> Sf2.bag_sample bag) bags) zones.
Proof.
  revert d0. induction bags as [|bag bags IH]; intros d0 Hp Hl.
  - intros [= <-]. split; [done|]. exists []. by rewrite app_nil_r.
  - cbn [fold_result omap list_omap]. unfold process_bag at 1.
    destruct (Sf2.bag_sample bag) as [sample|] eqn:Hs.
    + destruct (processSf2Sample E sample bag d0 compress) as [e|d1] eqn:H1; [done|].
      intros H.
      destruct (processSf2Sample_inr _ _ _ _ _ _ H1) as (_ & _ & _ & Hp1 & Hl1 & _ & _).
      destruct (processSf2Sample_frame _ _ _ _ _ _ H1) as (F1 & F2 & F3 & F4 & F5 & F6).
      destruct (processSf2Sample_zone _ _ _ _ _ _ Hp Hl H1) as (zone & Hz & Hzone).
      destruct (IH d1 ltac:(congruence) ltac:(congruence) H)
        as ((G1 & G2 & G3 & G4 & G5 & G6) & zones & Hzs & Hall).
      split; [repeat split; congruence|].
      exists (zone :: zones). split.
      * rewrite Hzs, Hz, <- app_assoc. reflexivity.
      * cbn [fmap option_fmap option_map]. by constructor.
    + intros H. cbn [fmap option_fmap option_map]. by apply IH.
Qed.

(** What a task of the pool returns and leaves behind. *)
Lemma process_instrument_patch E inFilename filename_noext compress inst unique_name
    w k d w' :
  process_instrument E inFilename filename_noext compress inst unique_name w
    = (inr (k, d), w') ->
  let out_path := OsPath.join filename_noext (unique_name ++ ".json")%string in
  k = (inFilename ++ "_" ++ Sf2.inst_name inst)%string
  /\ Sf2.source d = "sf2"
  /\ Sf2.displayName d = Sf2.inst_name inst
  /\ Sf2.name d = Sf2.inst_name inst
  /\ Sf2.success d = true
  /\ Sf2.path d = [(OsPath.split filename_noext).1; (OsPath.split filename_noext).2;
                   Sf2.inst_name inst]
  /\ Sf2.outFilename d = Some out_path
  /\ Forall2 (fun sb zone => sf2_zone_of compress sb.1 sb.2 zone)
       (sampled_bags inst) (Sf2.samples d)
  /\ is_Some (files w' !! out_path).
Proof.
  unfold process_instrument.
  intros (d0 & w1 & [Hd0 ->]%lift_inr & H)%bind_inr.
  apply bind_inr in H as ([] & w2 & Hfile & H). injection H as <- <- <-.
  apply toFile_inr in Hfile as (text & _ & Hfiles).
  cbn [Sf2.source Sf2.displayName Sf2.name Sf2.success Sf2.path Sf2.outFilename
       Sf2.samples].
  assert (Hd : (Sf2.source d0 = "sf2" /\ Sf2.displayName d0 = Sf2.inst_name inst
                /\ Sf2.name d0 = Sf2.inst_name inst /\ Sf2.success d0 = true
                /\ Sf2.path d0 = [(OsPath.split filename_noext).1;
                                  (OsPath.split filename_noext).2; Sf2.inst_name inst])
               /\ Forall2 (fun sb zone => sf2_zone_of compress sb.1 sb.2 zone)
                    (sampled_bags inst) (Sf2.samples d0)).
  { unfold sampled_bags. destruct (Sf2.bags inst) as [bags|]; cbn [default].
    - apply process_bags_zones in Hd0 as ((F1 & F2 & F3 & F4 & F5 & _) & zones & Hz & Hall);
        [|done|done].
      split; [by repeat split|]. by rewrite Hz.
    - injection Hd0 as <-. split; [by repeat split|]. constructor. }
  destruct Hd as ((F1 & F2 & F3 & F4 & F5) & Hall).
  repeat split; try done.
  rewrite Hfiles, lookup_insert_eq. by eexists.
Qed.

Lemma for_each_invariant_world {A S} (P : S -> world -> Prop) (body : S -> A -> M S)
    l st w st' w' :
  (forall s x w1 s' w2, x ∈ l -> P s w1 -> body s x w1 = (inr s', w2) -> P s' w2) ->
  P st w -> for_each body l st w = (inr st', w') -> P st' w'.
Proof.
  revert st w. induction l as [|x l IH]; intros st w Hstep Hst.
  - by intros [= <- <-].
  - cbn [for_each]. intros (s1 & w1 & H1 & H)%bind_inr.
    eapply IH; [| |exact H].
    + intros s y wa s' wb Hy. apply Hstep. by right.
    + eapply Hstep; [|exact Hst|exact H1]. by left.
Qed.

(** Every result of the pool is the outcome of one of its tasks, run in a
    world reached from the initial one and followed by the final one. *)
Lemma run_pool_trace (R : relation world) `{!PreOrder R} E {A} (tasks : list (M A))
    w results w' r :
  (forall task, task ∈ tasks -> respects R task) ->
  run_pool E tasks w = (inr results, w') -> r ∈ results ->
  exists task w1 w2, task ∈ tasks /\ task w1 = (r, w2) /\ R w w1 /\ R w2 w'.
Proof.
  unfold run_pool. intros Htasks H. revert r.
  enough (Hinv : R w w' /\ forall r, r ∈ results ->
            exists task w1 w2, task ∈ tasks /\ task w1 = (r, w2) /\ R w w1 /\ R w2 w')
    by apply Hinv.
  eapply (for_each_invariant_world
            (fun done wc => R w wc /\ forall r, r ∈ done ->
               exists task w1 w2, task ∈ tasks /\ task w1 = (r, w2)
                                  /\ R w w1 /\ R w2 wc));
    [| |exact H].
  - intros done i w1 done' w2 _ [Hw Hdone] Hstep. cbv beta in Hstep.
    destruct (tasks !! i) as [task|] eqn:Hi.
    + apply bind_inr in Hstep as (r1 & w3 & Hrun & Hret).
      injection Hret as <- <-. unfold run_task in Hrun.
      destruct (task w1) as [r2 w4] eqn:Ht. injection Hrun as <- <-.
      assert (Hin : task ∈ tasks) by (by eapply list_elem_of_lookup_2).
      assert (Hstep : R w1 w4).
      { pose proof (Htasks task Hin w1) as HR. by rewrite Ht in HR. }
      split; [by etrans|].
      intros r0 [Hr|Hr%list_elem_of_singleton]%elem_of_app.
      * destruct (Hdone r0 Hr) as (t & wa & wb & ? & ? & ? & ?).
        exists t, wa, wb. repeat split; try done. by etrans.
      * subst r0. exists task, w1, w4. repeat split; done.
    + injection Hstep as <- <-. by split.
  - split; [reflexivity|]. intros r0 Hr. by apply elem_of_nil in Hr.
Qed.

(** The tasks behind the patches of a fresh conversion. *)
Lemma sf22soundJson_fresh_task E inFilename compress force w patches w' k d :
  sf22soundJson E inFilename compress force w = (inr (Sf2.Fresh patches), w') ->
  (k, d) ∈ patches ->
  exists bytes instruments inst unique_name wa wb,
    files w !! inFilename = Some bytes
    /\ Sf2File E bytes = inr instruments
    /\ (inst, unique_name) ∈ unique_names ∅ instruments
    /\ process_instrument E inFilename (OsPath.splitext inFilename).1 compress
         inst unique_name wa = (inr (k, d), wb)
    /\ fs_grows wb w'.
Proof.
  unfold sf22soundJson.
  intros (bytes & w1 & Hread & H)%bind_inr Hin.
  apply bind_inr in H as (sf2 & w2 & [Hsf2 ->]%lift_inr & H).
  exists bytes, sf2.
  assert (Hbytes : files w !! inFilename = Some bytes).
  { unfold OsPath.read_file in Hread.
    destruct (files w !! inFilename); [|by destruct (OsPath.isdir_in _ _)].
    by injection Hread as ->. }
  apply bind_inr in H as ([] & w3 & _ & H).
  apply bind_inr in H as (existing & w4 & _ & H).
  destruct existing as [cached|]; [done|].
  destruct (unique_names ∅ sf2) as [|iu instruments] eqn:Hnames.
  { injection H as <- _. by apply elem_of_nil in Hin. }
  rewrite <- Hnames in *. clear Hnames iu instruments.
  apply bind_inr in H as (results & w5 & Hpool & H).
  apply fmap_inr in H as (patches' & [Hc ->]%lift_inr & [= ->]).
  eapply collect_elem in Hin; [|done].
  eapply (run_pool_trace fs_grows) in Hin
    as (task & wa & wb & Htask & Hrun & _ & Hkept); [| |exact Hpool].
  - apply list_elem_of_fmap in Htask as ([inst unique_name] & -> & Hiu).
    exists inst, unique_name, wa, wb.
    split; [done|]. split; [done|]. split; [done|]. split; [done|exact Hkept].
  - intros task ([inst unique_name] & -> & _)%list_elem_of_fmap.
    apply process_instrument_grows.
Qed.

(** X12.  Every patch a fresh container conversion returns describes one
    instrument of the container that is not the end marker: its key is the
    input path, an underscore and the instrument's name; it records the
    source, the name (twice), success, the path triple and the file it was
    written to, named after the instrument's unique file name. *)
Theorem sf22soundJson_patch_describes_its_instrument
    (E : Externals) (inFilename : string) (compress force : bool) (w w' : world)
    (patches : pydict Sf2.soundJsonDict) (primaryKey : string)
    (d : Sf2.soundJsonDict) :
  sf22soundJson E inFilename compress force w = (inr (Sf2.Fresh patches), w') ->
  (primaryKey, d) ∈ patches ->
  let filename_noext := (OsPath.splitext inFilename).1 in
  exists bytes instruments inst unique_name,
    files w !! inFilename = Some bytes
    /\ Sf2File E bytes = inr instruments
    /\ (inst, unique_name) ∈ unique_names ∅ instruments
    /\ inst ∈ instruments /\ Sf2.inst_name inst ≠ "EOI"
    /\ primaryKey = (inFilename ++ "_" ++ Sf2.inst_name inst)%string
    /\ Sf2.source d = "sf2"
    /\ Sf2.displayName d = Sf2.inst_name inst
    /\ Sf2.name d = Sf2.inst_name inst
    /\ Sf2.success d = true
    /\ Sf2.path d = [(OsPath.split filename_noext).1; (OsPath.split filename_noext).2;
                     Sf2.inst_name inst]
    /\ Sf2.outFilename d
       = Some (OsPath.join filename_noext (unique_name ++ ".json")%string).
Proof.
  intros Hrun Hin filename_noext.
  destruct (sf22soundJson_fresh_task _ _ _ _ _ _ _ _ _ Hrun Hin)
    as (bytes & instruments & inst & unique_name & wa & wb & Hb & Hi & Hiu & Ht & _).
  exists bytes, instruments, inst, unique_name.
  apply process_instrument_patch in Ht as (-> & F1 & F2 & F3 & F4 & F5 & F6 & _).
  assert (Hinst : inst ∈ filter (fun i => Sf2.inst_name i ≠ "EOI") instruments).
  { rewrite <- (unique_names_instruments ∅). apply list_elem_of_fmap.
    by exists (inst, unique_name). }
  apply list_elem_of_filter in Hinst as [Hne Hinst].
  by repeat split.
Qed.

(** X13.  In a patch of a fresh container conversion the zones are, in
    order, those of the instrument's bags that carry a sample: zone and
    sample agree on name, rate and length, the format follows [compress],
    the root key is the bag's, else the sample header's, else the sample
    name read as an integer, and the zone has exactly the ten keys of
    [sf2_zone_keys]. *)
Theorem sf22soundJson_zones_follow_sampled_bags
    (E : Externals) (inFilename : string) (compress force : bool) (w w' : world)
    (patches : pydict Sf2.soundJsonDict) (primaryKey : string)
    (d : Sf2.soundJsonDict) :
  sf22soundJson E inFilename compress force w = (inr (Sf2.Fresh patches), w') ->
  (primaryKey, d) ∈ patches ->
  exists bytes instruments inst,
    files w !! inFilename = Some bytes
    /\ Sf2File E bytes = inr instruments
    /\ inst ∈ instruments
    /\ Sf2.name d = Sf2.inst_name inst
    /\ Forall2 (fun sb zone => sf2_zone_of compress sb.1 sb.2 zone)
         (sampled_bags inst) (Sf2.samples d).
Proof.
  intros Hrun Hin.
  destruct (sf22soundJson_fresh_task _ _ _ _ _ _ _ _ _ Hrun Hin)
    as (bytes & instruments & inst & unique_name & wa & wb & Hb & Hi & Hiu & Ht & _).
  exists bytes, instruments, inst.
  apply process_instrument_patch in Ht as (_ & _ & _ & F3 & _ & _ & _ & Hz & _).
  assert (Hinst : inst ∈ filter (fun i => Sf2.inst_name i ≠ "EOI") instruments).
  { rewrite <- (unique_names_instruments ∅). apply list_elem_of_fmap.
    by exists (inst, unique_name). }
  apply list_elem_of_filter in Hinst as [_ Hinst].
  by repeat split.
Qed.

(** X14.  The file named by a returned patch exists when a fresh container
    conversion returns. *)
Theorem sf22soundJson_patch_file_exists
    (E : Externals) (inFilename : string) (compress force : bool) (w w' : world)
    (patches : pydict Sf2.soundJsonDict) (primaryKey : string)
    (d : Sf2.soundJsonDict) :
  sf22soundJson E inFilename compress force w = (inr (Sf2.Fresh patches), w') ->
  (primaryKey, d) ∈ patches ->
  exists out, Sf2.outFilename d = Some out /\ is_Some (files w' !! out).
Proof.
  intros Hrun Hin.
  destruct (sf22soundJson_fresh_task _ _ _ _ _ _ _ _ _ Hrun Hin)
    as (bytes & instruments & inst & unique_name & wa & wb & _ & _ & _ & Ht & Hkept).
  apply process_instrument_patch in Ht as (_ & _ & _ & _ & _ & _ & F6 & _ & Hfile).
  eexists. split; [exact F6|]. by apply (grows_files _ _ Hkept).
Qed.

Lemma sf22soundJson_patch_describes_witness :
  let run := sf22soundJson Demo.E "d/x.sf2" true false Demo.pianos in
  let patches := match run.1 with inr (Sf2.Fresh p) => p | _ => [] end in
  exists k d,
    patches !! 0%nat = Some (k, d)
    /\ exists bytes instruments inst unique_name,
         files Demo.pianos !! "d/x.sf2" = Some bytes
         /\ Sf2File Demo.E bytes = inr instruments
         /\ (inst, unique_name) ∈ unique_names ∅ instruments
         /\ inst ∈ instruments /\ Sf2.inst_name inst ≠ "EOI"
         /\ k = ("d/x.sf2" ++ "_" ++ Sf2.inst_name inst)%string
         /\ Sf2.source d = "sf2"
         /\ Sf2.displayName d = Sf2.inst_name inst
         /\ Sf2.name d = Sf2.inst_name inst
         /\ Sf2.success d = true
         /\ Sf2.path d = [(OsPath.split (OsPath.splitext "d/x.sf2").1).1;
                          (OsPath.split (OsPath.splitext "d/x.sf2").1).2;
                          Sf2.inst_name inst]
         /\ Sf2.outFilename d
            = Some (OsPath.join (OsPath.splitext "d/x.sf2").1
                      (unique_name ++ ".json")%string).
Proof.
  intros run patches.
  assert (Hrun : run = (inr (Sf2.Fresh patches), run.2)) by (vm_compute; reflexivity).
  destruct (patches !! 0%nat) as [[k d]|] eqn:Hp;
    [|vm_compute in Hp; discriminate Hp].
  exists k, d. split; [reflexivity|].
  exact (sf22soundJson_patch_describes_its_instrument Demo.E "d/x.sf2" true false
           Demo.pianos run.2 patches k d Hrun (list_elem_of_lookup_2 _ _ _ Hp)).
Defined.

Lemma sf22soundJson_zones_witness :
  let run := sf22soundJson Demo.E "d/x.sf2" true false Demo.pianos in
  let patches := match run.1 with inr (Sf2.Fresh p) => p | _ => [] end in
  exists k d,
    patches !! 0%nat = Some (k, d)
    /\ exists bytes instruments inst,
         files Demo.pianos !! "d/x.sf2" = Some bytes
         /\ Sf2File Demo.E bytes = inr instruments
         /\ inst ∈ instruments
         /\ Sf2.name d = Sf2.inst_name inst
         /\ Forall2 (fun sb zone => sf2_zone_of true sb.1 sb.2 zone)
              (sampled_bags inst) (Sf2.samples d).
Proof.
  intros run patches.
  assert (Hrun : run = (inr (Sf2.Fresh patches), run.2)) by (vm_compute; reflexivity).
  destruct (patches !! 0%nat) as [[k d]|] eqn:Hp;
    [|vm_compute in Hp; discriminate Hp].
  exists k, d. split; [reflexivity|].
  exact (sf22soundJson_zones_follow_sampled_bags Demo.E "d/x.sf2" true false
           Demo.pianos run.2 patches k d Hrun (list_elem_of_lookup_2 _ _ _ Hp)).
Defined.

Lemma sf22soundJson_patch_file_witness :
  let run := sf22soundJson Demo.E "d/x.sf2" true false Demo.pianos in
  let patches := match run.1 with inr (Sf2.Fresh p) => p | _ => [] end in
  exists k d,
    patches !! 0%nat = Some (k, d)
    /\ exists out, Sf2.outFilename d = Some out /\ is_Some (files run.2 !! out).
Proof.
  intros run patches.
  assert (Hrun : run = (inr (Sf2.Fresh patches), run.2)) by (vm_compute; reflexivity).
  destruct (patches !! 0%nat) as [[k d]|] eqn:Hp;
    [|vm_compute in Hp; discriminate Hp].
  exists k, d. split; [reflexivity|].
  exact (sf22soundJson_patch_file_exists Demo.E "d/x.sf2" true false
           Demo.pianos run.2 patches k d Hrun (list_elem_of_lookup_2 _ _ _ Hp)).
Defined.

(** X15.  When a container conversion answers from the JSON files already in
    the output directory, [force] was off, a [.json] entry is listed in
    that directory, and no file and no macro was written. *)
Theorem sf22soundJson_cached_run_writes_nothing
    (E : Externals) (inFilename : string) (compress force : bool) (w w' : world)
    (patches : pydict pyval) :
  sf22soundJson E inFilename compress force w = (inr (Sf2.Cached patches), w') ->
  force = false
  /\ files w' = files w
  /\ replaceDict_default w' = replaceDict_default w
  /\ exists json_file,
       json_file ∈ listdir_order E
                     (OsPath.entries_in w' (OsPath.splitext inFilename).1)
       /\ PyStr.endswith json_file ".json" = true.
Proof.
  unfold sf22soundJson.
  intros (bytes & w1 & Hread & H)%bind_inr.
  pose proof (read_file_same inFilename w) as Hw1. rewrite Hread in Hw1.
  cbn in Hw1. unfold same_world in Hw1. subst w1.
  apply bind_inr in H as (sf2 & w2 & [_ ->]%lift_inr & H).
  apply bind_inr in H as ([] & w3 & Hmk & H).
  pose proof (makedirs_files (OsPath.splitext inFilename).1 w) as [Hf Ht].
  rewrite Hmk in Hf, Ht. cbn in Hf, Ht.
  apply bind_inr in H as (existing & w4 & Hload & H).
  destruct force.
  { injection Hload as <- <-. cbn in H. destruct (unique_names ∅ sf2); [done|].
    apply bind_inr in H as (? & ? & _ & H).
    by apply fmap_inr in H as (? & _ & ?). }
  pose proof (load_existing_same E (OsPath.splitext inFilename).1 w3) as Hw4.
  rewrite Hload in Hw4. cbn in Hw4. unfold same_world in Hw4. subst w4.
  destruct existing as [cached|].
  2:{ destruct (unique_names ∅ sf2); [done|].
      apply bind_inr in H as (? & ? & _ & H).
      by apply fmap_inr in H as (? & _ & ?). }
  injection H as <- <-. split; [done|]. split; [done|]. split; [done|].
  unfold load_existing in Hload.
  apply bind_inr in Hload as (entries & w5 & Hls & Hload).
  pose proof (listdir_same E (OsPath.splitext inFilename).1 w3) as Hw5.
  rewrite Hls in Hw5. cbn in Hw5. unfold same_world in Hw5. subst w5.
  assert (Hentries : entries = listdir_order E
                       (OsPath.entries_in w3 (OsPath.splitext inFilename).1)).
  { unfold listdir in Hls.
    destruct (OsPath.isdir_in w3 _); [by injection Hls as <-|].
    by destruct (OsPath.isfile_in w3 _). }
  destruct (merge_sort str_le _) as [|f fs] eqn:Hsort; [done|].
  exists f. rewrite <- Hentries.
  assert (Hin : f ∈ filter (fun f => Is_true (PyStr.endswith f ".json")) entries).
  { rewrite <- (merge_sort_Permutation str_le), Hsort. by left. }
  apply list_elem_of_filter in Hin as [Hend Hin]. split; [done|].
  by apply Is_true_true.
Qed.

Lemma sf22soundJson_cached_witness :
  let first := sf22soundJson Demo.E "d/x.sf2" true false Demo.pianos in
  let second := sf22soundJson Demo.E "d/x.sf2" true false first.2 in
  let patches := match second.1 with inr (Sf2.Cached p) => p | _ => [] end in
  second = (inr (Sf2.Cached patches), second.2)
  /\ files second.2 = files first.2
  /\ replaceDict_default second.2 = replaceDict_default first.2.
Proof.
  intros first second patches.
  assert (Hrun : second = (inr (Sf2.Cached patches), second.2))
    by (vm_compute; reflexivity).
  split; [exact Hrun|].
  destruct (sf22soundJson_cached_run_writes_nothing Demo.E "d/x.sf2" true false
              first.2 second.2 patches Hrun) as (_ & Hf & Ht & _).
  split; [exact Hf | exact Ht].
Defined.

(** X16.  A container that cannot be opened or parsed makes the conversion
    raise before anything is created: the world is left as it was. *)
Theorem sf22soundJson_unreadable_container_changes_nothing
    (E : Externals) (inFilename : string) (compress force : bool) (w : world) :
  files w !! inFilename = None
  \/ (exists bytes e, files w !! inFilename = Some bytes /\ Sf2File E bytes = inl e) ->
  exists e, sf22soundJson E inFilename compress force w = (inl e, w).
Proof.
  unfold sf22soundJson. intros [Hnone|(bytes & e & Hb & He)].
  - unfold mbind at 1, M_bind, bind, OsPath.read_file. rewrite Hnone.
    destruct (OsPath.isdir_in w inFilename); by eexists.
  - erewrite bind_run; [|unfold OsPath.read_file; by rewrite Hb].
    erewrite bind_raise; [by eexists|]. unfold lift. by rewrite He.
Qed.

Lemma sf22soundJson_unreadable_witness :
  exists e, sf22soundJson Demo.E "d/none.sf2" true false Demo.pianos
            = (inl e, Demo.pianos).
Proof.
  apply (sf22soundJson_unreadable_container_changes_nothing Demo.E "d/none.sf2"
           true false Demo.pianos).
  left. vm_compute. reflexivity.
Defined.

(** X17.  The root key of a zone is the bag's, else the sample header's,
    else the sample's name read as an integer; when the patch is flagged as
    percussion the zone takes the running percussion index instead, which
    then advances by one. *)
Theorem processSf2Sample_root_key_and_percussion_index
    (E : Externals) (sample : Sf2.sample) (bag : Sf2.bag)
    (d d' : Sf2.soundJsonDict) (compress : bool) :
  processSf2Sample E sample bag d compress = inr d' ->
  exists zone root,
    Sf2.samples d' = Sf2.samples d ++ [zone]
    /\ sf2_root_key sample bag = Some root
    /\ PyDict.get "pitch_keycenter" zone
       = Some (PInt (if (Sf2.percussion d =? 0)%Z then root
                     else Sf2.percussiveSampleIndex d))
    /\ Sf2.percussiveSampleIndex d'
       = (if (Sf2.percussion d =? 0)%Z then Sf2.percussiveSampleIndex d
          else Sf2.percussiveSampleIndex d + 1)%Z.
Proof.
  unfold processSf2Sample.
  intros (ys & _ & H)%result_bind_inr.
  apply result_bind_inr in H as (audio & _ & H).
  apply result_bind_inr in H as (pitch & Hpitch & H).
  apply result_bind_inr in H as (peak & _ & H).
  injection H as <-. cbn [Sf2.samples Sf2.percussiveSampleIndex].
  assert (Hroot : sf2_root_key sample bag = Some pitch).
  { unfold sf2_root_key.
    destruct (Sf2.base_note bag); [by injection Hpitch as ->|].
    destruct (Sf2.original_pitch sample); [by injection Hpitch as ->|].
    by destruct (PyStr.to_int (Sf2.sample_name sample)); [injection Hpitch as ->|]. }
  eexists _, pitch. split; [reflexivity|]. split; [exact Hroot|].
  destruct (Sf2.percussion d =? 0)%Z; cbn [negb]; (split; [|reflexivity]).
  all: destruct (Sf2.start_loop sample); try destruct (negb (Sf2.loop d =? 0)%Z);
    reflexivity.
Qed.

Lemma processSf2Sample_root_key_witness :
  let sample := {| Sf2.raw_sample_data := Demo.frames; Sf2.sample_rate := 22050;
                   Sf2.sample_name := "kick"; Sf2.original_pitch := Some 60%Z;
                   Sf2.start_loop := None; Sf2.end_loop := 0; Sf2.start := 0 |} in
  let bag := {| Sf2.bag_sample := Some sample; Sf2.base_note := Some 36%Z |} in
  let d := {| Sf2.source := "sf2"; Sf2.displayName := "Kit"; Sf2.name := "Kit";
              Sf2.percussion := 1; Sf2.percussiveSampleIndex := 45; Sf2.loop := 0;
              Sf2.success := true; Sf2.path := []; Sf2.samples := [];
              Sf2.outFilename := None |} in
  exists d' zone root,
    processSf2Sample Demo.E sample bag d false = inr d'
    /\ Sf2.samples d' = [zone]
    /\ sf2_root_key sample bag = Some root
    /\ PyDict.get "pitch_keycenter" zone = Some (PInt 45)
    /\ Sf2.percussiveSampleIndex d' = 46%Z.
Proof.
  intros sample bag d.
  destruct (processSf2Sample Demo.E sample bag d false) as [e|d'] eqn:Hrun;
    [vm_compute in Hrun; discriminate Hrun|].
  destruct (processSf2Sample_root_key_and_percussion_index Demo.E sample bag d d' false Hrun)
    as (zone & root & Hs & Hroot & Hpitch & Hindex).
  exists d', zone, root. split; [reflexivity|].
  split; [exact Hs|]. split; [exact Hroot|]. split; [exact Hpitch|exact Hindex].
Defined.

(** X18.  When the patch is flagged as looping and the sample has a loop
    start, the zone carries the loop points, rebased to the sample's start
    when the loop starts at or after it; either way the loop keeps its
    length. *)
Theorem processSf2Sample_loop_points_keep_length
    (E : Externals) (sample : Sf2.sample) (bag : Sf2.bag)
    (d d' : Sf2.soundJsonDict) (compress : bool) (start_loop : Z) :
  processSf2Sample E sample bag d compress = inr d' ->
  Sf2.loop d ≠ 0%Z ->
  Sf2.start_loop sample = Some start_loop ->
  exists zone loop_start loop_end,
    Sf2.samples d' = Sf2.samples d ++ [zone]
    /\ PyDict.get "loop_start" zone = Some (PInt loop_start)
    /\ PyDict.get "loop_end" zone = Some (PInt loop_end)
    /\ PyDict.get "loop" zone = Some (PInt 1)
    /\ PyDict.get "loop_mode" zone = Some (PStr "loop_continuous")
    /\ (loop_end - loop_start = Sf2.end_loop sample - start_loop)%Z
    /\ loop_start = (if (start_loop <? Sf2.start sample)%Z then start_loop
                     else start_loop - Sf2.start sample)%Z.
Proof.
  unfold processSf2Sample.
  intros (ys & _ & H)%result_bind_inr Hloop Hstart.
  apply result_bind_inr in H as (audio & _ & H).
  apply result_bind_inr in H as (pitch & _ & H).
  apply result_bind_inr in H as (peak & _ & H).
  injection H as <-. cbn [Sf2.samples]. rewrite Hstart.
  apply Z.eqb_neq in Hloop. rewrite Hloop. cbn [negb].
  eexists _, _, _. split; [reflexivity|].
  destruct (negb (Sf2.percussion d =? 0)%Z).
  all: split; [reflexivity|]; split; [reflexivity|]; split; [reflexivity|];
    split; [reflexivity|]; split; [|reflexivity].
  all: destruct (Z.ltb_spec start_loop (Sf2.start sample)),
         (Z.leb_spec (Sf2.start sample) start_loop); lia.
Qed.

Lemma processSf2Sample_loop_points_witness :
  let sample := {| Sf2.raw_sample_data := Demo.frames; Sf2.sample_rate := 22050;
                   Sf2.sample_name := "pad"; Sf2.original_pitch := Some 60%Z;
                   Sf2.start_loop := Some 108%Z; Sf2.end_loop := 124;
                   Sf2.start := 100 |} in
  let bag := {| Sf2.bag_sample := Some sample; Sf2.base_note := None |} in
  let d := {| Sf2.source := "sf2"; Sf2.displayName := "Pad"; Sf2.name := "Pad";
              Sf2.percussion := 0; Sf2.percussiveSampleIndex := 45; Sf2.loop := 1;
              Sf2.success := true; Sf2.path := []; Sf2.samples := [];
              Sf2.outFilename := None |} in
  exists d' zone,
    processSf2Sample Demo.E sample bag d false = inr d'
    /\ Sf2.samples d' = [zone]
    /\ PyDict.get "loop_start" zone = Some (PInt 8)
    /\ PyDict.get "loop_end" zone = Some (PInt 24).
Proof.
  intros sample bag d.
  destruct (processSf2Sample Demo.E sample bag d false) as [e|d'] eqn:Hrun;
    [vm_compute in Hrun; discriminate Hrun|].
  destruct (processSf2Sample_loop_points_keep_length Demo.E sample bag d d' false 108
              Hrun ltac:(vm_compute; discriminate) eq_refl)
    as (zone & loop_start & loop_end & Hs & H1 & H2 & _ & _ & Hlen & Hstart).
  exists d', zone. split; [reflexivity|]. split; [exact Hs|].
  vm_compute in Hstart. subst loop_start.
  assert (loop_end = 24%Z) as -> by (cbn [Sf2.end_loop sample] in Hlen; lia).
  split; [exact H1 | exact H2].
Defined.

(** X19.  The mapping a fresh container conversion returns has, up to the
    order of completion, one key for every distinct name among the
    instruments that are not the end marker: the input path, an underscore
    and the name.  Instruments that share a name share the entry. *)
Theorem sf22soundJson_returns_one_patch_per_distinct_name
    (E : Externals) (inFilename : string) (compress force : bool) (w w' : world)
    (patches : pydict Sf2.soundJsonDict) :
  sf22soundJson E inFilename compress force w = (inr (Sf2.Fresh patches), w') ->
  exists bytes instruments,
    files w !! inFilename = Some bytes
    /\ Sf2File E bytes = inr instruments
    /\ PyDict.keys patches
       ≡ₚ (fun n => (inFilename ++ "_" ++ n)%string)
            <$> remove_dups
                  (Sf2.inst_name
                     <$> filter (fun i => Sf2.inst_name i ≠ "EOI") instruments).
Proof.
  unfold sf22soundJson.
  intros (bytes & w1 & Hread & H)%bind_inr.
  apply bind_inr in H as (sf2 & w2 & [Hsf2 ->]%lift_inr & H).
  exists bytes, sf2. split.
  { unfold OsPath.read_file in Hread.
    destruct (files w !! inFilename); [|by destruct (OsPath.isdir_in _ _)].
    by injection Hread as ->. }
  split; [done|].
  apply bind_inr in H as ([] & w3 & _ & H).
  apply bind_inr in H as (existing & w4 & _ & H).
  destruct existing as [cached|]; [done|].
  rewrite <- unique_names_instruments with (name_counts := ∅).
  destruct (unique_names ∅ sf2) as [|iu instruments] eqn:Hnames.
  { by injection H as <- _. }
  rewrite <- Hnames in *. clear Hnames iu instruments.
  set (instruments := unique_names ∅ sf2) in *.
  apply bind_inr in H as (results & w5 & Hpool & H).
  apply fmap_inr in H as (patches' & [Hc _]%lift_inr & [= ->]).
  apply collect_all_ok in Hc as (kds & -> & ->).
  apply run_pool_order in Hpool. rewrite length_fmap in Hpool.
  set (key := fun n : string => (inFilename ++ "_" ++ n)%string).
  destruct (keys_update [] kds (NoDup_nil_2)) as [Hnd Hel].
  assert (Hkeys : forall k, k ∈ kds.*1 <-> k ∈ key <$> (Sf2.inst_name <$> instruments.*1)).
  { intros k. split.
    - intros ([k' d] & -> & Hkd)%list_elem_of_fmap.
      apply (list_elem_of_fmap_2 (@inr exn _)) in Hkd.
      apply list_elem_of_lookup in Hkd as [j Hj].
      destruct (Forall2_lookup_r _ _ _ _ _ Hpool Hj)
        as (i & Hi & task & wa & wb & Htask & Hrun).
      apply list_lookup_fmap_Some in Htask as ([inst un] & -> & Hiu).
      apply process_instrument_inr in Hrun as [-> _].
      apply list_elem_of_fmap. exists (Sf2.inst_name inst). split; [done|].
      apply list_elem_of_fmap. exists inst. split; [done|].
      apply list_elem_of_fmap. exists (inst, un). split; [done|].
      by eapply list_elem_of_lookup_2.
    - intros (n & -> & (inst & -> & ([inst' un] & [= ->] & Hiu)%list_elem_of_fmap)
                          %list_elem_of_fmap)%list_elem_of_fmap.
      apply list_elem_of_lookup in Hiu as [i Hi].
      assert (Hin : i ∈ completion_order E (length instruments)).
      { rewrite (completion_order_perm E), elem_of_seq.
        apply lookup_lt_Some in Hi. lia. }
      apply list_elem_of_lookup in Hin as [j Hj].
      destruct (Forall2_lookup_l _ _ _ _ _ Hpool Hj)
        as (r & Hr & task & wa & wb & Htask & Hrun).
      rewrite list_lookup_fmap, Hi in Htask. injection Htask as <-.
      apply list_lookup_fmap_Some in Hr as ([k d] & -> & Hkd).
      apply process_instrument_inr in Hrun as [-> _].
      apply list_elem_of_fmap. exists (key (Sf2.inst_name inst'), d).
      split; [done|]. by eapply list_elem_of_lookup_2. }
  apply NoDup_Permutation; [done| |].
  - apply NoDup_fmap_2; [|apply NoDup_remove_dups].
    intros a b Hab. unfold key in Hab. by simplify_eq.
  - intros k. rewrite Hel, elem_of_nil, Hkeys, !list_elem_of_fmap.
    setoid_rewrite elem_of_remove_dups. setoid_rewrite list_elem_of_fmap.
    tauto.
Qed.

Lemma sf22soundJson_one_patch_per_name_witness :
  let run := sf22soundJson Demo.E "d/x.sf2" true false Demo.pianos in
  let patches := match run.1 with inr (Sf2.Fresh p) => p | _ => [] end in
  length patches = 1%nat
  /\ exists bytes instruments,
       files Demo.pianos !! "d/x.sf2" = Some bytes
       /\ Sf2File Demo.E bytes = inr instruments
       /\ PyDict.keys patches
          ≡ₚ (fun n => ("d/x.sf2" ++ "_" ++ n)%string)
               <$> remove_dups
                     (Sf2.inst_name
                        <$> filter (fun i => Sf2.inst_name i ≠ "EOI") instruments).
Proof.
  intros run patches.
  assert (Hrun : run = (inr (Sf2.Fresh patches), run.2)) by (vm_compute; reflexivity).
  split; [vm_compute; reflexivity|].
  exact (sf22soundJson_returns_one_patch_per_distinct_name Demo.E "d/x.sf2" true false
           Demo.pianos run.2 patches Hrun).
Defined.

(** ** The text pipeline *)

Lemma process_region_zone E compress d sampleDict w d' w' :
  process_region E compress d sampleDict w = (inr d', w') ->
  d' = d
  \/ exists zone, d' = Sfz.set_samples (Sfz.samples d ++ [zone]) d
                  /\ sfz_zone_ok compress zone.
Proof.
  unfold process_region.
  intros (sample & w1 & [Hsample ->]%lift_inr & H)%bind_inr.
  apply result_bind_inr in Hsample as (v & Hv & Hstr).
  destruct (PyDict.get "sample" (inherit d sampleDict)) as [v'|] eqn:Hget; [|done].
  injection Hv as ->. destruct v; try done. injection Hstr as ->.
  apply bind_inr in H as (found & w2 & Hfound & H). injection Hfound as <- <-.
  destruct (OsPath.exists_in w _); cbn [negb] in H.
  2:{ left. by injection H as <- _. }
  right.
  apply bind_inr in H as (content & w3 & _ & H).
  apply bind_inr in H as (loaded & w4 & _ & H).
  apply bind_inr in H as (gain & w5 & _ & H).
  apply bind_inr in H as (audio & w6 & Haudio & H).
  apply bind_inr in H as (zone & w7 & [Hz _]%lift_inr & H).
  injection H as <- _. exists zone. split; [done|].
  apply resolve_pitch_inr in Hz as [z ->].
  assert (Hfmt : audio.2 = if compress then "mp3" else "wav").
  { destruct compress.
    - apply bind_inr in Haudio as (a & ? & _ & Hret). by injection Hret as <- _.
    - apply bind_inr in Haudio as (a & ? & _ & Hret). by injection Hret as <- _. }
  split.
  - exists (Sfz.samplesLoadPoint d), sample.
    rewrite !get_set_ne by done. rewrite !get_update.
    cbn [rev app PyDict.get bool_decide]. rewrite !get_set_ne by done.
    rewrite get_set_eq. by rewrite Hget.
  - exists gain. rewrite get_set_ne by done. rewrite get_update.
    cbn [rev app PyDict.get bool_decide]. by rewrite get_set_eq.
  - exists (length loaded.1). rewrite get_set_ne by done. by rewrite get_update.
  - exists loaded.2. rewrite get_set_ne by done. by rewrite get_update.
  - rewrite get_set_ne by done. rewrite get_update.
    cbn [rev app PyDict.get bool_decide]. by rewrite Hfmt.
  - exists audio.1. rewrite get_set_ne by done. by rewrite get_update.
  - exists z. by rewrite get_set_eq.
Qed.

(** What the section loop keeps of the patch: the header fields, and the
    completeness of the zones. *)
Lemma process_section_shape E compress basedir d section w d' w' :
  process_section E compress basedir d section w = (inr d', w') ->
  Sfz.displayName d' = Sfz.displayName d /\ Sfz.path d' = Sfz.path d
  /\ (Forall (sfz_zone_ok compress) (Sfz.samples d) ->
      Forall (sfz_zone_ok compress) (Sfz.samples d')).
Proof.
  destruct section as [sectionName sampleDict]. unfold process_section.
  destruct (String.eqb sectionName "region").
  { intros [->|(zone & -> & Hz)]%process_region_zone; [done|].
    split; [done|]. split; [done|]. intros Hall. cbn [Sfz.samples Sfz.set_samples].
    apply Forall_app. split; [done|]. by apply Forall_singleton. }
  case_bool_decide. { by intros [= <- _]. }
  destruct (String.eqb sectionName "control").
  { intros [Hc _]%lift_inr. unfold process_control in Hc.
    destruct (_ || _); [|by injection Hc as <-].
    destruct (default _ _); try done. by injection Hc as <-. }
  case_bool_decide; [by intros [= <- _] | done].
Qed.

Lemma process_sections_shape E compress basedir sections d w d' w' :
  for_each (process_section E compress basedir) sections d w = (inr d', w') ->
  Sfz.displayName d' = Sfz.displayName d /\ Sfz.path d' = Sfz.path d
  /\ (Forall (sfz_zone_ok compress) (Sfz.samples d) ->
      Forall (sfz_zone_ok compress) (Sfz.samples d')).
Proof.
  intros H.
  apply (for_each_invariant
           (fun s => Sfz.displayName s = Sfz.displayName d /\ Sfz.path s = Sfz.path d
                     /\ (Forall (sfz_zone_ok compress) (Sfz.samples d) ->
                         Forall (sfz_zone_ok compress) (Sfz.samples s)))
           _ _ _ _ _ _ ) in H; [done| |done].
  intros s x w1 s' w2 (H1 & H2 & H3) Hstep.
  apply process_section_shape in Hstep as (G1 & G2 & G3).
  split; [congruence|]. split; [congruence | auto].
Qed.

(** The document [emit] returns differs from the patch it was given in the
    success flag at most. *)
Lemma emit_doc E filename outFilename d0 w key d w' :
  emit E filename outFilename d0 w = (inr (Sfz.RDoc key d), w') ->
  key = filename /\ (d = d0 \/ d = Sfz.set_success false d0).
Proof.
  intros (-> & soundJSON & written & _ & _ & _ & Hd)%emit_inr. split; [done|].
  destruct (files w' !! _); [|by left].
  case_bool_decide; [by left | by right].
Qed.

(** X20.  A document returned by the text pipeline is keyed by the input
    path; its display name is the last path component without its last four
    characters, its path the split of the input path without its last four
    characters; and every zone carries the sample name and file, a gain,
    length, rate, format ([mp3] exactly when compressing, else [wav]),
    audio data and an integer [pitch_keycenter]. *)
Theorem sfz2soundJson_document_is_complete
    (E : Externals) (fuel : nat) (filename : string) (compress : bool)
    (replaceDict : option (pydict string)) (w w' : world)
    (key : string) (d : Sfz.soundJsonDict) :
  sfz2soundJson E fuel filename compress replaceDict w = (inr (Sfz.RDoc key d), w') ->
  key = filename
  /\ Sfz.displayName d = PyStr.drop_last 4 (OsPath.split filename).2
  /\ Sfz.path d = OsPath.split (PyStr.drop_last 4 filename)
  /\ Forall (sfz_zone_ok compress) (Sfz.samples d).
Proof.
  intros (sections & d0 & w0 & Hloop & Hemit)%sfz2soundJson_doc.
  apply process_sections_shape in Hloop as (H1 & H2 & H3).
  apply emit_doc in Hemit as [-> Hd]. split; [done|].
  assert (Hsame : Sfz.displayName d = Sfz.displayName d0 /\ Sfz.path d = Sfz.path d0
                  /\ Sfz.samples d = Sfz.samples d0)
    by (by destruct Hd as [->| ->]).
  destruct Hsame as (-> & -> & ->). rewrite H1, H2.
  split; [done|]. split; [done|]. apply H3. constructor.
Qed.

Lemma sfz2soundJson_document_witness :
  let run := sfz2soundJson Demo.E 10 "d/a.sfz" false None Demo.zones in
  let d := match run.1 with
           | inr (Sfz.RDoc _ d) => d
           | _ => new_soundJsonDict EmptyString
           end in
  Sfz.displayName d = "a"
  /\ Sfz.path d = ("d", "a")
  /\ length (Sfz.samples d) = 1%nat
  /\ Forall (sfz_zone_ok false) (Sfz.samples d).
Proof.
  intros run d.
  assert (Hrun : run = (inr (Sfz.RDoc "d/a.sfz" d), run.2)) by (vm_compute; reflexivity).
  destruct (sfz2soundJson_document_is_complete Demo.E 10 "d/a.sfz" false None
              Demo.zones run.2 "d/a.sfz" d Hrun) as (_ & H1 & H2 & H3).
  split; [exact H1|]. split; [exact H2|]. split; [vm_compute; reflexivity | exact H3].
Defined.

Lemma set_success_back d0 :
  Sfz.success d0 = true -> Sfz.set_success true (Sfz.set_success false d0) = d0.
Proof. destruct d0; cbn. by intros ->. Qed.

(** X21.  Once the text pipeline has returned a document, any later
    conversion of the same file, whatever its options, does no work: it
    returns, as a string, the text the first one wrote, and changes
    nothing. *)
Theorem sfz2soundJson_second_run_returns_written_text
    (E : Externals) (fuel : nat) (filename : string) (compress : bool)
    (replaceDict : option (pydict string)) (w w' : world)
    (key : string) (d : Sfz.soundJsonDict) :
  sfz2soundJson E fuel filename compress replaceDict w = (inr (Sfz.RDoc key d), w') ->
  exists written,
    json_dumps E (Some 2%nat) true
      (Sfz.retval_to_py (Sfz.RDoc filename (Sfz.set_success true d))) = inr written
    /\ forall fuel2 compress2 replaceDict2,
         sfz2soundJson E (S fuel2) filename compress2 replaceDict2 w'
         = (inr (Sfz.RText written), w').
Proof.
  intros (sections & d0 & w0 & Hloop & Hemit)%sfz2soundJson_doc.
  apply process_sections_keep in Hloop as [Hs _]. cbn in Hs.
  pose proof (emit_doc _ _ _ _ _ _ _ _ Hemit) as [_ Hd].
  apply emit_inr in Hemit as (_ & soundJSON & written & _ & Hw & Hout & _).
  assert (Hd0 : Sfz.set_success true d = d0).
  { destruct Hd as [->| ->]; [by apply set_success_true | by apply set_success_back]. }
  exists written. rewrite Hd0. split; [exact Hw|].
  intros fuel2 compress2 replaceDict2. cbn [sfz2soundJson].
  assert (Hex : OsPath.exists_in w' (PyStr.drop_last 4 filename ++ ".json") = true).
  { unfold OsPath.exists_in, OsPath.isfile_in. rewrite Hout.
    rewrite bool_decide_eq_true_2; [done | eauto]. }
  rewrite (bind_run _ _ w' true w') by (unfold OsPath.exists_, gets; by rewrite Hex).
  cbv iota. unfold fmap, M_fmap, bind, OsPath.read_file. by rewrite Hout.
Qed.

Lemma sfz2soundJson_second_run_witness :
  let first := sfz2soundJson Demo.E 10 "d/a.sfz" true None Demo.zones in
  let d := match first.1 with
           | inr (Sfz.RDoc _ d) => d
           | _ => new_soundJsonDict EmptyString
           end in
  exists written,
    files first.2 !! "d/a.json" = Some written
    /\ sfz2soundJson Demo.E 1 "d/a.sfz" false (Some []) first.2
       = (inr (Sfz.RText written), first.2).
Proof.
  intros first d.
  assert (Hrun : first = (inr (Sfz.RDoc "d/a.sfz" d), first.2))
    by (vm_compute; reflexivity).
  destruct (sfz2soundJson_second_run_returns_written_text Demo.E 10 "d/a.sfz" true None
              Demo.zones first.2 "d/a.sfz" d Hrun) as (written & Hw & Hsecond).
  exists written. split; [|apply Hsecond].
  vm_compute in Hw. injection Hw as <-. vm_compute. reflexivity.
Defined.

(** A section that raises, after sections that were processed, ends the
    conversion with its exception in the world the preprocessor left. *)
Lemma sfz2soundJson_section_raises E fuel filename compress replaceDict w w1
    text pre before section after st e :
  OsPath.exists_in w (PyStr.drop_last 4 filename ++ ".json") = false ->
  files w !! filename = Some text ->
  for_each (preprocess_line E (fun f t => sfz2soundJson E fuel f compress (Some t))
              (match replaceDict with None => true | Some _ => false end)
              (OsPath.dirname filename))
    (PyStr.split text nl)
    (EmptyString, match replaceDict with
                  | Some t => t
                  | None => replaceDict_default w
                  end) w = (inr pre, w1) ->
  sfz_parse E pre.1 = inr (before ++ section :: after) ->
  for_each (process_section E compress (OsPath.dirname filename)) before
    (new_soundJsonDict filename) w1 = (inr st, w1) ->
  process_section E compress (OsPath.dirname filename) st section w1 = (inl e, w1) ->
  sfz2soundJson E (S fuel) filename compress replaceDict w = (inl e, w1).
Proof.
  intros Hout Hfile Hpre Hparse Hbefore Hsection. cbn [sfz2soundJson].
  rewrite (bind_run _ _ w false w) by (unfold OsPath.exists_, gets; by rewrite Hout).
  cbv iota.
  assert (Hex : OsPath.exists_in w filename = true).
  { unfold OsPath.exists_in, OsPath.isfile_in. rewrite Hfile.
    rewrite bool_decide_eq_true_2; [done | eauto]. }
  rewrite (bind_run _ _ w true w) by (unfold OsPath.exists_, gets; by rewrite Hex).
  cbn [negb].
  rewrite (bind_run _ _ w text w) by (unfold OsPath.read_file; by rewrite Hfile).
  rewrite (bind_run _ _ w (match replaceDict with
                           | Some t => t
                           | None => replaceDict_default w
                           end) w) by (by destruct replaceDict).
  rewrite (bind_run _ _ w pre w1) by exact Hpre.
  rewrite (bind_run _ _ w1 (before ++ section :: after) w1)
    by (unfold lift; by rewrite Hparse).
  apply bind_raise. rewrite for_each_app.
  rewrite (bind_run _ _ w1 st w1) by exact Hbefore.
  cbn [for_each]. apply bind_raise. exact Hsection.
Qed.

Lemma process_section_unknown E compress basedir st sectionName sampleDict w :
  sectionName ∉ known_headers ->
  process_section E compress basedir st (sectionName, sampleDict) w
  = (inl (Exception ("Unknown sfz header '" ++ sectionName ++ "'")), w).
Proof.
  unfold known_headers. rewrite !not_elem_of_cons.
  intros (H1 & H2 & H3 & H4 & H5 & H6 & H7 & H8 & _). unfold process_section.
  destruct (String.eqb_spec sectionName "region") as [?|_]; [done|].
  rewrite bool_decide_false.
  2:{ rewrite !not_elem_of_cons. repeat split; try done. apply not_elem_of_nil. }
  destruct (String.eqb_spec sectionName "control") as [?|_]; [done|].
  rewrite bool_decide_false; [done|].
  rewrite !not_elem_of_cons. repeat split; try done. apply not_elem_of_nil.
Qed.

(** X22.  A section whose name is none of the eight accepted ones ends the
    conversion with [Exception("Unknown sfz header '<name>'")], once the
    sections before it have been processed; nothing is written after the
    preprocessor. *)
Theorem sfz2soundJson_unknown_header_aborts
    (E : Externals) (fuel : nat) (filename : string) (compress : bool)
    (replaceDict : option (pydict string)) (w w1 : world)
    (text : string) (pre : string * pydict string)
    (before after : list (string * pydict pyval))
    (sectionName : string) (sampleDict : pydict pyval) (st : Sfz.soundJsonDict) :
  let outFilename := (PyStr.drop_last 4 filename ++ ".json")%string in
  let table := match replaceDict with
               | Some t => t
               | None => replaceDict_default w
               end in
  let shared := match replaceDict with None => true | Some _ => false end in
  let basedir := OsPath.dirname filename in
  OsPath.exists_in w outFilename = false ->
  files w !! filename = Some text ->
  for_each (preprocess_line E (fun f t => sfz2soundJson E fuel f compress (Some t))
              shared basedir)
    (PyStr.split text nl) (EmptyString, table) w = (inr pre, w1) ->
  sfz_parse E pre.1 = inr (before ++ (sectionName, sampleDict) :: after) ->
  for_each (process_section E compress basedir) before (new_soundJsonDict filename) w1
    = (inr st, w1) ->
  sectionName ∉ known_headers ->
  sfz2soundJson E (S fuel) filename compress replaceDict w
  = (inl (Exception ("Unknown sfz header '" ++ sectionName ++ "'")), w1).
Proof.
  intros outFilename table shared basedir Hout Hfile Hpre Hparse Hbefore Hname.
  eapply sfz2soundJson_section_raises; try eassumption.
  by apply process_section_unknown.
Qed.

Lemma sfz2soundJson_unknown_header_witness :
  let w := Demo.world_of [("d/u.sfz", "<region> sample=a.wav <effect> bus=main")] ["d"] in
  sfz2soundJson Demo.E 10 "d/u.sfz" true None w
  = (inl (Exception "Unknown sfz header 'effect'"), w).
Proof.
  intros w.
  apply (sfz2soundJson_unknown_header_aborts Demo.E 9 "d/u.sfz" true None w w
           "<region> sample=a.wav <effect> bus=main"
           ("<region> sample=a.wav <effect> bus=main" ++ nl, [])%string
           [("region", [("sample", PStr "a.wav")])] [] "effect" [("bus", PStr "main")]
           (new_soundJsonDict "d/u.sfz")).
  all: try (vm_compute; reflexivity).
  unfold known_headers. intros Hin.
  repeat (apply elem_of_cons in Hin as [Hin|Hin]; [discriminate Hin|]).
  by apply elem_of_nil in Hin.
Defined.

Lemma process_region_no_sample E compress st sampleDict w :
  PyDict.get "sample" (inherit st sampleDict) = None ->
  process_region E compress st sampleDict w = (inl (KeyError "sample"), w).
Proof. intros H. unfold process_region. by rewrite H. Qed.

(** X23.  A region that has no [sample] attribute, of its own or inherited,
    ends the conversion with [KeyError('sample')]. *)
Theorem sfz2soundJson_region_without_sample_aborts
    (E : Externals) (fuel : nat) (filename : string) (compress : bool)
    (replaceDict : option (pydict string)) (w w1 : world)
    (text : string) (pre : string * pydict string)
    (before after : list (string * pydict pyval))
    (sampleDict : pydict pyval) (st : Sfz.soundJsonDict) :
  let outFilename := (PyStr.drop_last 4 filename ++ ".json")%string in
  let table := match replaceDict with
               | Some t => t
               | None => replaceDict_default w
               end in
  let shared := match replaceDict with None => true | Some _ => false end in
  let basedir := OsPath.dirname filename in
  OsPath.exists_in w outFilename = false ->
  files w !! filename = Some text ->
  for_each (preprocess_line E (fun f t => sfz2soundJson E fuel f compress (Some t))
              shared basedir)
    (PyStr.split text nl) (EmptyString, table) w = (inr pre, w1) ->
  sfz_parse E pre.1 = inr (before ++ ("region", sampleDict) :: after) ->
  for_each (process_section E compress basedir) before (new_soundJsonDict filename) w1
    = (inr st, w1) ->
  PyDict.get "sample" (inherit st sampleDict) = None ->
  sfz2soundJson E (S fuel) filename compress replaceDict w
  = (inl (KeyError "sample"), w1).
Proof.
  intros outFilename table shared basedir Hout Hfile Hpre Hparse Hbefore Hsample.
  eapply sfz2soundJson_section_raises; try eassumption.
  cbn [process_section]. change (String.eqb "region" "region") with true. cbv iota.
  by apply process_region_no_sample.
Qed.

Lemma sfz2soundJson_region_without_sample_witness :
  let w := Demo.world_of [("d/n.sfz", "<group> volume=1 <region> pitch_keycenter=60")]
             ["d"] in
  sfz2soundJson Demo.E 10 "d/n.sfz" true None w = (inl (KeyError "sample"), w).
Proof.
  intros w.
  apply (sfz2soundJson_region_without_sample_aborts Demo.E 9 "d/n.sfz" true None w w
           "<group> volume=1 <region> pitch_keycenter=60"
           ("<group> volume=1 <region> pitch_keycenter=60" ++ nl, [])%string
           [("group", [("volume", PStr "1")])] [] [("pitch_keycenter", PStr "60")]
           (Sfz.set_section "group" [("volume", PStr "1")] (new_soundJsonDict "d/n.sfz"))).
  all: vm_compute; reflexivity.
Defined.

(** X24.  The shared macro table is changed by top-level text conversions
    only: every container conversion, and every text conversion that is
    given a table of its own and meets no inclusion directive, leaves it as
    it was, however the call ends. *)
Theorem shared_table_is_left_by_container_and_own_table_runs
    (E : Externals) (fuel : nat) (filename : string) (compress force : bool)
    (table : pydict string) (w : world) :
  replaceDict_default (sf22soundJson E filename compress force w).2
  = replaceDict_default w
  /\ ((forall text, files w !! filename = Some text ->
                    no_inclusions table (PyStr.split text nl) = true) ->
      replaceDict_default (sfz2soundJson E fuel filename compress (Some table) w).2
      = replaceDict_default w).
Proof.
  split; [apply sf22soundJson_table|].
  intros _. apply sfz2soundJson_own_table.
Qed.

Lemma shared_table_own_table_witness :
  let w := set_replaceDict_default [("$K", "60")] Demo.macros in
  replaceDict_default (sfz2soundJson Demo.E 10 "d/m.sfz" true (Some []) w).2
  = [("$K", "60")].
Proof.
  intros w.
  apply (proj2 (shared_table_is_left_by_container_and_own_table_runs
                  Demo.E 10 "d/m.sfz" true false [] w)).
  intros text Htext. vm_compute in Htext. injection Htext as <-.
  vm_compute. reflexivity.
Defined.

Lemma has_char_app c a b :
  PyStr.has_char c (a ++ b) = PyStr.has_char c a || PyStr.has_char c b.
Proof.
  induction a as [|x a IH]; [done|]. rewrite string_app_cons.
  cbn [PyStr.has_char]. by rewrite IH, orb_assoc.
Qed.

Lemma has_char_substring c n m s :
  PyStr.has_char c s = false -> PyStr.has_char c (String.substring n m s) = false.
Proof.
  revert n m. induction s as [|x s IH]; intros n m Hs.
  - by destruct n, m.
  - cbn [PyStr.has_char] in Hs. apply orb_false_iff in Hs as [Hx Hs].
    destruct n as [|n]; cbn [String.substring].
    + destruct m as [|m]; [done|]. cbn [PyStr.has_char]. by rewrite Hx, IH.
    + by apply IH.
Qed.

Lemma cut_last_slash_none p :
  PyStr.has_char PyStr.SLASH p = false -> OsPath.cut_last_slash p = None.
Proof.
  induction p as [|c p IH]; [done|]. cbn [PyStr.has_char OsPath.cut_last_slash].
  intros [Hc Hp]%orb_false_iff. rewrite (IH Hp).
  unfold OsPath.is_slash, PyStr.ascii_eqb in *. by rewrite Ascii.eqb_sym, Hc.
Qed.

Lemma dirname_bare p : PyStr.has_char PyStr.SLASH p = false -> OsPath.dirname p = EmptyString.
Proof.
  intros Hp. unfold OsPath.dirname, OsPath.split. by rewrite cut_last_slash_none.
Qed.

Lemma makedirs_empty w :
  EmptyString ∉ dirs w ->
  OsPath.makedirs EmptyString w = (inl (FileNotFoundError EmptyString), w).
Proof.
  intros Hw. unfold OsPath.makedirs. cbn.
  unfold try_except, OsPath.mkdir, bind, OsPath.isdir, gets, OsPath.isdir_in. cbn.
  by rewrite bool_decide_false.
Qed.

Lemma toFile_bare E p v w w' :
  PyStr.has_char PyStr.SLASH p = false -> EmptyString ∉ dirs w ->
  toFile E p v w ≠ (inr tt, w').
Proof.
  intros Hp Hw H. unfold toFile in H.
  apply bind_inr in H as (text & w1 & [_ ->]%lift_inr & H).
  apply bind_inr in H as ([] & w2 & Hmk & _).
  rewrite dirname_bare in Hmk by done. by rewrite makedirs_empty in Hmk.
Qed.

(** A returned document comes from [emit], in a world that grew from the
    initial one. *)
Lemma sfz2soundJson_doc_world E fuel filename compress replaceDict w key d w' :
  sfz2soundJson E fuel filename compress replaceDict w = (inr (Sfz.RDoc key d), w') ->
  exists d0 w0,
    fs_grows w w0
    /\ emit E filename (PyStr.drop_last 4 filename ++ ".json") d0 w0
       = (inr (Sfz.RDoc key d), w').
Proof.
  destruct fuel as [|fuel]; [done|]. cbn [sfz2soundJson].
  intros (cached & w1 & Hc & H)%bind_inr. injection Hc as _ <-.
  destruct cached.
  { apply fmap_inr in H as (? & _ & ?). done. }
  apply bind_inr in H as (found & w2 & Hf & H). injection Hf as _ <-.
  destruct (negb found); [done|].
  apply bind_inr in H as (preprocFile & w3 & Hread & H).
  pose proof (read_file_same filename w) as Hw3. rewrite Hread in Hw3.
  cbn in Hw3. unfold same_world in Hw3. subst w3.
  apply bind_inr in H as (table & w4 & Ht & H).
  assert (w4 = w) as -> by (destruct replaceDict; by injection Ht as _ <-).
  apply bind_inr in H as (pre & w5 & Hpre & H).
  apply bind_inr in H as (sections & w6 & [_ ->]%lift_inr & H).
  apply bind_inr in H as (d0 & w7 & Hloop & H).
  pose proof (process_sections_same E compress (OsPath.dirname filename)
                sections (new_soundJsonDict filename) w5) as Hw.
  rewrite Hloop in Hw. simpl in Hw. red in Hw. subst w7.
  exists d0, w5. split; [|done].
  match type of Hpre with ?m w = _ => assert (Hr : respects fs_grows m) end.
  { apply respects_for_each; [apply _|]. intros st ogline.
    apply preprocess_line_respects; [apply _ | apply macro_grows |].
    intros f t. apply sfz2soundJson_grows. }
  specialize (Hr w). by rewrite Hpre in Hr.
Qed.

(** X25.  For an input path without a directory part the text pipeline
    never returns a document: the output directory it asks for is the empty
    path, which cannot be created, so the call that reaches the writer ends
    with its error. *)
Theorem sfz2soundJson_bare_filename_yields_no_document
    (E : Externals) (fuel : nat) (filename : string) (compress : bool)
    (replaceDict : option (pydict string)) (w w' : world)
    (key : string) (d : Sfz.soundJsonDict) :
  PyStr.has_char PyStr.SLASH filename = false ->
  EmptyString ∉ dirs w ->
  sfz2soundJson E fuel filename compress replaceDict w ≠ (inr (Sfz.RDoc key d), w').
Proof.
  intros Hbare Hw (d0 & w0 & Hgrow & Hemit)%sfz2soundJson_doc_world.
  unfold emit in Hemit.
  apply bind_inr in Hemit as ([] & w1 & Hfile & _).
  eapply toFile_bare; [| |exact Hfile].
  - rewrite has_char_app. apply orb_false_iff. split; [|done].
    by apply has_char_substring.
  - intros Hin. by apply Hw, (grows_no_empty_dir _ _ Hgrow).
Qed.

Lemma sfz2soundJson_bare_filename_witness :
  let w := Demo.world_of [("a.sfz", "<region> sample=a.wav pitch_keycenter=60");
                          ("a.wav", Demo.wav)] [] in
  sfz2soundJson Demo.E 10 "a.sfz" true None w
  = (inl (FileNotFoundError EmptyString), w)
  /\ forall key d w',
       sfz2soundJson Demo.E 10 "a.sfz" true None w ≠ (inr (Sfz.RDoc key d), w').
Proof.
  intros w. split; [vm_compute; reflexivity|].
  intros key d w'.
  apply (sfz2soundJson_bare_filename_yields_no_document Demo.E 10 "a.sfz" true None w w'
           key d).
  - vm_compute. reflexivity.
  - vm_compute. discriminate.
Defined.

Lemma split_prefix_head s sep :
  String.prefix sep s = true -> head (PyStr.split s sep) = Some EmptyString.
Proof.
  unfold PyStr.split. destruct s as [|c s]; [done|].
  cbn [PyStr.split_go]. by intros ->.
Qed.

Lemma substitute_empty (table : pydict string) :
  PyDict.get EmptyString table = None -> substitute table EmptyString = EmptyString.
Proof.
  unfold substitute. induction table as [|[k v] table IH]; [done|].
  cbn [PyDict.get fold_left fst snd]. case_bool_decide as Hk; [done|].
  intros Hget. destruct k as [|c k]; [done|]. cbn. by apply IH.
Qed.

(** X26.  A line that begins with [//] after stripping is copied to the
    preprocessed text as it is, followed by a newline; no directive on it
    is obeyed, and neither the macro table nor the world changes (no macro
    having the empty name). *)
Theorem preprocess_line_copies_commented_line
    (E : Externals) (recurse : string -> pydict string -> M Sfz.retval)
    (shared : bool) (filenameBasedir text : string)
    (replaceDict : pydict string) (ogline : string) (w : world) :
  PyStr.startswith (PyStr.strip ogline) "//" = true ->
  PyDict.get EmptyString replaceDict = None ->
  preprocess_line E recurse shared filenameBasedir (text, replaceDict) ogline w
  = (inr (((text ++ PyStr.strip ogline) ++ nl)%string, replaceDict), w).
Proof.
  intros Hc Hempty. unfold preprocess_line, expand_line.
  rewrite (split_prefix_head _ _ Hc).
  change (default EmptyString (Some EmptyString)) with EmptyString.
  rewrite (substitute_empty _ Hempty), Hc. reflexivity.
Qed.

Lemma preprocess_line_commented_witness :
  preprocess_line Demo.E (fun _ _ => mret Sfz.RNone) true "d" ("", [("$K", "60")])
    "  // #include $K  " Demo.zones
  = (inr (("" ++ "// #include $K") ++ nl, [("$K", "60")])%string, Demo.zones).
Proof.
  apply (preprocess_line_copies_commented_line Demo.E (fun _ _ => mret Sfz.RNone) true
           "d" "" [("$K", "60")] "  // #include $K  " Demo.zones).
  - vm_compute. reflexivity.
  - vm_compute. reflexivity.
Defined.

(** ** The dispatcher, the decoder and the writer *)

Lemma swallowed_loop_runs {A} (body : A -> M unit) l w :
  for_each (fun _ f => try_except (body f) (fun _ => mret tt)) l tt w
  = (inr tt, fold_left (fun w1 f => (body f w1).2) l w).
Proof.
  revert w. induction l as [|f l IH]; intros w; [reflexivity|].
  cbn [for_each fold_left]. unfold bind at 1, try_except at 1.
  destruct (body f w) as [[e|[]] w1]; cbn; apply IH.
Qed.

Lemma fold_left_pointwise {A B} (f g : A -> B -> A) (l : list B) (a : A) :
  (forall a b, f a b = g a b) -> fold_left f l a = fold_left g l a.
Proof.
  intros Hfg. revert a. induction l as [|b l IH]; intros a; [reflexivity|].
  cbn [fold_left]. by rewrite Hfg, IH.
Qed.

(** X27.  For a path whose extension is neither [sf2] nor [sfz] the
    dispatcher returns the empty result.  If the path is a directory, the
    entries listed at the start are converted one after the other, each in
    the world the one before left and with whatever it raises swallowed; if
    it is not, nothing happens at all. *)
Theorem convertFile_unrecognised_extension_gives_empty
    (E : Externals) (fuel : nat) (infilename : string)
    (compress force stopOnFail : bool) (w : world) :
  extension infilename ≠ "sf2" -> extension infilename ≠ "sfz" ->
  convertFile E (S fuel) infilename compress force stopOnFail w
  = (inr CEmpty,
     if OsPath.isdir_in w infilename
     then fold_left
            (fun w1 f =>
               (convertFile E fuel (OsPath.join infilename f) compress force true w1).2)
            (listdir_order E (OsPath.entries_in w infilename)) w
     else w).
Proof.
  unfold extension. intros H2%String.eqb_neq Hz%String.eqb_neq. cbn [convertFile].
  rewrite mbind_unfold. unfold OsPath.isdir at 1, gets.
  destruct (OsPath.isdir_in w infilename) eqn:Hd.
  - rewrite mbind_unfold, mbind_unfold. unfold listdir at 1. rewrite Hd.
    rewrite (swallowed_loop_runs
               (fun f => _ ← convertFile E fuel (OsPath.join infilename f)
                               compress force true; mret tt)).
    rewrite H2, Hz. cbn [mret M_ret ret]. f_equal.
    apply fold_left_pointwise. intros w1 f. rewrite mbind_unfold.
    by destruct (convertFile E fuel _ compress force true w1) as [[e|r] w2].
  - rewrite mbind_unfold. cbn [mret M_ret ret]. by rewrite H2, Hz.
Qed.

Lemma convertFile_unrecognised_extension_witness :
  let run := convertFile Demo.E 10 "d" true false true Demo.zones in
  run.1 = inr CEmpty
  /\ is_Some (files run.2 !! "d/a.json")
  /\ convertFile Demo.E 10 "d/a.wav" true false true Demo.zones
     = (inr CEmpty, Demo.zones).
Proof.
  intros run. split; [|split].
  - unfold run.
    rewrite (convertFile_unrecognised_extension_gives_empty Demo.E 9 "d" true false true
               Demo.zones ltac:(vm_compute; discriminate) ltac:(vm_compute; discriminate)).
    reflexivity.
  - vm_compute. eexists. reflexivity.
  - apply (convertFile_unrecognised_extension_gives_empty Demo.E 9 "d/a.wav" true false
             true Demo.zones); vm_compute; discriminate.
Defined.

(** X28.  The two pipelines treat a missing input differently.  For an
    [.sfz] path that does not exist, and whose output file does not exist
    either, the dispatcher returns nothing and raises nothing; for an
    [.sf2] path that does not exist it raises [FileNotFoundError].  In both
    cases the world is left as it was. *)
Theorem convertFile_missing_input
    (E : Externals) (fuel : nat) (infilename : string)
    (compress force stopOnFail : bool) (w : world) :
  OsPath.exists_in w infilename = false ->
  (extension infilename = "sfz" ->
   OsPath.exists_in w (PyStr.drop_last 4 infilename ++ ".json") = false ->
   convertFile E (S (S fuel)) infilename compress force stopOnFail w
   = (inr (CSfz Sfz.RNone), w))
  /\ (extension infilename = "sf2" ->
      convertFile E (S fuel) infilename compress force stopOnFail w
      = (inl (FileNotFoundError infilename), w)).
Proof.
  unfold extension. intros Hex.
  assert (Hd : OsPath.isdir_in w infilename = false).
  { unfold OsPath.exists_in in Hex. by apply orb_false_iff in Hex as [_ ?]. }
  assert (Hf : files w !! infilename = None).
  { unfold OsPath.exists_in, OsPath.isfile_in in Hex.
    apply orb_false_iff in Hex as [Hf _]. apply bool_decide_eq_false in Hf.
    destruct (files w !! infilename); [|done]. exfalso. apply Hf. eauto. }
  split.
  - intros Hext Hout. cbn [convertFile].
    unfold mbind at 1, M_bind at 1, bind at 1, OsPath.isdir, gets. rewrite Hd.
    unfold mbind at 1, M_bind at 1, bind at 1. cbn [mret M_ret ret].
    rewrite Hext. cbn [String.eqb Ascii.eqb Bool.eqb andb].
    unfold fmap, M_fmap, bind. cbn [sfz2soundJson].
    unfold mbind at 1, M_bind at 1, bind at 1, OsPath.exists_, gets. rewrite Hout.
    unfold mbind at 1, M_bind at 1, bind at 1. rewrite Hex. reflexivity.
  - intros Hext. cbn [convertFile].
    unfold mbind at 1, M_bind at 1, bind at 1, OsPath.isdir, gets. rewrite Hd.
    unfold mbind at 1, M_bind at 1, bind at 1. cbn [mret M_ret ret].
    rewrite Hext. cbn [String.eqb Ascii.eqb Bool.eqb andb].
    unfold fmap, M_fmap, bind, sf22soundJson.
    unfold mbind at 1, M_bind at 1, bind at 1, OsPath.read_file.
    by rewrite Hf, Hd.
Qed.

Lemma convertFile_missing_input_witness :
  convertFile Demo.E 10 "d/none.sfz" true false true Demo.zones
  = (inr (CSfz Sfz.RNone), Demo.zones)
  /\ convertFile Demo.E 10 "d/none.sf2" true false true Demo.zones
     = (inl (FileNotFoundError "d/none.sf2"), Demo.zones).
Proof.
  split.
  - apply (convertFile_missing_input Demo.E 8 "d/none.sfz" true false true Demo.zones);
      vm_compute; reflexivity.
  - apply (convertFile_missing_input Demo.E 9 "d/none.sf2" true false true Demo.zones);
      vm_compute; reflexivity.
Defined.

(** X29.  Decoding leaves a scratch file behind: once the base64 text is
    decoded, the bytes are in [bs.wav] when the call ends, whether or not
    they could then be read as audio, and no other file is touched. *)
Theorem b642buffer_leaves_decoded_bytes_in_scratch_file
    (b64decode : string -> result string)
    (from_file : string -> result (list Byte.byte * Z))
    (encoded_str decoded_bytes : string) (w : world) :
  b64decode encoded_str = inr decoded_bytes ->
  OsPath.isdir_in w "bs.wav" = false ->
  files (b642buffer b64decode from_file encoded_str w).2
  = <["bs.wav" := decoded_bytes]> (files w).
Proof.
  intros Hdec Hdir. unfold b642buffer.
  unfold mbind at 1, M_bind at 1, bind at 1, lift. rewrite Hdec.
  unfold mbind at 1, M_bind at 1, bind at 1, OsPath.write_file. rewrite Hdir.
  cbn [OsPath.dirname OsPath.split OsPath.cut_last_slash fst String.eqb orb].
  change (OsPath.dirname "bs.wav") with EmptyString. cbn [String.eqb orb].
  unfold mbind at 1, M_bind at 1, bind at 1, lift.
  destruct (from_file decoded_bytes) as [e|seg]; [reflexivity|].
  unfold mbind at 1, M_bind at 1, bind at 1, lift.
  by destruct (Np.frombuffer_int16 seg.1).
Qed.

Lemma b642buffer_scratch_file_witness :
  files (b642buffer (fun s => inr s) (fun _ => inl (ExternalError "not audio"))
           "AAAA" Demo.zones).2 !! "bs.wav" = Some "AAAA".
Proof.
  rewrite (b642buffer_leaves_decoded_bytes_in_scratch_file
             (fun s => inr s) (fun _ => inl (ExternalError "not audio"))
             "AAAA" "AAAA" Demo.zones eq_refl ltac:(vm_compute; reflexivity)).
  apply lookup_insert_eq.
Defined.

(** X30.  [toFile] serializes before it touches the file system: when the
    serializer fails nothing is created, not even the directory; when
    [toFile] returns, the file holds the sorted serialization and every
    other file is as before. *)
Theorem toFile_serializes_then_writes
    (E : Externals) (outFilename : string) (outjson : pyval) (w : world) :
  (forall e, json_dumps E (Some 2%nat) true outjson = inl e ->
             toFile E outFilename outjson w = (inl e, w))
  /\ (forall w', toFile E outFilename outjson w = (inr tt, w') ->
        exists text,
          json_dumps E (Some 2%nat) true outjson = inr text
          /\ files w' = <[outFilename := text]> (files w)
          /\ OsPath.isdir_in w' outFilename = false).
Proof.
  split.
  - intros e He. unfold toFile. apply bind_raise. unfold lift. by rewrite He.
  - intros w' H. unfold toFile in H.
    apply bind_inr in H as (text & w1 & [Ht ->]%lift_inr & H).
    apply bind_inr in H as ([] & w2 & Hmk & H).
    exists text. split; [done|].
    pose proof (makedirs_files (OsPath.dirname outFilename) w) as [Hf _].
    rewrite Hmk in Hf. cbn in Hf. unfold OsPath.write_file in H.
    destruct (OsPath.isdir_in w2 outFilename) eqn:Hd; [done|].
    destruct (_ || _); [|by destruct (OsPath.isfile_in _ _)].
    injection H as <-. cbn. by rewrite Hf.
Qed.
